(** * neutronics-workshop: what the notebooks compute, and what they leave to
      the libraries

    The repository is a set of Jupyter notebooks that drive OpenMC, paramak and
    their companion packages.  This development has two layers.

    - The notebooks' own functions and arithmetic are embedded as Rocq
      functions: the post-processing of the damage-energy tally ([FindDpa]),
      the helper that saves sampled results ([Sampling], over a model of the
      file system, [Posix]), and the signs of the optimisation notebook
      ([Optimisation]).  Numbers are IEEE-754 binary64, Rocq's primitive
      floats.
    - The code cells of all fifteen notebooks are kept as syntax trees
      ([Py], [Notebooks]), and what the cells contain and in which order they
      call the libraries is computed from the trees ([Analysis], [OpenMC],
      [Paramak], [Deplete], [Arith]).

    Beyond these, the file follows the notebooks' own code further: the
    second [output_result] and the directories it makes ([OptimisationFiles]),
    the sampling loops and [find_tbr] ([SamplingRuns]), the samples and
    sweeps of the optimisation notebook ([OptimisationCells]), the way of its
    true values through the file to the plot ([TrueValues]), the geometry
    cells and tally meshes ([Csg], [Mesh]), and what reaches the calls
    ([Dataflow]).

    The libraries themselves (OpenMC, paramak, pandas, numpy, adaptive, skopt)
    are not part of the repository; where their behaviour matters it enters as
    a parameter, as a free description of the objects they are asked to
    build, or, for the decoder that pandas reads numbers with, as a model of
    its loop ([ReadJson]). *)

From Stdlib Require Import ZArith List Floats Bool String Ascii Lia.
From stdpp Require Import base strings gmap.
From Stdlib Require QArith Lqa.
Import ListNotations.
Set Warnings "-inexact-float,-register-all,-clear-no-such-hyp".
Open Scope string_scope.
Open Scope list_scope.

(** * Python numbers

    The post-processing cells compute on Python [float]s and numpy [float64]s,
    both IEEE-754 binary64, and on Python [int]s that are converted to binary64
    when they meet a float.  Binary64 is Rocq's primitive [float]; literals are
    rounded to nearest exactly as Python's parser rounds them. *)
Module PyNum.

(** [float(z)] for a Python [int]: round to nearest, ties to even. *)
Definition float_of_int (z : Z) : float :=
  SF2Prim (binary_normalize prec emax z 0 false).

(** What a cell hands to [print]: text fragments and numbers. *)
Inductive printed :=
| Text (s : string)
| Number (x : float).

End PyNum.

(** * Files and directories

    The part of the operating system the notebooks' own helper functions touch:
    regular files with their text, directories, [pathlib.Path], [Path.mkdir]
    and the builtin [open].  Keys are normalised path strings relative to the
    kernel's working directory, which always exists.  Names are read
    lexically, as [pathlib] reads them: a [..] component and a symbolic link
    are not resolved, so the model speaks for names that have neither. *)
Module Posix.

Inductive OSError :=
| FileExistsError (path : string)
| FileNotFoundError (path : string)
| NotADirectoryError (path : string)
| IsADirectoryError (path : string).

Record filesystem := {
  files : gmap string string;
  dirs : gset string
}.

(** State and exceptions: a call either raises or returns, and in both cases
    leaves a file system behind. *)
Definition IO (A : Type) : Type := filesystem -> (OSError + A) * filesystem.

#[global] Instance IO_ret : MRet IO := fun A a w => (inr a, w).
#[global] Instance IO_bind : MBind IO := fun A B k m w =>
  match m w with
  | (inl e, w') => (inl e, w')
  | (inr a, w') => k a w'
  end.

Definition raise {A} (e : OSError) : IO A := fun w => (inl e, w).
Definition get : IO filesystem := fun w => (inr w, w).
Definition put (w : filesystem) : IO unit := fun _ => (inr tt, w).

(** [try: m except OSError as e: h e] *)
Definition catch {A} (m : IO A) (h : OSError -> IO A) : IO A := fun w =>
  match m w with
  | (inl e, w') => h e w'
  | r => r
  end.

(** ** pathlib *)

Record PurePath := { absolute : bool; parts : list string }.

Fixpoint split_on_slash (s : string) : list string :=
  match s with
  | EmptyString => [EmptyString]
  | String c rest =>
      if Ascii.eqb c "/" then EmptyString :: split_on_slash rest
      else match split_on_slash rest with
           | [] => [String c EmptyString]
           | hd :: tl => String c hd :: tl
           end
  end.

Definition real_component (c : string) : bool :=
  negb (String.eqb c "") && negb (String.eqb c ".").

(** [Path(s)]: empty and [.] components are dropped. *)
Definition Path (s : string) : PurePath :=
  {| absolute := match s with String c _ => Ascii.eqb c "/" | EmptyString => false end;
     parts := List.filter real_component (split_on_slash s) |}.

Fixpoint join_slash (l : list string) : string :=
  match l with
  | [] => ""
  | [c] => c
  | c :: tl => c +:+ "/" +:+ join_slash tl
  end.

(** [str(p)] *)
Definition str (p : PurePath) : string :=
  match parts p with
  | [] => if absolute p then "/" else "."
  | _ => (if absolute p then "/" else "") +:+ join_slash (parts p)
  end.

(** [p.parent]; the parent of the working directory or of the root is itself. *)
Definition parent (p : PurePath) : PurePath :=
  {| absolute := absolute p; parts := removelast (parts p) |}.

Definition is_dir (w : filesystem) (p : PurePath) : bool :=
  match parts p with
  | [] => true
  | _ => bool_decide (str p ∈ dirs w)
  end.

Definition is_file (w : filesystem) (p : PurePath) : bool :=
  match parts p with
  | [] => false
  | _ => bool_decide (is_Some (files w !! str p))
  end.

(** [os.mkdir(p)] *)
Definition os_mkdir (p : PurePath) : IO unit :=
  w ← get;
  if is_file w (parent p) then raise (NotADirectoryError (str p))
  else if negb (is_dir w (parent p)) then raise (FileNotFoundError (str p))
  else if is_dir w p || is_file w p then raise (FileExistsError (str p))
  else put {| files := files w; dirs := {[ str p ]} ∪ dirs w |}.

(** [p.mkdir(exist_ok=True)]: an existing directory is not an error. *)
Definition mkdir_exist_ok (p : PurePath) : IO unit :=
  catch (os_mkdir p) (fun e =>
    match e with
    | FileNotFoundError _ => raise e
    | _ => w ← get; if is_dir w p then mret tt else raise e
    end).

(** [p.mkdir(parents=True, exist_ok=True)], as pathlib writes it: try,
    and on [FileNotFoundError] make the parent first.  [n] bounds the depth. *)
Fixpoint mkdir_parents_exist_ok_rec (n : nat) (p : PurePath) : IO unit :=
  catch (os_mkdir p) (fun e =>
    match e with
    | FileNotFoundError _ =>
        match n, parts p with
        | S n', _ :: _ =>
            mkdir_parents_exist_ok_rec n' (parent p);; mkdir_exist_ok p
        | _, _ => raise e
        end
    | _ => w ← get; if is_dir w p then mret tt else raise e
    end).

Definition mkdir_parents_exist_ok (p : PurePath) : IO unit :=
  mkdir_parents_exist_ok_rec (length (parts p)) p.

(** The last component of a name as the operating system reads it: what
    follows the last slash. *)
Definition last_component (filename : string) : string :=
  List.last (split_on_slash filename) "".

(** A name that can only be a directory's: it ends in a slash, or its last
    component is [.] or [..]. *)
Definition names_directory (filename : string) : bool :=
  let c := last_component filename in
  String.eqb c "" || String.eqb c "." || String.eqb c "..".

(** [open(filename, mode="w", encoding="utf-8")]: creates the file or
    truncates it, and returns the handle.  [open] is given the name as it is
    written, not a [Path]: the empty name is not found, and a name that can
    only be a directory's is not opened for writing. *)
Definition open_w (filename : string) : IO PurePath :=
  let p := Path filename in
  w ← get;
  if String.eqb filename "" then raise (FileNotFoundError filename)
  else if is_dir w p then raise (IsADirectoryError filename)
  else if is_file w (parent p) then raise (NotADirectoryError filename)
  else if negb (is_dir w (parent p)) then raise (FileNotFoundError filename)
  else if names_directory filename then
    raise (if is_file w p then NotADirectoryError filename
           else if String.eqb (last_component filename) "." then FileNotFoundError filename
           else IsADirectoryError filename)
  else put {| files := <[ str p := "" ]> (files w); dirs := dirs w |};; mret p.

(** [f.write(text)] on a handle opened for writing. *)
Definition write (f : PurePath) (text : string) : IO unit :=
  w ← get;
  put {| files := <[ str f := default "" (files w !! str f) +:+ text ]> (files w);
         dirs := dirs w |}.

End Posix.

(** * JSON-serialisable Python values *)
Module Json.

Inductive value :=
| Null
| Bool (b : bool)
| Int (n : Z)
| Float (x : float)
| Str (s : string)
| List (l : list value)
| Dict (items : list (string * value)).

End Json.

(** * Task 6: post-processing of the damage-energy tally
    [tasks/task_06_CSG_cell_tally_DPA/1_find_dpa.ipynb], code cells 6 to 8. *)
Module FindDpa.
Import PyNum.
#[local] Open Scope float_scope.

Section PostProcessing.

(** [df['mean']]: the mean column of the 'DPA' tally's dataframe, one row per
    nuclide of [reaction_tally.nuclides]. *)
Variable df_mean : list float.
(** pandas' [Series.sum]. *)
Variable Series_sum : list float -> float.
(** [cell_vol_calc_results.volumes[1].nominal_value] *)
Variable volume_of_firstwall_cell : float.

Definition density_of_iron_in_g_per_cm3 : float := 7.75.

Definition damage_energy_in_ev : float := Series_sum df_mean.

Definition displacements_per_source_neutron : float :=
  damage_energy_in_ev / float_of_int (2 * 40).

Definition displacements_per_source_neutron_with_recombination : float :=
  displacements_per_source_neutron * 0.8.

Definition fusion_power : float := 3e9.
Definition energy_per_fusion_reaction : float := 17.6e6.
Definition eV_to_Joules : float := 1.60218e-19.

Definition number_of_neutrons_per_second : float :=
  fusion_power / (energy_per_fusion_reaction * eV_to_Joules).

Definition number_of_neutrons_per_year : float :=
  number_of_neutrons_per_second * float_of_int 60 * float_of_int 60 * float_of_int 24
  * 365.25.

Definition displacements_for_all_atoms : float :=
  number_of_neutrons_per_year * displacements_per_source_neutron_with_recombination.

Definition iron_atomic_mass_in_g : float := 55.845 * 1.66054e-24.

Definition number_of_iron_atoms : float :=
  volume_of_firstwall_cell * density_of_iron_in_g_per_cm3 / iron_atomic_mass_in_g.

Definition DPA : float := displacements_for_all_atoms / number_of_iron_atoms.

(** [print('DPA =', DPA)] *)
Definition print_DPA : list printed := [Text "DPA ="; Number DPA].

End PostProcessing.

(** A left-to-right sum, to run the cells on sample data. *)
Definition sequential_sum (col : list float) : float :=
  fold_left PrimFloat.add col 0.

End FindDpa.

(** * Task 13: saving sampled results
    [unnamed/part_003], the notebook's first code cell. *)
Module Sampling.
Import Posix.

(** [filename = "outputs/" + str(uuid.uuid4()) + ".json"] *)
Definition filename (uuid4 : string) : string :=
  ("outputs/" +:+ uuid4) +:+ ".json".

Section OutputResult.

(** [json.dump(_, f, indent=4)]: the text it writes for a value. *)
Variable json_dumps : Json.value -> string.

(** [output_result(result)].  [uuid4] is the text of the identifier that this
    call's [uuid.uuid4()] draws. *)
Definition output_result (uuid4 : string) (result : Json.value) : IO unit :=
  let filename := filename uuid4 in
  mkdir_parents_exist_ok (parent (Path filename));;
  f ← open_w filename;
  write f (json_dumps result).

(** The sampling loops call [output_result] once per simulation; [draws] pairs
    the identifier each call draws with the result it is given. *)
Fixpoint output_results (draws : list (string * Json.value)) : IO unit :=
  match draws with
  | [] => mret tt
  | (uuid4, result) :: rest => output_result uuid4 result;; output_results rest
  end.

(** The files after these calls, when every call returns. *)
Definition files_after (draws : list (string * Json.value)) (before : gmap string string)
  : gmap string string :=
  foldl (fun m d => <[ filename d.1 := json_dumps d.2 ]> m) before draws.

End OutputResult.

(** The characters of [str(uuid.uuid4())]: lower-case hex digits and hyphens. *)
Definition uuid_char (c : ascii) : bool :=
  let n := nat_of_ascii c in
  ((48 <=? n) && (n <=? 57) || (97 <=? n) && (n <=? 102) || (n =? 45))%nat.

Fixpoint uuid_text (s : string) : bool :=
  match s with
  | EmptyString => true
  | String c rest => uuid_char c && uuid_text rest
  end.

End Sampling.

(** * Task 14 (16): the sign of the objective
    [tasks/task_16_parameter_study_optimisation/parameter_study_optimisation.ipynb] *)
Module Optimisation.
Import PyNum.
#[local] Open Scope float_scope.

(** One entry of [tbr_values], and one row of the dataframe read back from
    [outputs/1d_tbr_values.json]. *)
Record tbr_value := {
  breeder_percent_in_breeder_plus_multiplier : float;
  tbr : float
}.

(** What the notebook reads of the result of [gp_minimize]. *)
Record OptimizeResult := {
  x : list float;
  fun_ : float;
  x_iters : list (list float);
  func_vals : list float
}.

Section Cells.

(** [objective], imported from [openmc_model]: the quantity to minimise. *)
Variable objective : list float -> float.

(** Cell [get_true_values_1D]; [grid] is [np.linspace(0, 100, 101)]. *)
Definition get_true_values_1D (grid : list float) : list tbr_value :=
  map (fun breeder_percent =>
         {| breeder_percent_in_breeder_plus_multiplier := breeder_percent;
            tbr := - objective [breeder_percent] |}) grid.

End Cells.

(** Cell [1_plot_1d_optimisation], the true-value trace; [data] is the
    dataframe [pd.read_json('outputs/1d_tbr_values.json')]. *)
Definition x_data (data : list tbr_value) : list float :=
  map breeder_percent_in_breeder_plus_multiplier data.

Definition fx (data : list tbr_value) : list float :=
  map PrimFloat.opp (map tbr data).

(** [go.Scatter(name="True value (unknown)", x = x_data, y = [-i for i in fx])] *)
Definition true_value_trace (data : list tbr_value) : list float * list float :=
  (x_data data, map (fun i => - i) (fx data)).

(** [print('Maximum TBR = ', -res.fun)] *)
Definition print_maximum_tbr (res : OptimizeResult) : list printed :=
  [Text "Maximum TBR = "; Number (- fun_ res)].

End Optimisation.

(** * Notebook code

    The code cells of the notebooks are Python scripts.  What the notebooks
    contain, and what they leave out, is a property of this code, so the cells
    are kept as syntax trees, node for node as Python's own [ast] module parses them
    (constructor [E_X] for an expression node [X], [S_X] for a statement node
    [X]); [S_Shell] is a line that IPython hands to the shell ([!cmd]).
    Markdown cells and stored outputs are left out. *)
Module Py.

Inductive binop := Add | Sub | Mult | Div | Pow | BitAnd.
Inductive unaryop := USub | UAdd.
Inductive cmpop := Eq | Gt.

Inductive expr :=
| E_Int (n : Z)
| E_Float (x : float)
| E_Str (s : string)
| E_Bool (b : bool)
| E_None
| E_Name (id : string)
| E_Attribute (value : expr) (attr : string)
| E_Subscript (value : expr) (index : expr)
| E_Slice (lower upper : option expr)
| E_Call (func : expr) (args : list expr) (keywords : list (string * expr))
| E_BinOp (left : expr) (op : binop) (right : expr)
| E_UnaryOp (op : unaryop) (operand : expr)
| E_Compare (left : expr) (op : cmpop) (right : expr)
| E_IfExp (test body orelse : expr)
| E_List (elts : list expr)
| E_Tuple (elts : list expr)
| E_Dict (items : list (expr * expr))
| E_ListComp (elt target iter : expr)
| E_Lambda (params : list string) (body : expr).

Inductive stmt :=
| S_Import (names : list (string * option string))
| S_ImportFrom (module : string) (names : list string)
| S_Assign (target value : expr)
| S_Expr (value : expr)
| S_Return (value : option expr)
| S_For (target iter : expr) (body : list stmt)
| S_While (test : expr) (body : list stmt)
| S_If (test : expr) (body orelse : list stmt)
| S_With (context : expr) (var : option expr) (body : list stmt)
| S_Try (body : list stmt) (handlers : list (option expr * list stmt)) (finalbody : list stmt)
| S_Raise (exc : option expr)
| S_Assert (test : expr)
| S_FunctionDef (name : string) (params : list string) (body : list stmt)
| S_Shell (command : string).

(** A notebook: the file it is in, and its code cells in order. *)
Record notebook := { nb_file : string; nb_cells : list (list stmt) }.

Coercion E_Name : string >-> expr.
Notation "e @. a" := (E_Attribute e a) (at level 19, left associativity).

Definition dq : string := String (ascii_of_nat 34) EmptyString.
Definition nl : string := String (ascii_of_nat 10) EmptyString.

(** The embedded-video markup that the first cell of most notebooks displays. *)
Definition youtube_iframe (src : string) : string :=
  "<iframe width=" +:+ dq +:+ "560" +:+ dq +:+ " height=" +:+ dq +:+ "315" +:+ dq
  +:+ " src=" +:+ dq +:+ src +:+ dq +:+ " frameborder=" +:+ dq +:+ "0" +:+ dq
  +:+ " allow=" +:+ dq
  +:+ "accelerometer; autoplay; clipboard-write; encrypted-media; gyroscope; picture-in-picture"
  +:+ dq +:+ " allowfullscreen></iframe>".

(** ** Traversals *)

(** The statements of a notebook in execution order, cell after cell. *)
Definition statements (nb : notebook) : list stmt := concat (nb_cells nb).

(** A statement together with every statement nested in it. *)
Fixpoint nested (s : stmt) : list stmt :=
  s :: match s with
       | S_For _ _ b | S_While _ b | S_With _ _ b | S_FunctionDef _ _ b =>
           flat_map nested b
       | S_If _ b1 b2 => flat_map nested b1 ++ flat_map nested b2
       | S_Try b hs f =>
           flat_map nested b
           ++ flat_map (fun h => match h with (_, hb) => flat_map nested hb end) hs
           ++ flat_map nested f
       | _ => []
       end.

Definition all_statements (nb : notebook) : list stmt :=
  flat_map nested (statements nb).

Definition option_list {A} (o : option A) : list A :=
  match o with Some a => [a] | None => [] end.

(** The expressions a statement evaluates itself (not those of nested statements). *)
Definition stmt_exprs (s : stmt) : list expr :=
  match s with
  | S_Assign t v => [t; v]
  | S_Expr v => [v]
  | S_Return v => option_list v
  | S_For t i _ => [t; i]
  | S_While c _ => [c]
  | S_If c _ _ => [c]
  | S_With c v _ => c :: option_list v
  | S_Try _ hs _ => flat_map (fun h => option_list (fst h)) hs
  | S_Raise e => option_list e
  | S_Assert c => [c]
  | _ => []
  end.

(** An expression together with all its subexpressions. *)
Fixpoint sub_exprs (e : expr) : list expr :=
  e :: match e with
       | E_Attribute v _ => sub_exprs v
       | E_Subscript v i => sub_exprs v ++ sub_exprs i
       | E_Slice lo hi =>
           match lo with Some x => sub_exprs x | None => [] end
           ++ match hi with Some x => sub_exprs x | None => [] end
       | E_Call f args kws =>
           sub_exprs f ++ flat_map sub_exprs args
           ++ flat_map (fun kw => match kw with (_, v) => sub_exprs v end) kws
       | E_BinOp l _ r => sub_exprs l ++ sub_exprs r
       | E_UnaryOp _ x => sub_exprs x
       | E_Compare l _ r => sub_exprs l ++ sub_exprs r
       | E_IfExp c a b => sub_exprs c ++ sub_exprs a ++ sub_exprs b
       | E_List es | E_Tuple es => flat_map sub_exprs es
       | E_Dict kvs =>
           flat_map (fun kv => match kv with (k, v) => sub_exprs k ++ sub_exprs v end) kvs
       | E_ListComp elt t it => sub_exprs elt ++ sub_exprs t ++ sub_exprs it
       | E_Lambda _ b => sub_exprs b
       | _ => []
       end.

Definition all_exprs (nb : notebook) : list expr :=
  flat_map sub_exprs (flat_map stmt_exprs (all_statements nb)).

(** The name a call is made under: [f] for [f(...)], [m] for [x.y.m(...)]. *)
Definition callee_name (f : expr) : string :=
  match f with
  | E_Name x => x
  | E_Attribute _ a => a
  | _ => ""
  end.

(** The variable or module an access path starts from: [a] for [a.b(c).d[e]]. *)
Fixpoint root_name (e : expr) : string :=
  match e with
  | E_Name x => x
  | E_Attribute v _ => root_name v
  | E_Subscript v _ => root_name v
  | E_Call f _ _ => root_name f
  | _ => ""
  end.

Definition mem (x : string) (l : list string) : bool :=
  existsb (String.eqb x) l.

(** The calls of a notebook, as (function, positional arguments, keywords). *)
Definition calls (es : list expr) : list (expr * list expr * list (string * expr)) :=
  flat_map (fun e => match e with E_Call f a k => [(f, a, k)] | _ => [] end) es.

Definition calls_named (names : list string) (es : list expr) : list expr :=
  flat_map (fun e => match e with
                     | E_Call f _ _ => if mem (callee_name f) names then [e] else []
                     | _ => []
                     end) es.

(** The value of keyword [k] in a call. *)
Definition keyword (k : string) (kws : list (string * expr)) : option expr :=
  snd <$> List.find (fun kw => String.eqb (fst kw) k) kws.

(** An argument that a call passes by keyword or by position. *)
Definition argument (position : nat) (k : string) (args : list expr)
    (kws : list (string * expr)) : option expr :=
  match keyword k kws with
  | Some e => Some e
  | None => nth_error args position
  end.

(** The first element that satisfies [p], with what precedes and follows it. *)
Fixpoint split_when {A} (p : A -> bool) (l : list A) : option (list A * A * list A) :=
  match l with
  | [] => None
  | a :: l' =>
      if p a then Some ([], a, l')
      else match split_when p l' with
           | Some (before, x, after) => Some (a :: before, x, after)
           | None => None
           end
  end.

(** The value a variable holds after the statements [l]: that of its last
    assignment. *)
Definition assigned (x : string) (l : list stmt) : option expr :=
  foldl (fun found s => match s with
                        | S_Assign (E_Name y) v => if String.eqb x y then Some v else found
                        | _ => found
                        end) None l.

(** A variable stands for the value it was assigned; other expressions for
    themselves. *)
Definition resolve (l : list stmt) (e : expr) : option expr :=
  match e with
  | E_Name x => assigned x l
  | _ => Some e
  end.

Definition ends_with (suffix s : string) : bool :=
  let n := String.length s in
  let k := String.length suffix in
  (k <=? n)%nat && String.eqb (String.substring (n - k) k s) suffix.

End Py.

(** * The notebooks

    One definition per notebook, in the order of the source files; a file that
    holds several notebooks gives several definitions. *)
Module Notebooks.
Import Py.

(** [tasks/task_01_cross_sections/1_isotope_xs_plot.ipynb]: Part 1 - Plotting isotope cross sections *)
Definition nb_isotope_xs_plot : notebook :=
  {| nb_file := "tasks/task_01_cross_sections/1_isotope_xs_plot.ipynb";
     nb_cells :=
       [ [ S_ImportFrom "IPython.display" ["HTML"]
          ; S_Expr
              (E_Call (E_Name "HTML")
                 [E_Str (youtube_iframe "https://www.youtube.com/embed/eBZ2lY_2v7I")] []) ]
       ; [ S_Import [("plotly.graph_objects", Some "go")]
          ; S_ImportFrom "plotting_utils" ["create_isotope_plot"]
          ; S_Assign (E_Name "isotopes_of_interest") (E_List [E_Str "Be9"; E_Str "Pb204"])
          ; S_Assign (E_Name "reactions_of_interest") (E_Str "(n,2n)")
          ; S_Expr
              (E_Call (E_Name "create_isotope_plot") []
                 [ ("isotopes", E_Name "isotopes_of_interest")
                 ; ("reaction", E_Name "reactions_of_interest") ]) ]
       ; [ S_Assign (E_Name "isotopes_of_interest")
              (E_List (map E_Str ["Be9"; "Pb204"; "Pb206"; "Pb207"; "Pb208"]))
          ; S_Assign (E_Name "reactions_of_interest") (E_Str "(n,2n)")
          ; S_Expr
              (E_Call (E_Name "create_isotope_plot") []
                 [ ("isotopes", E_Name "isotopes_of_interest")
                 ; ("reaction", E_Name "reactions_of_interest") ]) ]
       ; [ S_Assign (E_Name "isotopes_of_interest")
              (E_List
                 (map E_Str
                    [ "Ag107"; "Ag109"; "Al27"; "Ar36"; "Ar38"; "Ar40"; "As75"; "Au197"; "B10";
                      "B11"; "Ba130"; "Ba132"; "Ba134"; "Ba135"; "Ba136"; "Ba137"; "Ba138";
                      "Be9"; "Bi209"; "Br79"; "Br81"; "Ca40"; "Ca42"; "Ca43"; "Ca44"; "Ca46";
                      "Ca48"; "Cd106"; "Cd108"; "Cd110"; "Cd111"; "Cd112"; "Cd113"; "Cd114";
                      "Cd116"; "Ce136"; "Ce138"; "Ce140"; "Ce142"; "Cl35"; "Cl37"; "Co59";
                      "Cr50"; "Cr52"; "Cr53"; "Cr54"; "Cs133"; "Cu63"; "Cu65"; "Dy156";
                      "Dy158"; "Dy160"; "Dy161"; "Dy162"; "Dy163"; "Dy164"; "Er162"; "Er164";
                      "Er166"; "Er167"; "Er168"; "Er170"; "Eu151"; "Eu153"; "F19"; "Fe54";
                      "Fe56"; "Fe57"; "Fe58"; "Ga69"; "Ga71"; "Gd152"; "Gd154"; "Gd155";
                      "Gd156"; "Gd157"; "Gd158"; "Gd160"; "Ge70"; "Ge72"; "Ge73"; "Ge74";
                      "Ge76"; "H1"; "H2"; "He3"; "He4"; "Hf174"; "Hf176"; "Hf177"; "Hf178";
                      "Hf179"; "Hf180"; "Hg196"; "Hg198"; "Hg199"; "Hg200"; "Hg201"; "Hg202";
                      "Hg204"; "Ho165"; "I127"; "In113"; "In115"; "Ir191"; "Ir193"; "K39";
                      "K40"; "K41"; "Kr78"; "Kr80"; "Kr82"; "Kr83"; "Kr84"; "Kr86"; "La138";
                      "La139"; "Li6"; "Li7"; "Lu175"; "Lu176"; "Mg24"; "Mg25"; "Mg26"; "Mn55";
                      "Mo100"; "Mo92"; "Mo94"; "Mo95"; "Mo96"; "Mo97"; "Mo98"; "N14"; "N15";
                      "Na23"; "Nb93"; "Nd142"; "Nd143"; "Nd144"; "Nd145"; "Nd146"; "Nd148";
                      "Nd150"; "Ni58"; "Ni60"; "Ni61"; "Ni62"; "Ni64"; "O16"; "O17"; "P31";
                      "Pa231"; "Pb204"; "Pb206"; "Pb207"; "Pb208"; "Pd102"; "Pd104"; "Pd105";
                      "Pd106"; "Pd108"; "Pd110"; "Pr141"; "Rb85"; "Rb87"; "Re185"; "Re187";
                      "Rh103"; "Ru100"; "Ru101"; "Ru102"; "Ru104"; "Ru96"; "Ru98"; "Ru99";
                      "S32"; "S33"; "S34"; "S36"; "Sb121"; "Sb123"; "Sc45"; "Se74"; "Se76";
                      "Se77"; "Se78"; "Se80"; "Se82"; "Si28"; "Si29"; "Si30"; "Sm144"; "Sm147";
                      "Sm148"; "Sm149"; "Sm150"; "Sm152"; "Sm154"; "Sn112"; "Sn114"; "Sn115";
                      "Sn116"; "Sn117"; "Sn118"; "Sn119"; "Sn120"; "Sn122"; "Sn124"; "Sr84";
                      "Sr86"; "Sr87"; "Sr88"; "Ta180"; "Ta181"; "Tb159"; "Te120"; "Te122";
                      "Te123"; "Te124"; "Te125"; "Te126"; "Te128"; "Te130"; "Th232"; "Ti46";
                      "Ti47"; "Ti48"; "Ti49"; "Ti50"; "Tl203"; "Tl205"; "Tm169"; "U234";
                      "U235"; "U238"; "V50"; "V51"; "W180"; "W182"; "W183"; "W184"; "W186";
                      "Xe124"; "Xe126"; "Xe128"; "Xe129"; "Xe130"; "Xe131"; "Xe132"; "Xe134";
                      "Xe136"; "Y89"; "Zn64"; "Zn66"; "Zn67"; "Zn68"; "Zn70"; "Zr90"; "Zr91";
                      "Zr92"; "Zr94"; "Zr96" ]))
          ; S_Assign (E_Name "reactions_of_interest") (E_Str "(n,2n)")
          ; S_Assign (E_Name "number_of_isotopes_to_plot") (E_Int 30)
          ; S_Expr
              (E_Call (E_Name "create_isotope_plot") []
                 [ ("isotopes",
                    E_Subscript (E_Name "isotopes_of_interest")
                      (E_Slice None (Some (E_Name "number_of_isotopes_to_plot"))))
                 ; ("reaction", E_Name "reactions_of_interest") ]) ]
       ] |}.

(** [tasks/task_04_make_sources/3_plasma_source_plots.ipynb]: Part 2 - plasma source plotting *)
Definition nb_plasma_source_plots : notebook :=
  {| nb_file := "tasks/task_04_make_sources/3_plasma_source_plots.ipynb";
     nb_cells :=
       [ [S_ImportFrom "random" ["random"]; S_Import [("openmc", None)]]
       ; [ S_ImportFrom "openmc_plasma_source" ["TokamakSource"]
          ; S_Assign (E_Name "my_source")
              (E_Call
                 ((E_Call (E_Name "TokamakSource") [] [("elongation", E_Float 1.557); ("ion_density_centre", E_Float 1.09e20); ("ion_density_peaking_factor", E_Int 1); ("ion_density_pedestal", E_Float 1.09e20); ("ion_density_separatrix", E_Float 3e19); ("ion_temperature_centre", E_Float 45.9); ("ion_temperature_peaking_factor", E_Float 8.06); ("ion_temperature_pedestal", E_Float 6.09); ("ion_temperature_separatrix", E_Float 0.1); ("major_radius", E_Float 9.06); ("minor_radius", E_Float 2.92258); ("pedestal_radius", E_BinOp (E_Float 0.8) Mult (E_Float 2.92258)); ("mode", E_Str "H"); ("shafranov_factor", E_Float 0.44789); ("triangularity", E_Float 0.270); ("ion_temperature_beta", E_Int 6)]) @. "make_openmc_sources")
                 [] []) ]
       ; [ S_Import [("openmc_source_plotter", Some "osp")]
          ; S_Expr (E_Call ("osp" @. "plot_source_energy") [] [("source", E_Name "my_source")]) ]
       ; [ S_Expr
              (E_Call ("osp" @. "plot_source_position") []
                 [ ("source", E_Name "my_source")
                 ; ("openmc_exec", E_Str "/opt/conda/envs/openmc_version_0_11_0/bin/openmc") ]) ]
       ; [ S_Expr
              (E_Call ("osp" @. "plot_source_direction") []
                 [ ("source", E_Name "my_source")
                 ; ("openmc_exec", E_Str "/opt/conda/envs/openmc_version_0_11_0/bin/openmc") ]) ]
       ] |}.

(** [tasks/task_06_CSG_cell_tally_DPA/1_find_dpa.ipynb]: Simulating Displacements Per Atom (DPA) *)
Definition nb_find_dpa : notebook :=
  {| nb_file := "tasks/task_06_CSG_cell_tally_DPA/1_find_dpa.ipynb";
     nb_cells :=
       [ [ S_ImportFrom "IPython.display" ["HTML"]
          ; S_Expr
              (E_Call (E_Name "HTML")
                 [E_Str (youtube_iframe "https://youtube.com/embed/VLn59FSc4GA")] []) ]
       ; [ S_Import [("openmc", None)]
          ; S_Import [("json", None)]
          ; S_Assign (E_Name "density_of_iron_in_g_per_cm3") (E_Float 7.75)
          ; S_Assign (E_Name "my_material")
              (E_Call ("openmc" @. "Material") [] [("name", E_Str "Iron")])
          ; S_Expr
              (E_Call ("my_material" @. "set_density")
                 [E_Str "g/cm3"; E_Name "density_of_iron_in_g_per_cm3"] [])
          ; S_Expr
              (E_Call ("my_material" @. "add_element") [E_Str "Fe"; E_Float 1.0]
                 [("percent_type", E_Str "wo")])
          ; S_Assign (E_Name "mats")
              (E_Call ("openmc" @. "Materials") [E_List [E_Name "my_material"]] [])
          ; S_Assign (E_Name "outer_surface")
              (E_Call ("openmc" @. "Sphere") []
                 [("r", E_Int 610); ("boundary_type", E_Str "vacuum")])
          ; S_Assign (E_Name "vessel_region") (E_UnaryOp USub (E_Name "outer_surface"))
          ; S_Assign (E_Name "vessel_cell")
              (E_Call ("openmc" @. "Cell") [] [("region", E_Name "vessel_region")])
          ; S_Assign ("vessel_cell" @. "fill") (E_Name "my_material")
          ; S_Assign (E_Name "universe")
              (E_Call ("openmc" @. "Universe") [] [("cells", E_List [E_Name "vessel_cell"])])
          ; S_Assign (E_Name "geom") (E_Call ("openmc" @. "Geometry") [E_Name "universe"] [])
          ; S_Assign (E_Name "sett") (E_Call ("openmc" @. "Settings") [] [])
          ; S_Assign (E_Name "batches") (E_Int 10)
          ; S_Assign ("sett" @. "batches") (E_Name "batches")
          ; S_Assign ("sett" @. "inactive") (E_Int 0)
          ; S_Assign ("sett" @. "particles") (E_Int 10000)
          ; S_Assign ("sett" @. "run_mode") (E_Str "fixed source")
          ; S_Assign (E_Name "source") (E_Call ("openmc" @. "Source") [] [])
          ; S_Assign ("source" @. "space")
              (E_Call ("openmc" @. "stats" @. "Point") [E_Tuple [E_Int 0; E_Int 0; E_Int 0]] [])
          ; S_Assign ("source" @. "angle") (E_Call ("openmc" @. "stats" @. "Isotropic") [] [])
          ; S_Assign ("source" @. "energy")
              (E_Call ("openmc" @. "stats" @. "Discrete")
                 [E_List [E_Float 14e6]; E_List [E_Int 1]] [])
          ; S_Assign ("sett" @. "source") (E_Name "source") ]
       ; [ S_Assign (E_Name "tallies") (E_Call ("openmc" @. "Tallies") [] [])
          ; S_Assign (E_Name "cell_filter")
              (E_Call ("openmc" @. "CellFilter") [E_Name "vessel_cell"] [])
          ; S_Assign (E_Name "reaction_tally")
              (E_Call ("openmc" @. "Tally") [] [("name", E_Str "DPA")])
          ; S_Assign ("reaction_tally" @. "filters") (E_List [E_Name "cell_filter"])
          ; S_Assign ("reaction_tally" @. "scores") (E_List [E_Str "444"])
          ; S_Assign ("reaction_tally" @. "nuclides")
              (E_List (map E_Str ["Fe54"; "Fe56"; "Fe57"; "Fe58"]))
          ; S_Expr (E_Call ("tallies" @. "append") [E_Name "reaction_tally"] []) ]
       ; [ S_Assign (E_Name "model")
              (E_Call ("openmc" @. "model" @. "Model")
                 [E_Name "geom"; E_Name "mats"; E_Name "sett"; E_Name "tallies"] [])
          ; S_Shell "rm *.h5"
          ; S_Assign (E_Name "sp_filename") (E_Call ("model" @. "run") [] []) ]
       ; [ S_Assign (E_Name "sp")
              (E_Call ("openmc" @. "StatePoint") [E_Name "sp_filename"] [])
          ; S_Assign (E_Name "tally") (E_Call ("sp" @. "get_tally") [] [("name", E_Str "DPA")])
          ; S_Assign (E_Name "df") (E_Call ("tally" @. "get_pandas_dataframe") [] [])
          ; S_Expr (E_Name "df") ]
       ; [ S_Assign (E_Name "damage_energy_in_ev")
              (E_Call ((E_Subscript (E_Name "df") (E_Str "mean")) @. "sum") [] [])
          ; S_Expr
              (E_Call (E_Name "print")
                 [ E_Str "Damage energy deposited per source neutron = "
                 ; E_Name "damage_energy_in_ev"
                 ; E_Str ("eV" +:+ nl) ] [])
          ; S_Expr
              (E_Call (E_Name "print")
                 [E_Str "Two times the threshold energy of 40eV is needed to displace an atom"]
                 [])
          ; S_Assign (E_Name "displacements_per_source_neutron")
              (E_BinOp (E_Name "damage_energy_in_ev") Div (E_BinOp (E_Int 2) Mult (E_Int 40)))
          ; S_Expr
              (E_Call (E_Name "print")
                 [ E_Str "Displacements per source neutron = "
                 ; E_Name "displacements_per_source_neutron"
                 ; E_Str nl ] [])
          ; S_Expr
              (E_Call (E_Name "print")
                 [ E_Str
                     "Assuming about 80% remains after 20% recombine to original lattice locations" ]
                 [])
          ; S_Assign (E_Name "displacements_per_source_neutron_with_recombination")
              (E_BinOp (E_Name "displacements_per_source_neutron") Mult (E_Float 0.8))
          ; S_Expr
              (E_Call (E_Name "print")
                 [ E_Str "Displacements per source neutron after recombination = "
                 ; E_Name "displacements_per_source_neutron_with_recombination"
                 ; E_Str nl ] [])
          ; S_Assign (E_Name "fusion_power") (E_Float 3e9)
          ; S_Assign (E_Name "energy_per_fusion_reaction") (E_Float 17.6e6)
          ; S_Assign (E_Name "eV_to_Joules") (E_Float 1.60218e-19)
          ; S_Assign (E_Name "number_of_neutrons_per_second")
              (E_BinOp (E_Name "fusion_power") Div
                 (E_BinOp (E_Name "energy_per_fusion_reaction") Mult (E_Name "eV_to_Joules")))
          ; S_Expr
              (E_Call (E_Name "print")
                 [ E_Str "Number of neutrons per second"
                 ; E_Name "number_of_neutrons_per_second"
                 ; E_Str nl ] [])
          ; S_Assign (E_Name "number_of_neutrons_per_year")
              (E_BinOp
                 (E_BinOp
                    (E_BinOp (E_BinOp (E_Name "number_of_neutrons_per_second") Mult (E_Int 60))
                       Mult (E_Int 60)) Mult (E_Int 24)) Mult (E_Float 365.25))
          ; S_Expr
              (E_Call (E_Name "print")
                 [ E_Str "Number of neutrons per full power year "
                 ; E_Name "number_of_neutrons_per_year" ] [])
          ; S_Assign (E_Name "displacements_for_all_atoms")
              (E_BinOp (E_Name "number_of_neutrons_per_year") Mult
                 (E_Name "displacements_per_source_neutron_with_recombination"))
          ; S_Expr
              (E_Call (E_Name "print")
                 [ E_Str "Displacements for all atoms in the volume "
                 ; E_Name "displacements_for_all_atoms"
                 ; E_Str nl ] [])
          ; S_Expr
              (E_Call (E_Name "print")
                 [ E_Str
                     "Now the number of atoms in the volume must be found to find displacements per atom (DPA)" ]
                 []) ]
       ; [ S_Assign (E_Name "lower_left")
              (E_Tuple
                 [ E_UnaryOp USub (E_Int 1000)
                 ; E_UnaryOp USub (E_Int 1000)
                 ; E_UnaryOp USub (E_Float 1000.0) ])
          ; S_Assign (E_Name "upper_right") (E_Tuple [E_Int 1000; E_Int 1000; E_Float 1000.0])
          ; S_Assign (E_Name "material_vol_calc")
              (E_Call ("openmc" @. "VolumeCalculation")
                 [ E_List [E_Name "my_material"]
                 ; E_Int 100000
                 ; E_Name "lower_left"
                 ; E_Name "upper_right" ] [])
          ; S_Assign (E_Name "cell_vol_calc")
              (E_Call ("openmc" @. "VolumeCalculation")
                 [E_List [E_Name "vessel_cell"]; E_Int 100000] [])
          ; S_Assign (E_Name "settings") (E_Call ("openmc" @. "Settings") [] [])
          ; S_Assign ("settings" @. "volume_calculations")
              (E_List [E_Name "cell_vol_calc"; E_Name "material_vol_calc"])
          ; S_Assign ("settings" @. "run_mode") (E_Str "volume")
          ; S_Expr (E_Call ("settings" @. "export_to_xml") [] [])
          ; S_Shell "rm *.h5"
          ; S_Expr (E_Call ("openmc" @. "run") [] [])
          ; S_Assign (E_Name "cell_vol_calc_results")
              (E_Call ("openmc" @. "VolumeCalculation" @. "from_hdf5") [E_Str "volume_1.h5"] [])
          ; S_Expr
              (E_Call (E_Name "print")
                 [ E_Str (nl +:+ "vessel_cell volume")
                 ; E_Subscript ("cell_vol_calc_results" @. "volumes") (E_Int 1)
                 ; E_Str "cm3" ] [])
          ; S_Assign (E_Name "material_vol_calc_results")
              (E_Call ("openmc" @. "VolumeCalculation" @. "from_hdf5") [E_Str "volume_2.h5"] [])
          ; S_Expr
              (E_Call (E_Name "print")
                 [ E_Str "my_material volume"
                 ; E_Subscript ("material_vol_calc_results" @. "volumes") (E_Int 1)
                 ; E_Str "cm3" ] [])
          ; S_Assign (E_Name "volume_of_firstwall_cell")
              ((E_Subscript ("cell_vol_calc_results" @. "volumes") (E_Int 1)) @. "nominal_value")
          ; S_Assign (E_Name "iron_atomic_mass_in_g")
              (E_BinOp (E_Float 55.845) Mult (E_Float 1.66054e-24))
          ; S_Assign (E_Name "number_of_iron_atoms")
              (E_BinOp
                 (E_BinOp (E_Name "volume_of_firstwall_cell") Mult
                    (E_Name "density_of_iron_in_g_per_cm3")) Div
                 (E_Name "iron_atomic_mass_in_g"))
          ; S_Expr
              (E_Call (E_Name "print")
                 [E_Str "Number of iron atoms in the firstwall "; E_Name "number_of_iron_atoms"]
                 []) ]
       ; [ S_Assign (E_Name "DPA")
              (E_BinOp (E_Name "displacements_for_all_atoms") Div
                 (E_Name "number_of_iron_atoms"))
          ; S_Expr (E_Call (E_Name "print") [E_Str "DPA ="; E_Name "DPA"] []) ]
       ] |}.

(** [tasks/task_08_CSG_mesh_tally/1_example_2d_mesh_tallies.ipynb]: Part 1 - 2D mesh tallies *)
Definition nb_example_2d_mesh_tallies : notebook :=
  {| nb_file := "tasks/task_08_CSG_mesh_tally/1_example_2d_mesh_tallies.ipynb";
     nb_cells :=
       [ [ S_ImportFrom "IPython.display" ["HTML"]
          ; S_Expr
              (E_Call (E_Name "HTML")
                 [E_Str (youtube_iframe "https://www.youtube.com/embed/KYIsDjip1nQ")] []) ]
       ; [ S_Import [("openmc", None)]
          ; S_Import [("matplotlib.pyplot", Some "plt")]
          ; S_Assign (E_Name "mats") (E_Call ("openmc" @. "Materials") [] [])
          ; S_Assign (E_Name "breeder_material")
              (E_Call ("openmc" @. "Material") [] [("name", E_Str "breeder")])
          ; S_Expr
              (E_Call ("breeder_material" @. "add_element") [E_Str "Li"; E_Int 1]
                 [("percent_type", E_Str "ao")])
          ; S_Expr
              (E_Call ("breeder_material" @. "set_density") [E_Str "g/cm3"; E_Float 2.0] [])
          ; S_Assign (E_Name "multiplier_material")
              (E_Call ("openmc" @. "Material") [] [("name", E_Str "multiplier")])
          ; S_Expr
              (E_Call ("multiplier_material" @. "add_element") [E_Str "Pb"; E_Int 1]
                 [("percent_type", E_Str "ao")])
          ; S_Expr
              (E_Call ("multiplier_material" @. "set_density") [E_Str "g/cm3"; E_Float 11.0] [])
          ; S_Assign (E_Name "mats")
              (E_List [E_Name "breeder_material"; E_Name "multiplier_material"])
          ; S_Assign (E_Name "sph1") (E_Call ("openmc" @. "Sphere") [] [("r", E_Int 50)])
          ; S_Assign (E_Name "sph2")
              (E_Call ("openmc" @. "Sphere") []
                 [("r", E_Int 90); ("boundary_type", E_Str "vacuum")])
          ; S_Assign (E_Name "plane1") (E_Call ("openmc" @. "XPlane") [E_Int 20] [])
          ; S_Assign (E_Name "breeder_cell")
              (E_Call ("openmc" @. "Cell") []
                 [ ("region",
                    E_BinOp
                      (E_BinOp (E_UnaryOp UAdd (E_Name "sph1")) BitAnd
                         (E_UnaryOp USub (E_Name "sph2"))) BitAnd
                      (E_UnaryOp USub (E_Name "plane1"))) ])
          ; S_Assign ("breeder_cell" @. "fill") (E_Name "breeder_material")
          ; S_Assign (E_Name "multiplier_cell")
              (E_Call ("openmc" @. "Cell") []
                 [ ("region",
                    E_BinOp
                      (E_BinOp (E_UnaryOp UAdd (E_Name "sph1")) BitAnd
                         (E_UnaryOp USub (E_Name "sph2"))) BitAnd
                      (E_UnaryOp UAdd (E_Name "plane1"))) ])
          ; S_Assign ("multiplier_cell" @. "fill") (E_Name "multiplier_material")
          ; S_Assign (E_Name "inner_vacuum_cell")
              (E_Call ("openmc" @. "Cell") [] [("region", E_UnaryOp USub (E_Name "sph1"))])
          ; S_Assign (E_Name "universe")
              (E_Call ("openmc" @. "Universe") []
                 [ ("cells",
                    E_List
                      [ E_Name "inner_vacuum_cell"
                      ; E_Name "breeder_cell"
                      ; E_Name "multiplier_cell" ]) ])
          ; S_Assign (E_Name "geom") (E_Call ("openmc" @. "Geometry") [E_Name "universe"] [])
          ; S_Assign (E_Name "sett") (E_Call ("openmc" @. "Settings") [] [])
          ; S_Assign ("sett" @. "batches") (E_Int 100)
          ; S_Assign ("sett" @. "inactive") (E_Int 0)
          ; S_Assign ("sett" @. "particles") (E_Int 50)
          ; S_Assign ("sett" @. "particle") (E_Str "neutron")
          ; S_Assign ("sett" @. "run_mode") (E_Str "fixed source")
          ; S_Assign (E_Name "source") (E_Call ("openmc" @. "Source") [] [])
          ; S_Assign ("source" @. "space")
              (E_Call ("openmc" @. "stats" @. "Point") [E_Tuple [E_Int 0; E_Int 0; E_Int 0]] [])
          ; S_Assign ("source" @. "angle") (E_Call ("openmc" @. "stats" @. "Isotropic") [] [])
          ; S_Assign ("source" @. "energy")
              (E_Call ("openmc" @. "stats" @. "Discrete")
                 [E_List [E_Float 14e6]; E_List [E_Int 1]] [])
          ; S_Assign ("sett" @. "source") (E_Name "source")
          ; S_Assign (E_Name "mesh") (E_Call ("openmc" @. "RegularMesh") [] [])
          ; S_Assign (E_Name "mesh_height") (E_Int 100)
          ; S_Assign (E_Name "mesh_width") (E_Name "mesh_height")
          ; S_Assign ("mesh" @. "dimension")
              (E_List [E_Name "mesh_width"; E_Int 1; E_Name "mesh_height"])
          ; S_Assign ("mesh" @. "lower_left")
              (E_List
                 [ E_UnaryOp USub (E_Int 200)
                 ; E_UnaryOp USub (E_Int 200)
                 ; E_UnaryOp USub (E_Int 200) ])
          ; S_Assign ("mesh" @. "upper_right") (E_List [E_Int 200; E_Int 200; E_Int 200])
          ; S_Assign (E_Name "tallies") (E_Call ("openmc" @. "Tallies") [] [])
          ; S_Assign (E_Name "mesh_filter")
              (E_Call ("openmc" @. "MeshFilter") [E_Name "mesh"] [])
          ; S_Assign (E_Name "mesh_tally")
              (E_Call ("openmc" @. "Tally") [] [("name", E_Str "tallies_on_mesh")])
          ; S_Assign ("mesh_tally" @. "filters") (E_List [E_Name "mesh_filter"])
          ; S_Assign ("mesh_tally" @. "scores")
              (E_List [E_Str "flux"; E_Str "absorption"; E_Str "(n,2n)"])
          ; S_Expr (E_Call ("tallies" @. "append") [E_Name "mesh_tally"] [])
          ; S_Assign (E_Name "model")
              (E_Call ("openmc" @. "model" @. "Model")
                 [E_Name "geom"; E_Name "mats"; E_Name "sett"; E_Name "tallies"] [])
          ; S_Expr
              (E_Call ("plt" @. "show")
                 [ E_Call ("universe" @. "plot") []
                     [("width", E_Tuple [E_Int 180; E_Int 180]); ("basis", E_Str "xz")] ] []) ]
       ; [ S_Shell "rm summary.h5"
          ; S_Shell "rm statepoint.*.h5"
          ; S_Assign (E_Name "output_filename") (E_Call ("model" @. "run") [] [])
          ; S_Assign (E_Name "results")
              (E_Call ("openmc" @. "StatePoint") [E_Name "output_filename"] []) ]
       ; [ S_Assign (E_Name "my_tally")
              (E_Call ("results" @. "get_tally") [] [("scores", E_List [E_Str "flux"])])
          ; S_Assign (E_Name "my_slice")
              (E_Call ("my_tally" @. "get_slice") [] [("scores", E_List [E_Str "flux"])])
          ; S_Assign ("my_slice" @. "mean" @. "shape")
              (E_Tuple [E_Name "mesh_width"; E_Name "mesh_height"])
          ; S_Assign (E_Name "fig") (E_Call ("plt" @. "subplot") [] [])
          ; S_Expr
              (E_Call ("plt" @. "show")
                 [ E_Call ("fig" @. "imshow") ["my_slice" @. "mean"]
                     [ ("extent",
                        E_List
                          [ E_UnaryOp USub (E_Int 200)
                          ; E_Int 200
                          ; E_UnaryOp USub (E_Int 200)
                          ; E_Int 200 ]) ] ] []) ]
       ; [ S_Assign (E_Name "my_tally")
              (E_Call ("results" @. "get_tally") [] [("scores", E_List [E_Str "absorption"])])
          ; S_Assign (E_Name "my_slice")
              (E_Call ("my_tally" @. "get_slice") [] [("scores", E_List [E_Str "absorption"])])
          ; S_Assign ("my_slice" @. "mean" @. "shape")
              (E_Tuple [E_Name "mesh_width"; E_Name "mesh_height"])
          ; S_Assign (E_Name "fig") (E_Call ("plt" @. "subplot") [] [])
          ; S_Expr
              (E_Call ("plt" @. "show")
                 [ E_Call ("fig" @. "imshow") ["my_slice" @. "mean"]
                     [ ("extent",
                        E_List
                          [ E_UnaryOp USub (E_Int 200)
                          ; E_Int 200
                          ; E_UnaryOp USub (E_Int 200)
                          ; E_Int 200 ]) ] ] []) ]
       ; [ S_Assign (E_Name "my_tally")
              (E_Call ("results" @. "get_tally") [] [("scores", E_List [E_Str "(n,2n)"])])
          ; S_Assign (E_Name "my_slice")
              (E_Call ("my_tally" @. "get_slice") [] [("scores", E_List [E_Str "(n,2n)"])])
          ; S_Assign ("my_slice" @. "mean" @. "shape")
              (E_Tuple [E_Name "mesh_width"; E_Name "mesh_height"])
          ; S_Assign (E_Name "fig") (E_Call ("plt" @. "subplot") [] [])
          ; S_Expr
              (E_Call ("plt" @. "show")
                 [ E_Call ("fig" @. "imshow") ["my_slice" @. "mean"]
                     [ ("extent",
                        E_List
                          [ E_UnaryOp USub (E_Int 200)
                          ; E_Int 200
                          ; E_UnaryOp USub (E_Int 200)
                          ; E_Int 200 ]) ] ] []) ]
       ; [ S_Assign (E_Name "mesh") (E_Call ("openmc" @. "RegularMesh") [] [])
          ; S_Assign (E_Name "mesh_height") (E_Int 100)
          ; S_Assign (E_Name "mesh_width") (E_Name "mesh_height")
          ; S_Assign ("mesh" @. "dimension")
              (E_List [E_Name "mesh_width"; E_Int 1; E_Name "mesh_height"])
          ; S_Assign ("mesh" @. "lower_left")
              (E_List
                 [ E_UnaryOp USub (E_Int 200)
                 ; E_UnaryOp USub (E_Float 0.5)
                 ; E_UnaryOp USub (E_Int 200) ])
          ; S_Assign ("mesh" @. "upper_right") (E_List [E_Int 200; E_Float 0.5; E_Int 200]) ]
       ] |}.

(** [tasks/task_08_CSG_mesh_tally/1_example_2d_mesh_tallies.ipynb] (document 2 of the file): Part 2 - Plotting photon energy spectra in a histogram form *)
Definition nb_photon_energy_spectra : notebook :=
  {| nb_file := "tasks/task_08_CSG_mesh_tally/1_example_2d_mesh_tallies.ipynb";
     nb_cells :=
       [ [ S_Import [("openmc", None)]
          ; S_Assign (E_Name "my_material")
              (E_Call ("openmc" @. "Material") [] [("name", E_Str "tungsten")])
          ; S_Expr
              (E_Call ("my_material" @. "add_element") [E_Str "W"; E_Int 1]
                 [("percent_type", E_Str "ao")])
          ; S_Expr (E_Call ("my_material" @. "set_density") [E_Str "g/cm3"; E_Int 19] [])
          ; S_Assign (E_Name "mats")
              (E_Call ("openmc" @. "Materials") [E_List [E_Name "my_material"]] [])
          ; S_Assign (E_Name "vessel_inner_surface")
              (E_Call ("openmc" @. "Sphere") [] [("r", E_Int 500)])
          ; S_Assign (E_Name "vessel_rear_surface")
              (E_Call ("openmc" @. "Sphere") [] [("r", E_Int 530)])
          ; S_Assign (E_Name "outer_surface")
              (E_Call ("openmc" @. "Sphere") []
                 [("r", E_Int 550); ("boundary_type", E_Str "vacuum")])
          ; S_Assign (E_Name "inner_vessel_cell")
              (E_Call ("openmc" @. "Cell") []
                 [("region", E_UnaryOp USub (E_Name "vessel_inner_surface"))])
          ; S_Assign (E_Name "blanket_cell")
              (E_Call ("openmc" @. "Cell") []
                 [ ("region",
                    E_BinOp (E_UnaryOp USub (E_Name "vessel_rear_surface")) BitAnd
                      (E_UnaryOp UAdd (E_Name "vessel_inner_surface"))) ])
          ; S_Assign ("blanket_cell" @. "fill") (E_Name "my_material")
          ; S_Assign (E_Name "outer_vessel_cell")
              (E_Call ("openmc" @. "Cell") []
                 [ ("region",
                    E_BinOp (E_UnaryOp UAdd (E_Name "vessel_rear_surface")) BitAnd
                      (E_UnaryOp USub (E_Name "outer_surface"))) ])
          ; S_Assign (E_Name "universe")
              (E_Call ("openmc" @. "Universe") []
                 [ ("cells",
                    E_List
                      [ E_Name "inner_vessel_cell"
                      ; E_Name "blanket_cell"
                      ; E_Name "outer_vessel_cell" ]) ])
          ; S_Assign (E_Name "geom") (E_Call ("openmc" @. "Geometry") [E_Name "universe"] [])
          ; S_Assign (E_Name "sett") (E_Call ("openmc" @. "Settings") [] [])
          ; S_Assign ("sett" @. "batches") (E_Int 10)
          ; S_Assign ("sett" @. "inactive") (E_Int 0)
          ; S_Assign ("sett" @. "particles") (E_Int 1000)
          ; S_Assign ("sett" @. "run_mode") (E_Str "fixed source")
          ; S_Assign ("sett" @. "photon_transport") (E_Bool true)
          ; S_Assign (E_Name "source") (E_Call ("openmc" @. "Source") [] [])
          ; S_Assign ("source" @. "space")
              (E_Call ("openmc" @. "stats" @. "Point") [E_Tuple [E_Int 0; E_Int 0; E_Int 0]] [])
          ; S_Assign ("source" @. "angle") (E_Call ("openmc" @. "stats" @. "Isotropic") [] [])
          ; S_Assign ("source" @. "particle") (E_Str "neutron")
          ; S_Assign ("source" @. "energy")
              (E_Call ("openmc" @. "stats" @. "Discrete")
                 [E_List [E_Float 14e6]; E_List [E_Int 1]] [])
          ; S_Assign ("sett" @. "source") (E_Name "source") ]
       ; [ S_Assign (E_Name "tallies") (E_Call ("openmc" @. "Tallies") [] [])
          ; S_Assign (E_Name "neutron_particle_filter")
              (E_Call ("openmc" @. "ParticleFilter") [E_List [E_Str "photon"]] [])
          ; S_Assign (E_Name "energy_filter")
              (E_Call ("openmc" @. "EnergyFilter" @. "from_group_structure")
                 [E_Str "VITAMIN-J-175"] [])
          ; S_Assign (E_Name "cell_filter")
              (E_Call ("openmc" @. "CellFilter") [E_Name "blanket_cell"] [])
          ; S_Assign (E_Name "cell_spectra_tally")
              (E_Call ("openmc" @. "Tally") [] [("name", E_Str "cell_spectra_tally")])
          ; S_Assign ("cell_spectra_tally" @. "scores") (E_List [E_Str "flux"])
          ; S_Assign ("cell_spectra_tally" @. "filters")
              (E_List
                 [ E_Name "cell_filter"
                 ; E_Name "neutron_particle_filter"
                 ; E_Name "energy_filter" ])
          ; S_Expr (E_Call ("tallies" @. "append") [E_Name "cell_spectra_tally"] []) ]
       ; [ S_Assign (E_Name "model")
              (E_Call ("openmc" @. "model" @. "Model")
                 [E_Name "geom"; E_Name "mats"; E_Name "sett"; E_Name "tallies"] [])
          ; S_Shell "rm *.h5"
          ; S_Assign (E_Name "results_filename") (E_Call ("model" @. "run") [] []) ]
       ; [ S_Assign (E_Name "results")
              (E_Call ("openmc" @. "StatePoint") [E_Name "results_filename"] [])
          ; S_Assign (E_Name "cell_tally")
              (E_Call ("results" @. "get_tally") [] [("name", E_Str "cell_spectra_tally")])
          ; S_ImportFrom "spectrum_plotter" ["plot_spectrum_from_tally"]
          ; S_Expr
              (E_Call (E_Name "plot_spectrum_from_tally") []
                 [ ("spectrum", E_Dict [(E_Str "cell tally", E_Name "cell_tally")])
                 ; ("x_label", E_Str "energy [eV]")
                 ; ("y_label", E_Str "Photons per cm2 per source neutron")
                 ; ("plotting_package", E_Str "plotly") ]) ]
       ; []
       ] |}.

(** [tasks/task_08_CSG_mesh_tally/2_example_3d_mesh_tallies.ipynb]: Part 2 - 3D mesh tallies *)
Definition nb_example_3d_mesh_tallies : notebook :=
  {| nb_file := "tasks/task_08_CSG_mesh_tally/2_example_3d_mesh_tallies.ipynb";
     nb_cells :=
       [ [ S_Import [("openmc", None)]
          ; S_Import [("os", None)]
          ; S_Assign (E_Name "breeder_material")
              (E_Call ("openmc" @. "Material") [E_Int 1; E_Str "PbLi"] [])
          ; S_Expr
              (E_Call ("breeder_material" @. "add_element") [E_Str "Pb"; E_Float 84.2]
                 [("percent_type", E_Str "ao")])
          ; S_Expr
              (E_Call ("breeder_material" @. "add_element") [E_Str "Li"; E_Float 15.8]
                 [ ("percent_type", E_Str "ao")
                 ; ("enrichment", E_Float 7.0)
                 ; ("enrichment_target", E_Str "Li6")
                 ; ("enrichment_type", E_Str "ao") ])
          ; S_Expr
              (E_Call ("breeder_material" @. "set_density")
                 [E_Str "atom/b-cm"; E_Float 3.2720171e-2] [])
          ; S_Assign (E_Name "copper")
              (E_Call ("openmc" @. "Material") [] [("name", E_Str "Copper")])
          ; S_Expr (E_Call ("copper" @. "set_density") [E_Str "g/cm3"; E_Float 8.5] [])
          ; S_Expr (E_Call ("copper" @. "add_element") [E_Str "Cu"; E_Float 1.0] [])
          ; S_Assign (E_Name "eurofer")
              (E_Call ("openmc" @. "Material") [] [("name", E_Str "iron")])
          ; S_Expr (E_Call ("eurofer" @. "set_density") [E_Str "g/cm3"; E_Float 7.75] [])
          ; S_Expr
              (E_Call ("eurofer" @. "add_element") [E_Str "Fe"; E_Float 89.067]
                 [("percent_type", E_Str "wo")])
          ; S_Assign (E_Name "mats")
              (E_Call ("openmc" @. "Materials")
                 [E_List [E_Name "breeder_material"; E_Name "eurofer"; E_Name "copper"]] [])
          ; S_Assign (E_Name "central_sol_surface")
              (E_Call ("openmc" @. "ZCylinder") [] [("r", E_Int 100)])
          ; S_Assign (E_Name "central_shield_outer_surface")
              (E_Call ("openmc" @. "ZCylinder") [] [("r", E_Int 110)])
          ; S_Assign (E_Name "vessel_inner_surface")
              (E_Call ("openmc" @. "Sphere") [] [("r", E_Int 500)])
          ; S_Assign (E_Name "first_wall_outer_surface")
              (E_Call ("openmc" @. "Sphere") [] [("r", E_Int 510)])
          ; S_Assign (E_Name "breeder_blanket_outer_surface")
              (E_Call ("openmc" @. "Sphere") []
                 [("r", E_Int 610); ("boundary_type", E_Str "vacuum")])
          ; S_Assign (E_Name "central_sol_region")
              (E_BinOp (E_UnaryOp USub (E_Name "central_sol_surface")) BitAnd
                 (E_UnaryOp USub (E_Name "breeder_blanket_outer_surface")))
          ; S_Assign (E_Name "central_sol_cell")
              (E_Call ("openmc" @. "Cell") [] [("region", E_Name "central_sol_region")])
          ; S_Assign ("central_sol_cell" @. "fill") (E_Name "copper")
          ; S_Assign (E_Name "central_shield_region")
              (E_BinOp
                 (E_BinOp (E_UnaryOp UAdd (E_Name "central_sol_surface")) BitAnd
                    (E_UnaryOp USub (E_Name "central_shield_outer_surface"))) BitAnd
                 (E_UnaryOp USub (E_Name "breeder_blanket_outer_surface")))
          ; S_Assign (E_Name "central_shield_cell")
              (E_Call ("openmc" @. "Cell") [] [("region", E_Name "central_shield_region")])
          ; S_Assign ("central_shield_cell" @. "fill") (E_Name "eurofer")
          ; S_Assign (E_Name "inner_vessel_region")
              (E_BinOp (E_UnaryOp USub (E_Name "vessel_inner_surface")) BitAnd
                 (E_UnaryOp UAdd (E_Name "central_shield_outer_surface")))
          ; S_Assign (E_Name "inner_vessel_cell")
              (E_Call ("openmc" @. "Cell") [] [("region", E_Name "inner_vessel_region")])
          ; S_Assign (E_Name "first_wall_region")
              (E_BinOp (E_UnaryOp USub (E_Name "first_wall_outer_surface")) BitAnd
                 (E_UnaryOp UAdd (E_Name "vessel_inner_surface")))
          ; S_Assign (E_Name "first_wall_cell")
              (E_Call ("openmc" @. "Cell") [] [("region", E_Name "first_wall_region")])
          ; S_Assign ("first_wall_cell" @. "fill") (E_Name "eurofer")
          ; S_Assign (E_Name "breeder_blanket_region")
              (E_BinOp
                 (E_BinOp (E_UnaryOp UAdd (E_Name "first_wall_outer_surface")) BitAnd
                    (E_UnaryOp USub (E_Name "breeder_blanket_outer_surface"))) BitAnd
                 (E_UnaryOp UAdd (E_Name "central_shield_outer_surface")))
          ; S_Assign (E_Name "breeder_blanket_cell")
              (E_Call ("openmc" @. "Cell") [] [("region", E_Name "breeder_blanket_region")])
          ; S_Assign ("breeder_blanket_cell" @. "fill") (E_Name "breeder_material")
          ; S_Assign (E_Name "universe")
              (E_Call ("openmc" @. "Universe") []
                 [ ("cells",
                    E_List
                      [ E_Name "central_sol_cell"
                      ; E_Name "central_shield_cell"
                      ; E_Name "inner_vessel_cell"
                      ; E_Name "first_wall_cell"
                      ; E_Name "breeder_blanket_cell" ]) ])
          ; S_Assign (E_Name "geom") (E_Call ("openmc" @. "Geometry") [E_Name "universe"] [])
          ; S_Assign (E_Name "sett") (E_Call ("openmc" @. "Settings") [] [])
          ; S_Assign (E_Name "batches") (E_Int 2)
          ; S_Assign ("sett" @. "batches") (E_Name "batches")
          ; S_Assign ("sett" @. "inactive") (E_Int 0)
          ; S_Assign ("sett" @. "particles") (E_Int 5000)
          ; S_Assign ("sett" @. "run_mode") (E_Str "fixed source")
          ; S_Assign (E_Name "source") (E_Call ("openmc" @. "Source") [] [])
          ; S_Assign ("source" @. "angle") (E_Call ("openmc" @. "stats" @. "Isotropic") [] [])
          ; S_Assign ("source" @. "energy")
              (E_Call ("openmc" @. "stats" @. "Discrete")
                 [E_List [E_Float 14e6]; E_List [E_Int 1]] [])
          ; S_Assign ("source" @. "space")
              (E_Call ("openmc" @. "stats" @. "Point") [E_Tuple [E_Int 150; E_Int 150; E_Int 0]]
                 [])
          ; S_Assign ("sett" @. "source") (E_Name "source") ]
       ; [ S_Assign (E_Name "mesh") (E_Call ("openmc" @. "RegularMesh") [] [])
          ; S_Assign ("mesh" @. "dimension") (E_List [E_Int 100; E_Int 50; E_Int 100])
          ; S_Assign ("mesh" @. "lower_left")
              (E_List [E_UnaryOp USub (E_Int 750); E_Int 0; E_UnaryOp USub (E_Int 750)])
          ; S_Assign ("mesh" @. "upper_right") (E_List [E_Int 750; E_Int 750; E_Int 750]) ]
       ; [ S_Assign (E_Name "tallies") (E_Call ("openmc" @. "Tallies") [] [])
          ; S_Assign (E_Name "mesh_filter")
              (E_Call ("openmc" @. "MeshFilter") [E_Name "mesh"] [])
          ; S_Assign (E_Name "mesh_tally")
              (E_Call ("openmc" @. "Tally") []
                 [("tally_id", E_Int 1); ("name", E_Str "tbr_on_mesh")])
          ; S_Assign ("mesh_tally" @. "filters") (E_List [E_Name "mesh_filter"])
          ; S_Assign ("mesh_tally" @. "scores") (E_List [E_Str "(n,Xt)"])
          ; S_Expr (E_Call ("tallies" @. "append") [E_Name "mesh_tally"] [])
          ; S_Assign (E_Name "mesh_tally")
              (E_Call ("openmc" @. "Tally") []
                 [("tally_id", E_Int 2); ("name", E_Str "heating_on_mesh")])
          ; S_Assign ("mesh_tally" @. "filters") (E_List [E_Name "mesh_filter"])
          ; S_Assign ("mesh_tally" @. "scores") (E_List [E_Str "heating"])
          ; S_Expr (E_Call ("tallies" @. "append") [E_Name "mesh_tally"] []) ]
       ; [ S_Shell "rm s*.h5"
          ; S_Assign (E_Name "model")
              (E_Call ("openmc" @. "model" @. "Model")
                 [E_Name "geom"; E_Name "mats"; E_Name "sett"; E_Name "tallies"] [])
          ; S_Assign (E_Name "sp_filename") (E_Call ("model" @. "run") [] []) ]
       ; [ S_Assign (E_Name "statepoint")
              (E_Call ("openmc" @. "StatePoint") [E_Str "statepoint.2.h5"] [])
          ; S_Assign (E_Name "my_tbr_tally")
              (E_Call ("statepoint" @. "get_tally") [] [("name", E_Str "tbr_on_mesh")])
          ; S_Expr
              (E_Call ("mesh" @. "write_data_to_vtk") []
                 [ ("filename", E_Str "tbr_tally_on_mesh.vtk")
                 ; ("datasets", E_Dict [(E_Str "mean", "my_tbr_tally" @. "mean")]) ])
          ; S_Assign (E_Name "my_heating_tally")
              (E_Call ("statepoint" @. "get_tally") [] [("name", E_Str "heating_on_mesh")])
          ; S_Expr
              (E_Call ("mesh" @. "write_data_to_vtk") []
                 [ ("filename", E_Str "heating_tally_on_mesh.vtk")
                 ; ("datasets",
                    E_Dict
                      [ (E_Str "mean",
                         E_BinOp ("my_heating_tally" @. "mean") Mult (E_Float 1.60218e-19))
                      ; (E_Str "std_dev",
                         E_BinOp ("my_heating_tally" @. "std_dev") Mult (E_Float 1.60218e-19)) ]) ]) ]
       ] |}.

(** [tasks/task_11_CAD_cell_tally_heat/1_simulate_CAD_neutronics_geometry_with_cell_tally_heat.ipynb]: Neutronics simulation with CAD geometry *)
Definition nb_simulate_CAD_cell_tally_heat : notebook :=
  {| nb_file := "tasks/task_11_CAD_cell_tally_heat/1_simulate_CAD_neutronics_geometry_with_cell_tally_heat.ipynb";
     nb_cells :=
       [ [ S_Import [("paramak", None)]
          ; S_Assign (E_Name "plasma")
              (E_Call ("paramak" @. "Plasma") []
                 [ ("minor_radius", E_Float 150.0)
                 ; ("major_radius", E_Float 450.0)
                 ; ("triangularity", E_Float 0.55)
                 ; ("elongation", E_Float 2.0)
                 ; ("rotation_angle", E_Int 180)
                 ; ("name", E_Str "plasma") ])
          ; S_Assign (E_Name "blanket")
              (E_Call ("paramak" @. "BlanketFP") []
                 [ ("plasma", E_Name "plasma")
                 ; ("thickness", E_Int 50)
                 ; ("stop_angle", E_Int 90)
                 ; ("start_angle", E_UnaryOp USub (E_Int 90))
                 ; ("offset_from_plasma", E_Int 40)
                 ; ("rotation_angle", E_Int 180)
                 ; ("name", E_Str "blanket") ])
          ; S_Assign (E_Name "my_reactor")
              (E_Call ("paramak" @. "Reactor") [E_List [E_Name "plasma"; E_Name "blanket"]] [])
          ; S_Expr (E_Call ("my_reactor" @. "show") [] []) ]
       ; [ S_Shell "rm dagmc.h5m"
          ; S_Expr
              (E_Call ("my_reactor" @. "export_dagmc_h5m") []
                 [ ("filename", E_Str "dagmc.h5m")
                 ; ("min_mesh_size", E_Int 15)
                 ; ("max_mesh_size", E_Int 30) ]) ]
       ; [ S_Import [("openmc", None)]
          ; S_Import [("openmc_dagmc_wrapper", Some "odw")]
          ; S_Import [("openmc_plasma_source", Some "ops")] ]
       ; [ S_Assign (E_Name "geometry")
              (E_Call ("odw" @. "Geometry") []
                 [ ("h5m_filename", E_Str "dagmc.h5m")
                 ; ("reflective_angles", E_Tuple [E_Int 0; E_Int 180]) ])
          ; S_Assign (E_Name "materials")
              (E_Call ("odw" @. "Materials") []
                 [ ("h5m_filename", E_Str "dagmc.h5m")
                 ; ("correspondence_dict",
                    E_Dict
                      [(E_Str "blanket", E_Str "Li4SiO4"); (E_Str "plasma", E_Str "DT_plasma")]) ])
          ; S_Assign (E_Name "tally1")
              (E_Call ("odw" @. "CellTally") []
                 [ ("tally_type", E_Str "heating")
                 ; ("target", E_Str "blanket")
                 ; ("materials", E_Name "materials") ])
          ; S_Assign (E_Name "tallies")
              (E_Call ("openmc" @. "Tallies") [E_List [E_Name "tally1"]] [])
          ; S_Assign (E_Name "settings") (E_Call ("odw" @. "FusionSettings") [] [])
          ; S_Assign ("settings" @. "batches") (E_Int 1)
          ; S_Assign ("settings" @. "particles") (E_Int 100)
          ; S_Assign ("settings" @. "source")
              (E_Call ("ops" @. "FusionRingSource") []
                 [ ("fuel", E_Str "DT")
                 ; ("radius", E_Int 350)
                 ; ("angles", E_Tuple [E_Int 0; E_Float 3.14]) ])
          ; S_Assign (E_Name "my_model")
              (E_Call ("openmc" @. "Model") []
                 [ ("materials", E_Name "materials")
                 ; ("geometry", E_Name "geometry")
                 ; ("settings", E_Name "settings")
                 ; ("tallies", E_Name "tallies") ])
          ; S_Shell "rm summary.h5"
          ; S_Shell "rm statepoint*.h5"
          ; S_Assign (E_Name "statepoint_file") (E_Call ("my_model" @. "run") [] []) ]
       ; [ S_Assign (E_Name "sp")
              (E_Call ("openmc" @. "StatePoint") [E_Name "statepoint_file"] [])
          ; S_Assign (E_Name "heating_tally")
              (E_Call ("sp" @. "get_tally") [] [("name", E_Str "blanket_heating")])
          ; S_Expr (E_Call ((E_Call ("heating_tally" @. "get_values") [] []) @. "sum") [] []) ]
       ; [ S_Import [("openmc_tally_unit_converter", Some "otuc")]
          ; S_Assign (E_Name "tally")
              (E_Call ("otuc" @. "process_tally") [E_Name "heating_tally"] [])
          ; S_Expr (E_Call (E_Name "print") [E_Name "tally"] []) ]
       ; [ S_Expr
              (E_Call ("otuc" @. "process_tally") [E_Name "heating_tally"]
                 [("required_units", E_Str "MeV/source_particle")]) ]
       ; [ S_Expr
              (E_Call ("otuc" @. "process_tally") [E_Name "heating_tally"]
                 [("required_units", E_Str "gigawatts"); ("source_strength", E_Float 1e21)]) ]
       ] |}.

(** [tasks/task_14_activation_transmutation_depletion/1_example_transmutation_isotope_build_up.ipynb]: This example simulates the build up of activate products within a material under neutro... *)
Definition nb_transmutation_isotope_build_up : notebook :=
  {| nb_file := "tasks/task_14_activation_transmutation_depletion/1_example_transmutation_isotope_build_up.ipynb";
     nb_cells :=
       [ [ S_Import [("openmc", None)]
          ; S_Import [("openmc.deplete", None)]
          ; S_Import [("matplotlib.pyplot", Some "plt")]
          ; S_Import [("math", None)] ]
       ; [ S_Assign (E_Name "iron_sphere_radius") (E_Int 250)
          ; S_Assign (E_Name "mats") (E_Call ("openmc" @. "Materials") [] [])
          ; S_Assign (E_Name "my_material")
              (E_Call ("openmc" @. "Material") [] [("name", E_Str "my_material")])
          ; S_Expr
              (E_Call ("my_material" @. "add_nuclide") [E_Str "Co59"; E_Int 1]
                 [("percent_type", E_Str "ao")])
          ; S_Expr (E_Call ("my_material" @. "set_density") [E_Str "g/cm3"; E_Float 7.7] [])
          ; S_Assign ("my_material" @. "volume")
              (E_BinOp (E_BinOp (E_BinOp (E_Int 4) Div (E_Int 3)) Mult ("math" @. "pi")) Mult
                 (E_BinOp (E_Name "iron_sphere_radius") Pow (E_Int 3)))
          ; S_Assign ("my_material" @. "depletable") (E_Bool true)
          ; S_Assign (E_Name "materials")
              (E_Call ("openmc" @. "Materials") [E_List [E_Name "my_material"]] [])
          ; S_Expr (E_Call ("materials" @. "export_to_xml") [] [])
          ; S_Assign (E_Name "sph1")
              (E_Call ("openmc" @. "Sphere") []
                 [("r", E_Name "iron_sphere_radius"); ("boundary_type", E_Str "vacuum")])
          ; S_Assign (E_Name "shield_cell")
              (E_Call ("openmc" @. "Cell") [] [("region", E_UnaryOp USub (E_Name "sph1"))])
          ; S_Assign ("shield_cell" @. "fill") (E_Name "my_material")
          ; S_Assign ("shield_cell" @. "volume")
              (E_BinOp (E_BinOp (E_BinOp (E_Int 4) Div (E_Int 3)) Mult ("math" @. "pi")) Mult
                 (E_BinOp ("sph1" @. "r") Pow (E_Int 3)))
          ; S_Assign (E_Name "universe")
              (E_Call ("openmc" @. "Universe") [] [("cells", E_List [E_Name "shield_cell"])])
          ; S_Assign (E_Name "geometry")
              (E_Call ("openmc" @. "Geometry") [E_Name "universe"] []) ]
       ; [ S_Assign (E_Name "source") (E_Call ("openmc" @. "Source") [] [])
          ; S_Assign ("source" @. "space")
              (E_Call ("openmc" @. "stats" @. "Point") [E_Tuple [E_Int 0; E_Int 0; E_Int 0]] [])
          ; S_Assign ("source" @. "angle") (E_Call ("openmc" @. "stats" @. "Isotropic") [] [])
          ; S_Assign ("source" @. "energy")
              (E_Call ("openmc" @. "stats" @. "Discrete")
                 [E_List [E_Float 14e6]; E_List [E_Int 1]] [])
          ; S_Assign ("source" @. "particles") (E_Str "neutron")
          ; S_Assign (E_Name "settings") (E_Call ("openmc" @. "Settings") [] [])
          ; S_Assign ("settings" @. "batches") (E_Int 2)
          ; S_Assign ("settings" @. "inactive") (E_Int 0)
          ; S_Assign ("settings" @. "particles") (E_Int 5000)
          ; S_Assign ("settings" @. "source") (E_Name "source")
          ; S_Assign ("settings" @. "run_mode") (E_Str "fixed source")
          ; S_Assign (E_Name "tallies") (E_Call ("openmc" @. "Tallies") [] [])
          ; S_Expr (E_Call ("geometry" @. "export_to_xml") [] [])
          ; S_Expr (E_Call ("settings" @. "export_to_xml") [] [])
          ; S_Expr (E_Call ("materials" @. "export_to_xml") [] [])
          ; S_Assign (E_Name "model")
              (E_Call ("openmc" @. "model" @. "Model")
                 [E_Name "geometry"; E_Name "materials"; E_Name "settings"; E_Name "tallies"] []) ]
       ; [ S_Assign (E_Name "chain_filename")
              (E_Str "/tasks/task_14_activation_transmutation_depletion/chain-nndc-b7.1.xml")
          ; S_Assign (E_Name "operator")
              (E_Call ("openmc" @. "deplete" @. "Operator") []
                 [ ("model", E_Name "model")
                 ; ("chain_file", E_Name "chain_filename")
                 ; ("normalization_mode", E_Str "source-rate")
                 ; ("dilute_initial", E_Int 0)
                 ; ("reduce_chain", E_Bool true) ])
          ; S_Assign (E_Name "operator")
              (E_Call ("openmc" @. "deplete" @. "Operator")
                 [E_Name "model"; E_Name "chain_filename"] [])
          ; S_Assign (E_Name "time_steps")
              (E_BinOp
                 (E_BinOp
                    (E_List
                       [ E_BinOp
                           (E_BinOp (E_BinOp (E_Int 365) Mult (E_Int 24)) Mult (E_Int 60)) Mult
                           (E_Int 60) ]) Mult (E_Int 5)) Add
                 (E_BinOp
                    (E_List
                       [ E_BinOp
                           (E_BinOp (E_BinOp (E_Int 365) Mult (E_Int 24)) Mult (E_Int 60)) Mult
                           (E_Int 60) ]) Mult (E_Int 5)))
          ; S_Assign (E_Name "source_rates")
              (E_BinOp (E_BinOp (E_List [E_Float 1e9]) Mult (E_Int 5)) Add
                 (E_BinOp (E_List [E_Int 0]) Mult (E_Int 5)))
          ; S_Assign (E_Name "integrator")
              (E_Call ("openmc" @. "deplete" @. "PredictorIntegrator") []
                 [ ("operator", E_Name "operator")
                 ; ("timesteps", E_Name "time_steps")
                 ; ("source_rates", E_Name "source_rates") ])
          ; S_Expr (E_Call ("integrator" @. "integrate") [] []) ]
       ; [ S_Assign (E_Name "results")
              (E_Call ("openmc" @. "deplete" @. "ResultsList" @. "from_hdf5")
                 [E_Str "depletion_results.h5"] [])
          ; S_Assign (E_Tuple [E_Name "times"; E_Name "number_of_co60_atoms"])
              (E_Call ("results" @. "get_atoms") [E_Name "my_material"; E_Str "Co60"] []) ]
       ; [ S_Import [("matplotlib.pyplot", Some "plt")]
          ; S_Assign (E_Tuple [E_Name "fig"; E_Name "ax"]) (E_Call ("plt" @. "subplots") [] [])
          ; S_Expr (E_Call ("ax" @. "plot") [E_Name "times"; E_Name "number_of_co60_atoms"] [])
          ; S_Expr
              (E_Call ("ax" @. "set") []
                 [ ("xlabel", E_Str "time (s)")
                 ; ("ylabel", E_Str "Number of atoms")
                 ; ("title",
                    E_Str
                      "Build up of atoms saturates when decay is equal to activation this occurs at circa 5 half lives") ])
          ; S_Expr (E_Call ("ax" @. "grid") [] [])
          ; S_Expr (E_Call ("plt" @. "savefig") [E_Str "atoms.png"] [])
          ; S_Expr (E_Call ("plt" @. "show") [] []) ]
       ] |}.

(** [tasks/task_16_parameter_study_optimisation/parameter_study_optimisation.ipynb]: Task 14 - Parameter Study Optimisation *)
Definition nb_parameter_study_optimisation : notebook :=
  {| nb_file := "tasks/task_16_parameter_study_optimisation/parameter_study_optimisation.ipynb";
     nb_cells :=
       [ [ S_Import [("json", None)]
          ; S_Import [("numpy", Some "np")]
          ; S_Import [("pandas", Some "pd")]
          ; S_Import [("adaptive", None)]
          ; S_Import [("holoviews", None)]
          ; S_Import [("ipywidgets", None)]
          ; S_Import [("nest_asyncio", None)]
          ; S_Import [("plotly.graph_objects", Some "go")]
          ; S_ImportFrom "tqdm" ["tqdm"]
          ; S_ImportFrom "pathlib" ["Path"]
          ; S_ImportFrom "skopt" ["gp_minimize"]
          ; S_ImportFrom "skopt.utils" ["dump"; "load"]
          ; S_ImportFrom "scipy.interpolate" ["griddata"]
          ; S_ImportFrom "openmc_model" ["objective"]
          ; S_Expr (E_Call ("adaptive" @. "notebook_extension") [] [])
          ; S_Expr (E_Call ("nest_asyncio" @. "apply") [] [])
          ; S_FunctionDef "output_result" ["filepath"; "result"]
              [ S_Assign (E_Name "filename") (E_Name "filepath")
              ; S_Expr
                  (E_Call
                     ((E_Call (E_Name "Path") [E_Name "filename"] []) @. "parent" @. "mkdir") []
                     [("parents", E_Bool true); ("exist_ok", E_Bool true)])
              ; S_With
                  (E_Call (E_Name "open") [E_Name "filename"]
                     [("mode", E_Str "w"); ("encoding", E_Str "utf-8")]) (Some (E_Name "f"))
                  [ S_Expr
                      (E_Call ("json" @. "dump") [E_Name "result"; E_Name "f"]
                         [("indent", E_Int 4)]) ] ] ]
       ; [ S_Assign (E_Name "tbr_values") (E_List [])
          ; S_For (E_Name "breeder_percent_in_breeder_plus_multiplier")
              (E_Call (E_Name "tqdm")
                 [E_Call ("np" @. "linspace") [E_Int 0; E_Int 100; E_Int 101] []] [])
              [ S_Expr
                  (E_Call ("tbr_values" @. "append")
                     [ E_Dict
                         [ (E_Str "breeder_percent_in_breeder_plus_multiplier",
                            E_Name "breeder_percent_in_breeder_plus_multiplier")
                         ; (E_Str "tbr",
                            E_UnaryOp USub
                              (E_Call (E_Name "objective")
                                 [E_List [E_Name "breeder_percent_in_breeder_plus_multiplier"]]
                                 [])) ] ] []) ]
          ; S_Expr
              (E_Call (E_Name "output_result")
                 [E_Str "outputs/1d_tbr_values.json"; E_Name "tbr_values"] []) ]
       ; [ S_Assign (E_Name "learner")
              (E_Call ("adaptive" @. "SKOptLearner") [E_Name "objective"]
                 [ ("dimensions", E_List [E_Tuple [E_Float 0.0; E_Float 100.0]])
                 ; ("base_estimator", E_Str "GP")
                 ; ("acq_func", E_Str "gp_hedge")
                 ; ("acq_optimizer", E_Str "lbfgs") ])
          ; S_Assign (E_Name "runner")
              (E_Call ("adaptive" @. "Runner") [E_Name "learner"]
                 [ ("ntasks", E_Int 1)
                 ; ("goal", E_Lambda ["l"] (E_Compare ("l" @. "npoints") Gt (E_Int 30))) ])
          ; S_Expr (E_Call ("runner" @. "live_info") [] [])
          ; S_Expr
              (E_Call ("runner" @. "ioloop" @. "run_until_complete") ["runner" @. "task"] [])
          ; S_Expr
              (E_Call (E_Name "output_result")
                 [ E_Str "outputs/1d_optimised_values.json"
                 ; E_Call (E_Name "dict") ["learner" @. "data"] [] ] []) ]
       ; [ S_Assign (E_Name "data")
              (E_Call ("pd" @. "read_json") [E_Str "outputs/1d_tbr_values.json"] [])
          ; S_Assign (E_Name "x_data")
              (E_Subscript (E_Name "data") (E_Str "breeder_percent_in_breeder_plus_multiplier"))
          ; S_Assign (E_Name "fx") (E_UnaryOp USub (E_Subscript (E_Name "data") (E_Str "tbr")))
          ; S_With
              (E_Call (E_Name "open") [E_Str "outputs/1d_optimised_values.json"; E_Str "r"] [])
              (Some (E_Name "f"))
              [ S_Assign (E_Name "data")
                  (E_Call ((E_Call ("json" @. "load") [E_Name "f"] []) @. "items") [] []) ]
          ; S_Assign (E_Name "x_vals")
              (E_ListComp (E_Subscript (E_Name "i") (E_Int 0)) (E_Name "i") (E_Name "data"))
          ; S_Assign (E_Name "tbr_vals")
              (E_ListComp (E_UnaryOp USub (E_Subscript (E_Name "i") (E_Int 1))) (E_Name "i")
                 (E_Name "data"))
          ; S_Expr
              (E_Call (E_Name "print")
                 [ E_Str "Maximum TBR of "
                 ; E_Subscript (E_Name "tbr_vals") (E_UnaryOp USub (E_Int 1))
                 ; E_Str "found with a breeder percent in breeder plus multiplier of "
                 ; E_Subscript (E_Name "x_vals") (E_UnaryOp USub (E_Int 1)) ] [])
          ; S_Assign (E_Name "fig") (E_Call ("go" @. "Figure") [] [])
          ; S_Expr
              (E_Call ("fig" @. "add_trace")
                 [ E_Call ("go" @. "Scatter") []
                     [ ("x", E_Name "x_vals")
                     ; ("y", E_Name "tbr_vals")
                     ; ("name", E_Str "Samples from optimisation")
                     ; ("mode", E_Str "markers")
                     ; ("marker",
                        E_Call (E_Name "dict") [] [("color", E_Str "red"); ("size", E_Int 10)]) ] ]
                 [])
          ; S_Expr
              (E_Call ("fig" @. "add_trace")
                 [ E_Call ("go" @. "Scatter") []
                     [ ("name", E_Str "True value (unknown)")
                     ; ("x", E_Name "x_data")
                     ; ("y",
                        E_ListComp (E_UnaryOp USub (E_Name "i")) (E_Name "i") (E_Name "fx"))
                     ; ("mode", E_Str "lines")
                     ; ("line", E_Dict [(E_Str "shape", E_Str "spline")])
                     ; ("marker", E_Call (E_Name "dict") [] [("color", E_Str "green")]) ] ] [])
          ; S_Expr
              (E_Call ("fig" @. "update_layout") []
                 [ ("title", E_Str "Optimal breeder percent in breeder plus multiplier")
                 ; ("xaxis",
                    E_Dict
                      [ (E_Str "title", E_Str "breeder percent in breeder plus multiplier")
                      ; (E_Str "range", E_List [E_Int 0; E_Int 100]) ])
                 ; ("yaxis",
                    E_Dict
                      [ (E_Str "title", E_Str "TBR")
                      ; (E_Str "range", E_List [E_Float 0.1; E_Int 2]) ]) ])
          ; S_Expr (E_Call ("fig" @. "show") [] []) ]
       ; [ S_Assign (E_Name "tbr_values") (E_List [])
          ; S_For (E_Name "breeder_percent_in_breeder_plus_multiplier")
              (E_Call (E_Name "tqdm")
                 [E_Call ("np" @. "linspace") [E_Int 0; E_Int 100; E_Int 20] []] [])
              [ S_For (E_Name "blanket_breeder_li6_enrichment")
                  (E_Call ("np" @. "linspace") [E_Int 0; E_Int 100; E_Int 20] [])
                  [ S_Expr
                      (E_Call ("tbr_values" @. "append")
                         [ E_Dict
                             [ (E_Str "breeder_percent_in_breeder_plus_multiplier",
                                E_Name "breeder_percent_in_breeder_plus_multiplier")
                             ; (E_Str "blanket_breeder_li6_enrichment",
                                E_Name "blanket_breeder_li6_enrichment")
                             ; (E_Str "tbr",
                                E_UnaryOp USub
                                  (E_Call (E_Name "objective")
                                     [ E_List
                                         [ E_Name "breeder_percent_in_breeder_plus_multiplier"
                                         ; E_Name "blanket_breeder_li6_enrichment" ] ] [])) ] ]
                         []) ] ]
          ; S_Expr
              (E_Call (E_Name "output_result")
                 [E_Str "outputs/2d_tbr_values.json"; E_Name "tbr_values"] []) ]
       ; [ S_Assign (E_Name "learner")
              (E_Call ("adaptive" @. "Learner2D") [E_Name "objective"]
                 [ ("bounds",
                    E_List [E_Tuple [E_Int 0; E_Int 100]; E_Tuple [E_Int 0; E_Int 100]]) ])
          ; S_Assign (E_Name "runner")
              (E_Call ("adaptive" @. "Runner") [E_Name "learner"]
                 [ ("ntasks", E_Int 1)
                 ; ("goal", E_Lambda ["l"] (E_Compare ("l" @. "npoints") Gt (E_Int 40))) ])
          ; S_Expr (E_Call ("runner" @. "live_info") [] [])
          ; S_Expr
              (E_Call ("runner" @. "ioloop" @. "run_until_complete") ["runner" @. "task"] [])
          ; S_Assign (E_Name "res")
              (E_Call (E_Name "gp_minimize") [E_Name "objective"]
                 [ ("dimensions",
                    E_List
                      [ E_Tuple [E_Float 0.0; E_Float 100.0]
                      ; E_Tuple [E_Float 0.0; E_Float 100.0] ])
                 ; ("n_calls", E_Int 40)
                 ; ("n_random_starts", E_Int 0)
                 ; ("verbose", E_Bool true)
                 ; ("x0",
                    E_ListComp (E_Name "i") (E_Name "i")
                      (E_Call (E_Name "list") [E_Call ("learner" @. "data" @. "keys") [] []] []))
                 ; ("y0",
                    E_Call (E_Name "list") [E_Call ("learner" @. "data" @. "values") [] []] []) ])
          ; S_Expr
              (E_Call (E_Name "dump") [E_Name "res"; E_Str "outputs/2d_optimised_values.dat"] []) ]
       ; [ S_Assign (E_Name "data")
              (E_Call ("pd" @. "read_json") [E_Str "outputs/2d_tbr_values.json"] [])
          ; S_Assign (E_Name "x")
              (E_Subscript (E_Name "data") (E_Str "breeder_percent_in_breeder_plus_multiplier"))
          ; S_Assign (E_Name "y")
              (E_Subscript (E_Name "data") (E_Str "blanket_breeder_li6_enrichment"))
          ; S_Assign (E_Name "z") (E_Subscript (E_Name "data") (E_Str "tbr"))
          ; S_Expr
              (E_Call (E_Name "print")
                 [ E_Str "Optimal breeder_percent_in_breeder_plus_multiplier_ratio = "
                 ; E_Subscript ("res" @. "x") (E_Int 0) ] [])
          ; S_Expr
              (E_Call (E_Name "print")
                 [E_Str "Optimal Li6 enrichment = "; E_Subscript ("res" @. "x") (E_Int 1)] [])
          ; S_Expr
              (E_Call (E_Name "print") [E_Str "Maximum TBR = "; E_UnaryOp USub ("res" @. "fun")]
                 [])
          ; S_Assign (E_Name "fig") (E_Call ("go" @. "Figure") [] [])
          ; S_Expr
              (E_Call ("fig" @. "add_trace")
                 [ E_Call ("go" @. "Scatter3d") []
                     [ ("name", E_Str "TBR values found during optimisation")
                     ; ("x",
                        E_ListComp (E_Subscript (E_Name "x") (E_Int 0)) (E_Name "x")
                          ("res" @. "x_iters"))
                     ; ("y",
                        E_ListComp (E_Subscript (E_Name "x") (E_Int 1)) (E_Name "x")
                          ("res" @. "x_iters"))
                     ; ("z", E_UnaryOp USub ("res" @. "func_vals"))
                     ; ("mode", E_Str "markers")
                     ; ("marker", E_Call (E_Name "dict") [] [("size", E_Int 7)]) ] ] [])
          ; S_Expr
              (E_Call ("fig" @. "add_trace")
                 [ E_Call ("go" @. "Scatter3d") []
                     [ ("name", E_Str "True values")
                     ; ("x", E_Name "x")
                     ; ("y", E_Name "y")
                     ; ("z", E_Name "z")
                     ; ("mode", E_Str "markers")
                     ; ("marker", E_Call (E_Name "dict") [] [("size", E_Int 7)]) ] ] [])
          ; S_Expr
              (E_Call ("fig" @. "add_trace")
                 [ E_Call ("go" @. "Scatter3d") []
                     [ ("name", E_Str "Maximum TBR value found")
                     ; ("x", E_List [E_Subscript ("res" @. "x") (E_Int 0)])
                     ; ("y", E_List [E_Subscript ("res" @. "x") (E_Int 1)])
                     ; ("z", E_List [E_UnaryOp USub ("res" @. "fun")])
                     ; ("mode", E_Str "markers")
                     ; ("marker", E_Call (E_Name "dict") [] [("size", E_Int 7)]) ] ] [])
          ; S_Expr
              (E_Call ("fig" @. "update_layout") []
                 [ ("title",
                    E_Str
                      "Optimal Li6 enrichment and breeder percent in breeder plus multiplier")
                 ; ("scene",
                    E_Dict
                      [ (E_Str "yaxis",
                         E_Dict [(E_Str "title", E_Str "Li6 enrichment percent")])
                      ; (E_Str "zaxis",
                         E_Dict
                           [(E_Str "title", E_Str "breeder percent in breeder plus multiplier")])
                      ; (E_Str "zaxis", E_Dict [(E_Str "title", E_Str "TBR")]) ]) ])
          ; S_Expr (E_Call ("fig" @. "show") [] []) ]
       ; [ S_Expr
              (E_Call (E_Name "print")
                 [E_Str "Optimal Li6 enrichment = "; E_Subscript ("res" @. "x") (E_Int 0)] [])
          ; S_Expr
              (E_Call (E_Name "print")
                 [ E_Str "Optimal breeder percent in breeder plus multiplier = "
                 ; E_Subscript ("res" @. "x") (E_Int 1) ] [])
          ; S_Expr
              (E_Call (E_Name "print") [E_Str "Maximum TBR = "; E_UnaryOp USub ("res" @. "fun")]
                 [])
          ; S_Assign (E_Name "xi")
              (E_Call ("np" @. "linspace") [E_Int 0; E_Int 100; E_Int 100] [])
          ; S_Assign (E_Name "yi")
              (E_Call ("np" @. "linspace") [E_Int 0; E_Int 100; E_Int 100] [])
          ; S_Assign (E_Name "zi")
              (E_Call (E_Name "griddata")
                 [ E_Tuple [E_Name "x"; E_Name "y"]
                 ; E_Name "z"
                 ; E_Tuple
                     [ E_Subscript (E_Name "xi") (E_Tuple [E_None; E_Slice None None])
                     ; E_Subscript (E_Name "yi") (E_Tuple [E_Slice None None; E_None]) ] ]
                 [("method", E_Str "linear")])
          ; S_Assign (E_Name "fig") (E_Call ("go" @. "Figure") [] [])
          ; S_Expr
              (E_Call ("fig" @. "add_trace") []
                 [ ("trace",
                    E_Call ("go" @. "Contour") []
                      [ ("z", E_Name "zi")
                      ; ("x", E_Name "yi")
                      ; ("y", E_Name "xi")
                      ; ("colorscale", E_Str "Viridis")
                      ; ("opacity", E_Float 0.9)
                      ; ("line",
                         E_Call (E_Name "dict") []
                           [("width", E_Int 0); ("smoothing", E_Float 0.85)])
                      ; ("contours",
                         E_Call (E_Name "dict") []
                           [ ("showlines", E_Bool false)
                           ; ("showlabels", E_Bool false)
                           ; ("size", E_Int 0)
                           ; ("labelfont", E_Call (E_Name "dict") [] [("size", E_Int 15)]) ]) ]) ])
          ; S_Expr
              (E_Call ("fig" @. "add_trace")
                 [ E_Call ("go" @. "Scatter") []
                     [ ("name", E_Str "TBR values found during optimisation")
                     ; ("x",
                        E_ListComp (E_Subscript (E_Name "x") (E_Int 0)) (E_Name "x")
                          ("res" @. "x_iters"))
                     ; ("y",
                        E_ListComp (E_Subscript (E_Name "x") (E_Int 1)) (E_Name "x")
                          ("res" @. "x_iters"))
                     ; ("hovertext", E_UnaryOp USub ("res" @. "func_vals"))
                     ; ("hoverinfo", E_Str "text")
                     ; ("marker", E_Dict [(E_Str "size", E_Int 8)])
                     ; ("mode", E_Str "markers") ] ] [])
          ; S_Expr
              (E_Call ("fig" @. "add_trace")
                 [ E_Call ("go" @. "Scatter") []
                     [ ("name", E_Str "Maximum TBR value found")
                     ; ("x", E_List [E_Subscript ("res" @. "x") (E_Int 0)])
                     ; ("y", E_List [E_Subscript ("res" @. "x") (E_Int 1)])
                     ; ("hovertext", E_List [E_UnaryOp USub ("res" @. "fun")])
                     ; ("hoverinfo", E_Str "text")
                     ; ("marker", E_Dict [(E_Str "size", E_Int 8)])
                     ; ("mode", E_Str "markers") ] ] [])
          ; S_Expr
              (E_Call ("fig" @. "update_layout") []
                 [ ("title", E_Str "")
                 ; ("xaxis",
                    E_Dict
                      [ (E_Str "title", E_Str "breeder percent in breeder plus multiplier")
                      ; (E_Str "range", E_Tuple [E_UnaryOp USub (E_Int 1); E_Int 101]) ])
                 ; ("yaxis",
                    E_Dict
                      [ (E_Str "title", E_Str "blanket breeder li6 enrichment")
                      ; (E_Str "range", E_Tuple [E_UnaryOp USub (E_Int 1); E_Int 101]) ])
                 ; ("legend_orientation", E_Str "h") ])
          ; S_Expr (E_Call ("fig" @. "show") [] []) ]
       ] |}.

(** [unnamed/part_000] (document 1 of the file): Part 1 - Performing Tritium Breeding Ratio (TBR) simulations *)
Definition nb_tritium_breeding_ratio : notebook :=
  {| nb_file := "unnamed/part_000";
     nb_cells :=
       [ [ S_ImportFrom "IPython.display" ["HTML"]
          ; S_Expr
              (E_Call (E_Name "HTML")
                 [E_Str (youtube_iframe "https://www.youtube.com/embed/Vc7Qy7QW4o8")] []) ]
       ; [ S_Import [("openmc", None)]
          ; S_Import [("json", None)]
          ; S_Import [("os", None)]
          ; S_Assign (E_Name "breeder_material")
              (E_Call ("openmc" @. "Material") [E_Int 1; E_Str "PbLi"] [])
          ; S_Expr
              (E_Call ("breeder_material" @. "add_element") [E_Str "Pb"; E_Float 84.2]
                 [("percent_type", E_Str "ao")])
          ; S_Expr
              (E_Call ("breeder_material" @. "add_element") [E_Str "Li"; E_Float 15.8]
                 [ ("percent_type", E_Str "ao")
                 ; ("enrichment", E_Float 50.0)
                 ; ("enrichment_target", E_Str "Li6")
                 ; ("enrichment_type", E_Str "ao") ])
          ; S_Expr
              (E_Call ("breeder_material" @. "set_density")
                 [E_Str "atom/b-cm"; E_Float 3.2720171e-2] [])
          ; S_Assign (E_Name "steel")
              (E_Call ("openmc" @. "Material") [] [("name", E_Str "steel")])
          ; S_Expr (E_Call ("steel" @. "set_density") [E_Str "g/cm3"; E_Float 7.75] [])
          ; S_Expr
              (E_Call ("steel" @. "add_element") [E_Str "Fe"; E_Float 0.95]
                 [("percent_type", E_Str "wo")])
          ; S_Expr
              (E_Call ("steel" @. "add_element") [E_Str "C"; E_Float 0.05]
                 [("percent_type", E_Str "wo")])
          ; S_Assign (E_Name "mats")
              (E_Call ("openmc" @. "Materials")
                 [E_List [E_Name "breeder_material"; E_Name "steel"]] [])
          ; S_Assign (E_Name "vessel_inner")
              (E_Call ("openmc" @. "Sphere") [] [("r", E_Int 500)])
          ; S_Assign (E_Name "first_wall_outer_surface")
              (E_Call ("openmc" @. "Sphere") [] [("r", E_Int 510)])
          ; S_Assign (E_Name "breeder_blanket_outer_surface")
              (E_Call ("openmc" @. "Sphere") []
                 [("r", E_Int 610); ("boundary_type", E_Str "vacuum")])
          ; S_Assign (E_Name "inner_vessel_region") (E_UnaryOp USub (E_Name "vessel_inner"))
          ; S_Assign (E_Name "inner_vessel_cell")
              (E_Call ("openmc" @. "Cell") [] [("region", E_Name "inner_vessel_region")])
          ; S_Assign (E_Name "first_wall_region")
              (E_BinOp (E_UnaryOp USub (E_Name "first_wall_outer_surface")) BitAnd
                 (E_UnaryOp UAdd (E_Name "vessel_inner")))
          ; S_Assign (E_Name "first_wall_cell")
              (E_Call ("openmc" @. "Cell") [] [("region", E_Name "first_wall_region")])
          ; S_Assign ("first_wall_cell" @. "fill") (E_Name "steel")
          ; S_Assign (E_Name "breeder_blanket_region")
              (E_BinOp (E_UnaryOp UAdd (E_Name "first_wall_outer_surface")) BitAnd
                 (E_UnaryOp USub (E_Name "breeder_blanket_outer_surface")))
          ; S_Assign (E_Name "breeder_blanket_cell")
              (E_Call ("openmc" @. "Cell") [] [("region", E_Name "breeder_blanket_region")])
          ; S_Assign ("breeder_blanket_cell" @. "fill") (E_Name "breeder_material")
          ; S_Assign (E_Name "universe")
              (E_Call ("openmc" @. "Universe") []
                 [ ("cells",
                    E_List
                      [ E_Name "inner_vessel_cell"
                      ; E_Name "first_wall_cell"
                      ; E_Name "breeder_blanket_cell" ]) ])
          ; S_Assign (E_Name "geom") (E_Call ("openmc" @. "Geometry") [E_Name "universe"] [])
          ; S_Assign (E_Name "sett") (E_Call ("openmc" @. "Settings") [] [])
          ; S_Assign ("sett" @. "batches") (E_Int 10)
          ; S_Assign ("sett" @. "inactive") (E_Int 0)
          ; S_Assign ("sett" @. "particles") (E_Int 500)
          ; S_Assign ("sett" @. "run_mode") (E_Str "fixed source")
          ; S_Assign (E_Name "source") (E_Call ("openmc" @. "Source") [] [])
          ; S_Assign ("source" @. "space")
              (E_Call ("openmc" @. "stats" @. "Point") [E_Tuple [E_Int 0; E_Int 0; E_Int 0]] [])
          ; S_Assign ("source" @. "angle") (E_Call ("openmc" @. "stats" @. "Isotropic") [] [])
          ; S_Assign ("source" @. "energy")
              (E_Call ("openmc" @. "stats" @. "Discrete")
                 [E_List [E_Float 14e6]; E_List [E_Int 1]] [])
          ; S_Assign ("sett" @. "source") (E_Name "source")
          ; S_Assign (E_Name "tallies") (E_Call ("openmc" @. "Tallies") [] [])
          ; S_Assign (E_Name "cell_filter")
              (E_Call ("openmc" @. "CellFilter") [E_Name "breeder_blanket_cell"] [])
          ; S_Assign (E_Name "tbr_tally")
              (E_Call ("openmc" @. "Tally") [] [("name", E_Str "TBR")])
          ; S_Assign ("tbr_tally" @. "filters") (E_List [E_Name "cell_filter"])
          ; S_Assign ("tbr_tally" @. "scores") (E_List [E_Str "(n,Xt)"])
          ; S_Expr (E_Call ("tallies" @. "append") [E_Name "tbr_tally"] []) ]
       ; [ S_Assign (E_Name "model")
              (E_Call ("openmc" @. "model" @. "Model")
                 [E_Name "geom"; E_Name "mats"; E_Name "sett"; E_Name "tallies"] [])
          ; S_Assign (E_Name "sp_filename") (E_Call ("model" @. "run") [] []) ]
       ; [ S_Assign (E_Name "sp")
              (E_Call ("openmc" @. "StatePoint") [E_Name "sp_filename"] [])
          ; S_Assign (E_Name "tbr_tally")
              (E_Call ("sp" @. "get_tally") [] [("name", E_Str "TBR")])
          ; S_Assign (E_Name "df") (E_Call ("tbr_tally" @. "get_pandas_dataframe") [] [])
          ; S_Assign (E_Name "tbr_tally_result")
              (E_Call ((E_Subscript (E_Name "df") (E_Str "mean")) @. "sum") [] [])
          ; S_Assign (E_Name "tbr_tally_std_dev")
              (E_Call ((E_Subscript (E_Name "df") (E_Str "std. dev.")) @. "sum") [] [])
          ; S_Expr
              (E_Call (E_Name "print")
                 [ E_Str "The tritium breeding ratio was found, TBR = "
                 ; E_Name "tbr_tally_result" ] [])
          ; S_Expr
              (E_Call (E_Name "print")
                 [E_Str "Standard deviation on the tbr tally is "; E_Name "tbr_tally_std_dev"]
                 []) ]
       ; []
       ] |}.

(** [unnamed/part_001] (document 1 of the file): Part 1 - Making a parametric shape *)
Definition nb_parametric_shape : notebook :=
  {| nb_file := "unnamed/part_001";
     nb_cells :=
       [ [ S_ImportFrom "IPython.display" ["HTML"]
          ; S_Expr
              (E_Call (E_Name "HTML")
                 [E_Str (youtube_iframe "https://www.youtube.com/embed/Bn_TcJSOvaA")] []) ]
       ; [ S_Import [("paramak", None)]
          ; S_Assign (E_Name "my_shape")
              (E_Call ("paramak" @. "RotateStraightShape") []
                 [ ("points",
                    E_List
                      [ E_Tuple [E_Int 50; E_Int 50]
                      ; E_Tuple [E_Int 50; E_Int 100]
                      ; E_Tuple [E_Int 100; E_Int 100]
                      ; E_Tuple [E_Int 100; E_Int 50] ])
                 ; ("rotation_angle", E_Int 180) ])
          ; S_Expr (E_Call ("my_shape" @. "show") [] []) ]
       ; [ S_Assign (E_Name "my_shape")
              (E_Call ("paramak" @. "RotateSplineShape") []
                 [ ("points",
                    E_List
                      [ E_Tuple [E_Int 50; E_Int 50]
                      ; E_Tuple [E_Int 50; E_Int 100]
                      ; E_Tuple [E_Int 100; E_Int 100]
                      ; E_Tuple [E_Int 100; E_Int 50] ])
                 ; ("rotation_angle", E_Int 180) ])
          ; S_Expr (E_Call ("my_shape" @. "show") [] []) ]
       ; [ S_Assign (E_Name "my_shape")
              (E_Call ("paramak" @. "ExtrudeStraightShape") []
                 [ ("points",
                    E_List
                      [ E_Tuple [E_Int 50; E_Int 50]
                      ; E_Tuple [E_Int 50; E_Int 100]
                      ; E_Tuple [E_Int 100; E_Int 100]
                      ; E_Tuple [E_Int 100; E_Int 50] ])
                 ; ("distance", E_Int 20) ])
          ; S_Expr (E_Call ("my_shape" @. "show") [] []) ]
       ; [ S_Assign (E_Name "my_shape")
              (E_Call ("paramak" @. "ExtrudeSplineShape") []
                 [ ("points",
                    E_List
                      [ E_Tuple [E_Int 50; E_Int 50]
                      ; E_Tuple [E_Int 50; E_Int 100]
                      ; E_Tuple [E_Int 100; E_Int 100]
                      ; E_Tuple [E_Int 100; E_Int 50] ])
                 ; ("distance", E_Int 20) ])
          ; S_Expr (E_Call ("my_shape" @. "show") [] []) ]
       ; [ S_Assign (E_Name "small_Shape")
              (E_Call ("paramak" @. "ExtrudeStraightShape") []
                 [ ("points",
                    E_List
                      [ E_Tuple [E_Int 60; E_Int 60]
                      ; E_Tuple [E_Int 60; E_Int 90]
                      ; E_Tuple [E_Int 90; E_Int 90]
                      ; E_Tuple [E_Int 90; E_Int 60] ])
                 ; ("distance", E_Int 20) ])
          ; S_Assign (E_Name "my_shape")
              (E_Call ("paramak" @. "ExtrudeStraightShape") []
                 [ ("points",
                    E_List
                      [ E_Tuple [E_Int 50; E_Int 50]
                      ; E_Tuple [E_Int 50; E_Int 100]
                      ; E_Tuple [E_Int 100; E_Int 100]
                      ; E_Tuple [E_Int 100; E_Int 50] ])
                 ; ("distance", E_Int 20)
                 ; ("cut", E_Name "small_Shape") ])
          ; S_Expr (E_Call ("my_shape" @. "show") [] []) ]
       ; [ S_Expr (E_Call ("my_shape" @. "export_stp") [E_Str "example_shape.stp"] [])
          ; S_Expr (E_Call ("my_shape" @. "export_stl") [E_Str "example_shape.stl"] []) ]
       ; [ S_ImportFrom "stl_to_h5m" ["stl_to_h5m"]
          ; S_Expr
              (E_Call (E_Name "stl_to_h5m") []
                 [ ("files_with_tags",
                    E_List [E_Tuple [E_Str "example_shape.stl"; E_Str "mat1"]])
                 ; ("h5m_filename", E_Str "dagmc.h5m") ])
          ; S_Import [("os", None)]
          ; S_Expr (E_Call ("os" @. "system") [E_Str "mbconvert dagmc.h5m dagmc.vtk"] []) ]
       ; [ S_ImportFrom "IPython.display" ["FileLink"]
          ; S_Expr
              (E_Call (E_Name "display")
                 [E_Call (E_Name "FileLink") [E_Str "example_shape.stp"] []] [])
          ; S_Expr
              (E_Call (E_Name "display")
                 [E_Call (E_Name "FileLink") [E_Str "example_shape.stl"] []] [])
          ; S_Expr
              (E_Call (E_Name "display") [E_Call (E_Name "FileLink") [E_Str "dagmc.vtk"] []] []) ]
       ; []
       ] |}.

(** [unnamed/part_001] (document 2 of the file): Part 1 - Point source plotting *)
Definition nb_point_source_plotting : notebook :=
  {| nb_file := "unnamed/part_001";
     nb_cells :=
       [ [ S_ImportFrom "IPython.display" ["HTML"]
          ; S_Expr
              (E_Call (E_Name "HTML")
                 [E_Str (youtube_iframe "https://www.youtube.com/embed/j9dT1Viqcu4")] []) ]
       ; [S_Import [("openmc", None)]]
       ; [ S_Assign (E_Name "my_source") (E_Call ("openmc" @. "Source") [] [])
          ; S_Assign ("my_source" @. "space")
              (E_Call ("openmc" @. "stats" @. "Point") [E_Tuple [E_Int 0; E_Int 0; E_Int 0]] [])
          ; S_Assign ("my_source" @. "angle")
              (E_Call ("openmc" @. "stats" @. "Isotropic") [] [])
          ; S_Assign ("my_source" @. "energy")
              (E_Call ("openmc" @. "stats" @. "Discrete")
                 [E_List [E_Float 14e6]; E_List [E_Int 1]] []) ]
       ; [ S_Import [("openmc_source_plotter", Some "osp")]
          ; S_Expr (E_Call ("osp" @. "plot_source_energy") [] [("source", E_Name "my_source")]) ]
       ; [ S_Assign (E_Name "my_source_2") (E_Call ("openmc" @. "Source") [] [])
          ; S_Assign ("my_source_2" @. "space")
              (E_Call ("openmc" @. "stats" @. "Point") [E_Tuple [E_Int 0; E_Int 0; E_Int 0]] [])
          ; S_Assign ("my_source_2" @. "angle")
              (E_Call ("openmc" @. "stats" @. "Isotropic") [] [])
          ; S_Assign ("my_source_2" @. "energy")
              (E_Call ("openmc" @. "stats" @. "Watt") []
                 [("a", E_Float 988000.0); ("b", E_Float 2.249e-06)])
          ; S_Expr
              (E_Call ("osp" @. "plot_source_energy") [] [("source", E_Name "my_source_2")]) ]
       ; [ S_Assign (E_Name "my_source_3") (E_Call ("openmc" @. "Source") [] [])
          ; S_Assign ("my_source_3" @. "space")
              (E_Call ("openmc" @. "stats" @. "Point") [E_Tuple [E_Int 0; E_Int 0; E_Int 0]] [])
          ; S_Assign ("my_source_3" @. "angle")
              (E_Call ("openmc" @. "stats" @. "Isotropic") [] [])
          ; S_Assign ("my_source_3" @. "energy")
              (E_Call ("openmc" @. "stats" @. "Muir") []
                 [("e0", E_Float 14080000.0); ("m_rat", E_Float 5.0); ("kt", E_Float 20000.0)])
          ; S_Expr
              (E_Call ("osp" @. "plot_source_energy") [] [("source", E_Name "my_source_3")]) ]
       ; [ S_Assign (E_Name "my_source_4") (E_Call ("openmc" @. "Source") [] [])
          ; S_Assign ("my_source_4" @. "space")
              (E_Call ("openmc" @. "stats" @. "Point") [E_Tuple [E_Int 0; E_Int 0; E_Int 0]] [])
          ; S_Assign ("my_source_4" @. "angle")
              (E_Call ("openmc" @. "stats" @. "Isotropic") [] [])
          ; S_Assign ("my_source_4" @. "energy")
              (E_Call ("openmc" @. "stats" @. "Discrete")
                 [E_List [E_Float 14e6]; E_List [E_Int 1]] [])
          ; S_Expr
              (E_Call ("osp" @. "plot_source_position") []
                 [ ("source", E_Name "my_source_4")
                 ; ("openmc_exec", E_Str "/opt/conda/envs/openmc_version_0_11_0/bin/openmc") ]) ]
       ; [ S_Assign (E_Name "my_source_5") (E_Call ("openmc" @. "Source") [] [])
          ; S_Assign ("my_source_5" @. "space")
              (E_Call ("openmc" @. "stats" @. "Point") [E_Tuple [E_Int 0; E_Int 0; E_Int 0]] [])
          ; S_Assign ("my_source_5" @. "angle")
              (E_Call ("openmc" @. "stats" @. "Isotropic") [] [])
          ; S_Assign ("my_source_5" @. "energy")
              (E_Call ("openmc" @. "stats" @. "Discrete")
                 [E_List [E_Float 14e6]; E_List [E_Int 1]] [])
          ; S_Expr
              (E_Call ("osp" @. "plot_source_direction") []
                 [ ("source", E_Name "my_source_5")
                 ; ("openmc_exec", E_Str "/opt/conda/envs/openmc_version_0_11_0/bin/openmc") ]) ]
       ] |}.

(** [unnamed/part_001] (document 3 of the file): Part 4 - Plotting Doppler broadened cross sections *)
Definition nb_doppler_broadened_xs : notebook :=
  {| nb_file := "unnamed/part_001";
     nb_cells :=
       [ [ S_ImportFrom "IPython.display" ["HTML"]
          ; S_Expr
              (E_Call (E_Name "HTML")
                 [E_Str (youtube_iframe "https://www.youtube.com/embed/mkl1mVnTO6g")] []) ]
       ; [ S_ImportFrom "plotting_utils" ["create_temperature_plot_for_isotope"]
          ; S_Expr
              (E_Call (E_Name "create_temperature_plot_for_isotope") []
                 [ ("isotope", E_Str "W186")
                 ; ("temperatures", E_List [E_Int 300; E_Int 700; E_Int 1000])
                 ; ("reaction", E_Str "(n,total)") ]) ]
       ; [ S_Expr
              (E_Call (E_Name "create_temperature_plot_for_isotope") []
                 [ ("isotope", E_Str "Fe56")
                 ; ("temperatures", E_List [E_Int 300; E_Int 1000])
                 ; ("reaction", E_Str "(n,total)")
                 ; ("min_energy", E_Int 1100)
                 ; ("max_energy", E_Int 1200) ]) ]
       ] |}.

(** [unnamed/part_002] (document 1 of the file): Part 1 - Plotting neutron energy spectra in a histogram form *)
Definition nb_neutron_energy_spectra : notebook :=
  {| nb_file := "unnamed/part_002";
     nb_cells :=
       [ [ S_ImportFrom "IPython.display" ["HTML"]
          ; S_Expr
              (E_Call (E_Name "HTML")
                 [E_Str (youtube_iframe "https://www.youtube.com/embed/qHqAuqMLYPA")] []) ]
       ; [ S_Import [("openmc", None)]
          ; S_Assign (E_Name "my_material")
              (E_Call ("openmc" @. "Material") [] [("name", E_Str "water")])
          ; S_Expr
              (E_Call ("my_material" @. "add_element") [E_Str "H"; E_Int 1]
                 [("percent_type", E_Str "ao")])
          ; S_Expr
              (E_Call ("my_material" @. "add_element") [E_Str "O"; E_Int 2]
                 [("percent_type", E_Str "ao")])
          ; S_Expr (E_Call ("my_material" @. "set_density") [E_Str "g/cm3"; E_Int 1] [])
          ; S_Assign (E_Name "mats")
              (E_Call ("openmc" @. "Materials") [E_List [E_Name "my_material"]] [])
          ; S_Assign (E_Name "vessel_inner_surface")
              (E_Call ("openmc" @. "Sphere") [] [("r", E_Int 500)])
          ; S_Assign (E_Name "vessel_rear_surface")
              (E_Call ("openmc" @. "Sphere") [] [("r", E_Int 530)])
          ; S_Assign (E_Name "outer_surface")
              (E_Call ("openmc" @. "Sphere") []
                 [("r", E_Int 550); ("boundary_type", E_Str "vacuum")])
          ; S_Assign (E_Name "inner_vessel_cell")
              (E_Call ("openmc" @. "Cell") []
                 [("region", E_UnaryOp USub (E_Name "vessel_inner_surface"))])
          ; S_Assign (E_Name "blanket_cell")
              (E_Call ("openmc" @. "Cell") []
                 [ ("region",
                    E_BinOp (E_UnaryOp USub (E_Name "vessel_rear_surface")) BitAnd
                      (E_UnaryOp UAdd (E_Name "vessel_inner_surface"))) ])
          ; S_Assign ("blanket_cell" @. "fill") (E_Name "my_material")
          ; S_Assign (E_Name "outer_vessel_cell")
              (E_Call ("openmc" @. "Cell") []
                 [ ("region",
                    E_BinOp (E_UnaryOp UAdd (E_Name "vessel_rear_surface")) BitAnd
                      (E_UnaryOp USub (E_Name "outer_surface"))) ])
          ; S_Assign (E_Name "universe")
              (E_Call ("openmc" @. "Universe") []
                 [ ("cells",
                    E_List
                      [ E_Name "inner_vessel_cell"
                      ; E_Name "blanket_cell"
                      ; E_Name "outer_vessel_cell" ]) ])
          ; S_Assign (E_Name "geom") (E_Call ("openmc" @. "Geometry") [E_Name "universe"] [])
          ; S_Assign (E_Name "sett") (E_Call ("openmc" @. "Settings") [] [])
          ; S_Assign ("sett" @. "batches") (E_Int 10)
          ; S_Assign ("sett" @. "inactive") (E_Int 0)
          ; S_Assign ("sett" @. "particles") (E_Int 1000)
          ; S_Assign ("sett" @. "run_mode") (E_Str "fixed source")
          ; S_Assign (E_Name "source") (E_Call ("openmc" @. "Source") [] [])
          ; S_Assign ("source" @. "space")
              (E_Call ("openmc" @. "stats" @. "Point") [E_Tuple [E_Int 0; E_Int 0; E_Int 0]] [])
          ; S_Assign ("source" @. "angle") (E_Call ("openmc" @. "stats" @. "Isotropic") [] [])
          ; S_Assign ("source" @. "energy")
              (E_Call ("openmc" @. "stats" @. "Discrete")
                 [E_List [E_Float 14e6]; E_List [E_Int 1]] [])
          ; S_Assign ("sett" @. "source") (E_Name "source") ]
       ; [ S_Import [("numpy", Some "np")]
          ; S_Assign (E_Name "tallies") (E_Call ("openmc" @. "Tallies") [] [])
          ; S_Assign (E_Name "neutron_particle_filter")
              (E_Call ("openmc" @. "ParticleFilter") [E_List [E_Str "neutron"]] [])
          ; S_Assign (E_Name "energy_filter")
              (E_Call ("openmc" @. "EnergyFilter")
                 [E_Call ("np" @. "linspace") [E_Int 0; E_Float 15e6; E_Int 200] []] [])
          ; S_Assign (E_Name "cell_filter")
              (E_Call ("openmc" @. "CellFilter") [E_Name "blanket_cell"] [])
          ; S_Assign (E_Name "cell_spectra_tally")
              (E_Call ("openmc" @. "Tally") [] [("name", E_Str "cell_spectra_tally")])
          ; S_Assign ("cell_spectra_tally" @. "scores") (E_List [E_Str "flux"])
          ; S_Assign ("cell_spectra_tally" @. "filters")
              (E_List
                 [ E_Name "cell_filter"
                 ; E_Name "neutron_particle_filter"
                 ; E_Name "energy_filter" ])
          ; S_Expr (E_Call ("tallies" @. "append") [E_Name "cell_spectra_tally"] []) ]
       ; [ S_Assign (E_Name "front_surface_filter")
              (E_Call ("openmc" @. "SurfaceFilter") [E_Name "vessel_inner_surface"] [])
          ; S_Assign (E_Name "back_surface_filter")
              (E_Call ("openmc" @. "SurfaceFilter") [E_Name "vessel_rear_surface"] [])
          ; S_Assign (E_Name "front_surface_spectra_tally")
              (E_Call ("openmc" @. "Tally") [] [("name", E_Str "front_surface_spectra_tally")])
          ; S_Assign ("front_surface_spectra_tally" @. "scores") (E_List [E_Str "current"])
          ; S_Assign ("front_surface_spectra_tally" @. "filters")
              (E_List
                 [ E_Name "front_surface_filter"
                 ; E_Name "neutron_particle_filter"
                 ; E_Name "energy_filter" ])
          ; S_Expr (E_Call ("tallies" @. "append") [E_Name "front_surface_spectra_tally"] [])
          ; S_Assign (E_Name "back_surface_spectra_tally")
              (E_Call ("openmc" @. "Tally") [] [("name", E_Str "back_surface_spectra_tally")])
          ; S_Assign ("back_surface_spectra_tally" @. "scores") (E_List [E_Str "current"])
          ; S_Assign ("back_surface_spectra_tally" @. "filters")
              (E_List
                 [ E_Name "back_surface_filter"
                 ; E_Name "neutron_particle_filter"
                 ; E_Name "energy_filter" ])
          ; S_Expr (E_Call ("tallies" @. "append") [E_Name "back_surface_spectra_tally"] []) ]
       ; [ S_Assign (E_Name "model")
              (E_Call ("openmc" @. "model" @. "Model")
                 [E_Name "geom"; E_Name "mats"; E_Name "sett"; E_Name "tallies"] [])
          ; S_Shell "rm *.h5"
          ; S_Assign (E_Name "results_filename") (E_Call ("model" @. "run") [] []) ]
       ; [ S_Assign (E_Name "results")
              (E_Call ("openmc" @. "StatePoint") [E_Name "results_filename"] [])
          ; S_Assign (E_Name "cell_tally")
              (E_Call ("results" @. "get_tally") [] [("name", E_Str "cell_spectra_tally")])
          ; S_ImportFrom "spectrum_plotter" ["plot_spectrum_from_tally"]
          ; S_Expr
              (E_Call (E_Name "plot_spectrum_from_tally") []
                 [ ("spectrum", E_Dict [(E_Str "front surface", E_Name "cell_tally")])
                 ; ("x_label", E_Str "energy [eV]")
                 ; ("y_label", E_Str "flux [neutrons centimeter / source neutron]")
                 ; ("plotting_package", E_Str "plotly") ]) ]
       ; [ S_Assign (E_Name "results")
              (E_Call ("openmc" @. "StatePoint") [E_Name "results_filename"] [])
          ; S_Assign (E_Name "back_surface_tally")
              (E_Call ("results" @. "get_tally") []
                 [("name", E_Str "back_surface_spectra_tally")])
          ; S_Assign (E_Name "front_surface_tally")
              (E_Call ("results" @. "get_tally") []
                 [("name", E_Str "front_surface_spectra_tally")])
          ; S_Expr
              (E_Call (E_Name "plot_spectrum_from_tally") []
                 [ ("spectrum",
                    E_Dict
                      [ (E_Str "back_surface_tally", E_Name "back_surface_tally")
                      ; (E_Str "front_surface_tally", E_Name "front_surface_tally") ])
                 ; ("x_label", E_Str "energy [eV]")
                 ; ("y_label", E_Str "neutrons per source neutron")
                 ; ("plotting_package", E_Str "plotly")
                 ; ("required_units", E_Str "neutrons / source_particle") ]) ]
       ; []
       ] |}.

(** [unnamed/part_003] (document 1 of the file): Task 13 - Techniques for sampling parameter space *)
Definition nb_sampling_parameter_space : notebook :=
  {| nb_file := "unnamed/part_003";
     nb_cells :=
       [ [ S_Import [("uuid", None)]
          ; S_ImportFrom "pathlib" ["Path"]
          ; S_Import [("json", None)]
          ; S_Import [("pandas", Some "pd")]
          ; S_Import [("adaptive", None)]
          ; S_Import [("numpy", Some "np")]
          ; S_Import [("plotly.graph_objects", Some "go")]
          ; S_ImportFrom "tqdm" ["tqdm"]
          ; S_ImportFrom "plotly.subplots" ["make_subplots"]
          ; S_ImportFrom "skopt.sampler" ["Halton"]
          ; S_ImportFrom "skopt.space" ["Space"]
          ; S_ImportFrom "skopt.sampler" ["Grid"]
          ; S_Import [("nest_asyncio", None)]
          ; S_Expr (E_Call ("adaptive" @. "notebook_extension") [] [])
          ; S_Expr (E_Call ("nest_asyncio" @. "apply") [] [])
          ; S_ImportFrom "openmc_model" ["*"]
          ; S_ImportFrom "plotting_tools"
              ["read_in_data"; "plot_simulation_results"; "plot_interpolated_results"]
          ; S_FunctionDef "output_result" ["result"]
              [ S_Assign (E_Name "filename")
                  (E_BinOp
                     (E_BinOp (E_Str "outputs/") Add
                        (E_Call (E_Name "str") [E_Call ("uuid" @. "uuid4") [] []] [])) Add
                     (E_Str ".json"))
              ; S_Expr
                  (E_Call
                     ((E_Call (E_Name "Path") [E_Name "filename"] []) @. "parent" @. "mkdir") []
                     [("parents", E_Bool true); ("exist_ok", E_Bool true)])
              ; S_With
                  (E_Call (E_Name "open") [E_Name "filename"]
                     [("mode", E_Str "w"); ("encoding", E_Str "utf-8")]) (Some (E_Name "f"))
                  [ S_Expr
                      (E_Call ("json" @. "dump") [E_Name "result"; E_Name "f"]
                         [("indent", E_Int 4)]) ] ]
          ; S_FunctionDef "show_results" ["filtered_results_df"]
              [ S_Assign (E_Name "sample_trace")
                  (E_Call (E_Name "plot_simulation_results") [E_Name "filtered_results_df"] [])
              ; S_Assign (E_Name "fig") (E_Call ("go" @. "Figure") [] [])
              ; S_Expr (E_Call ("fig" @. "add_trace") [E_Name "sample_trace"] [])
              ; S_Return (Some (E_Name "fig")) ] ]
       ; [ S_Assign (E_Name "number_of_simulations") (E_Int 16)
          ; S_Assign (E_Name "space")
              (E_Call (E_Name "Space")
                 [ E_List
                     [ E_Tuple [E_Float 0.0; E_Float 100.0]
                     ; E_Tuple [E_Float 0.0; E_Float 100.0] ] ] []) ]
       ; [ S_For (E_Name "i") (E_Call (E_Name "range") [E_Name "number_of_simulations"] [])
              [ S_Assign (E_Name "breeder_percent_in_breeder_plus_multiplier_ratio")
                  (E_Call ("np" @. "random" @. "uniform") [E_Int 0; E_Int 100] [])
              ; S_Assign (E_Name "blanket_breeder_li6_enrichment")
                  (E_Call ("np" @. "random" @. "uniform") [E_Int 1; E_Int 100] [])
              ; S_Assign (E_Name "result")
                  (E_Call (E_Name "find_tbr_hcpb")
                     [ E_Name "breeder_percent_in_breeder_plus_multiplier_ratio"
                     ; E_Name "blanket_breeder_li6_enrichment" ] [])
              ; S_Assign (E_Subscript (E_Name "result") (E_Str "sample")) (E_Str "random")
              ; S_Expr (E_Call (E_Name "output_result") [E_Name "result"] []) ]
          ; S_Assign (E_Name "results_df")
              (E_Call ("pd" @. "DataFrame") [E_Call (E_Name "read_in_data") [] []] [])
          ; S_Assign (E_Name "filtered_results_df")
              (E_Subscript (E_Name "results_df")
                 (E_Compare (E_Subscript (E_Name "results_df") (E_Str "sample")) Eq
                    (E_Str "random")))
          ; S_Expr (E_Call (E_Name "show_results") [E_Name "filtered_results_df"] []) ]
       ; [ S_Assign (E_Name "grid")
              (E_Call (E_Name "Grid") []
                 [("border", E_Str "include"); ("use_full_layout", E_Bool false)])
          ; S_Assign (E_Name "coords")
              (E_Call ("grid" @. "generate")
                 ["space" @. "dimensions"; E_Name "number_of_simulations"] [])
          ; S_For (E_Name "coord") (E_Call (E_Name "tqdm") [E_Name "coords"] [])
              [ S_Assign (E_Name "breeder_percent_in_breeder_plus_multiplier_ratio")
                  (E_Subscript (E_Name "coord") (E_Int 0))
              ; S_Assign (E_Name "blanket_breeder_li6_enrichment")
                  (E_Subscript (E_Name "coord") (E_Int 1))
              ; S_Assign (E_Name "result")
                  (E_Call (E_Name "find_tbr_hcpb")
                     [ E_Name "breeder_percent_in_breeder_plus_multiplier_ratio"
                     ; E_Name "blanket_breeder_li6_enrichment" ] [])
              ; S_Assign (E_Subscript (E_Name "result") (E_Str "sample")) (E_Str "grid")
              ; S_Expr (E_Call (E_Name "output_result") [E_Name "result"] []) ]
          ; S_Assign (E_Name "results_df")
              (E_Call ("pd" @. "DataFrame") [E_Call (E_Name "read_in_data") [] []] [])
          ; S_Assign (E_Name "filtered_results_df")
              (E_Subscript (E_Name "results_df")
                 (E_Compare (E_Subscript (E_Name "results_df") (E_Str "sample")) Eq
                    (E_Str "grid")))
          ; S_Expr (E_Call (E_Name "show_results") [E_Name "filtered_results_df"] []) ]
       ; [ S_Assign (E_Name "halton") (E_Call (E_Name "Halton") [] [])
          ; S_Assign (E_Name "coords")
              (E_Call ("halton" @. "generate")
                 ["space" @. "dimensions"; E_Name "number_of_simulations"] [])
          ; S_For (E_Name "coord") (E_Call (E_Name "tqdm") [E_Name "coords"] [])
              [ S_Assign (E_Name "breeder_percent_in_breeder_plus_multiplier_ratio")
                  (E_Subscript (E_Name "coord") (E_Int 0))
              ; S_Assign (E_Name "blanket_breeder_li6_enrichment")
                  (E_Subscript (E_Name "coord") (E_Int 1))
              ; S_Assign (E_Name "result")
                  (E_Call (E_Name "find_tbr_hcpb")
                     [ E_Name "breeder_percent_in_breeder_plus_multiplier_ratio"
                     ; E_Name "blanket_breeder_li6_enrichment" ] [])
              ; S_Assign (E_Subscript (E_Name "result") (E_Str "sample")) (E_Str "halton")
              ; S_Expr (E_Call (E_Name "output_result") [E_Name "result"] []) ]
          ; S_Assign (E_Name "results_df")
              (E_Call ("pd" @. "DataFrame") [E_Call (E_Name "read_in_data") [] []] [])
          ; S_Assign (E_Name "filtered_results_df")
              (E_Subscript (E_Name "results_df")
                 (E_Compare (E_Subscript (E_Name "results_df") (E_Str "sample")) Eq
                    (E_Str "halton")))
          ; S_Expr (E_Call (E_Name "show_results") [E_Name "filtered_results_df"] []) ]
       ; [ S_FunctionDef "find_tbr" ["x"]
              [ S_Assign
                  (E_Tuple
                     [ E_Name "breeder_percent_in_breeder_plus_multiplier_ratio"
                     ; E_Name "blanket_breeder_li6_enrichment" ]) (E_Name "x")
              ; S_Assign (E_Name "result")
                  (E_Call (E_Name "find_tbr_hcpb")
                     [ E_Name "breeder_percent_in_breeder_plus_multiplier_ratio"
                     ; E_Name "blanket_breeder_li6_enrichment" ] [])
              ; S_Assign (E_Subscript (E_Name "result") (E_Str "sample")) (E_Str "adaptive")
              ; S_Expr (E_Call (E_Name "output_result") [E_Name "result"] [])
              ; S_Return (Some (E_Subscript (E_Name "result") (E_Str "tbr"))) ]
          ; S_Assign (E_Name "learner")
              (E_Call ("adaptive" @. "Learner2D") [E_Name "find_tbr"]
                 [ ("bounds",
                    E_List [E_Tuple [E_Int 0; E_Int 100]; E_Tuple [E_Int 0; E_Int 100]]) ])
          ; S_Assign (E_Name "runner")
              (E_Call ("adaptive" @. "Runner") [E_Name "learner"]
                 [ ("ntasks", E_Int 1)
                 ; ("goal",
                    E_Lambda ["l"]
                      (E_Compare ("l" @. "npoints") Gt (E_Name "number_of_simulations"))) ])
          ; S_Expr (E_Call ("runner" @. "live_info") [] [])
          ; S_Expr
              (E_Call ("runner" @. "ioloop" @. "run_until_complete") ["runner" @. "task"] [])
          ; S_Assign (E_Name "results_df")
              (E_Call ("pd" @. "DataFrame") [E_Call (E_Name "read_in_data") [] []] [])
          ; S_Assign (E_Name "filtered_results_df")
              (E_Subscript (E_Name "results_df")
                 (E_Compare (E_Subscript (E_Name "results_df") (E_Str "sample")) Eq
                    (E_Str "adaptive")))
          ; S_Expr (E_Call (E_Name "show_results") [E_Name "filtered_results_df"] []) ]
       ; [ S_Assign (E_Name "results") (E_Call (E_Name "read_in_data") [] [])
          ; S_Assign (E_Name "results_df") (E_Call ("pd" @. "DataFrame") [E_Name "results"] [])
          ; S_Assign (E_Name "row_col_coords")
              (E_List
                 [ E_List [E_Int 1; E_Int 1]
                 ; E_List [E_Int 1; E_Int 2]
                 ; E_List [E_Int 2; E_Int 1]
                 ; E_List [E_Int 2; E_Int 2]
                 ; E_List [E_Int 3; E_Int 1] ])
          ; S_Assign (E_Name "sampling_methods")
              (E_List (map E_Str ["random"; "grid"; "halton"; "adaptive"]))
          ; S_Assign (E_Name "interpolated_fig")
              (E_Call (E_Name "make_subplots") []
                 [ ("rows", E_Int 2)
                 ; ("cols", E_Int 2)
                 ; ("subplot_titles", E_Name "sampling_methods") ])
          ; S_For (E_Tuple [E_Name "sample"; E_Name "coords"])
              (E_Call (E_Name "zip") [E_Name "sampling_methods"; E_Name "row_col_coords"] [])
              [ S_Assign (E_Name "filtered_results_df")
                  (E_Subscript (E_Name "results_df")
                     (E_Compare (E_Subscript (E_Name "results_df") (E_Str "sample")) Eq
                        (E_Name "sample")))
              ; S_Assign (E_Name "interpolated_traces")
                  (E_Call (E_Name "plot_interpolated_results") [E_Name "filtered_results_df"] [])
              ; S_Expr
                  (E_Call ("interpolated_fig" @. "add_trace")
                     [E_Subscript (E_Name "interpolated_traces") (E_Int 0)]
                     [ ("row", E_Subscript (E_Name "coords") (E_Int 0))
                     ; ("col", E_Subscript (E_Name "coords") (E_Int 1)) ])
              ; S_Expr
                  (E_Call ("interpolated_fig" @. "add_trace")
                     [E_Subscript (E_Name "interpolated_traces") (E_Int 1)]
                     [ ("row", E_Subscript (E_Name "coords") (E_Int 0))
                     ; ("col", E_Subscript (E_Name "coords") (E_Int 1)) ]) ]
          ; S_Expr
              (E_Call ("interpolated_fig" @. "update_xaxes") []
                 [("title_text", E_Str "Li6 enrichment percent")])
          ; S_Expr
              (E_Call ("interpolated_fig" @. "update_yaxes") []
                 [("title_text", E_Str "Breeder percent in breeder plus multiplier volume")])
          ; S_Expr (E_Call ("interpolated_fig" @. "show") [] []) ]
       ; []
       ] |}.

(** Every notebook of the repository. *)
Definition notebooks : list notebook :=
  [ nb_isotope_xs_plot; nb_plasma_source_plots; nb_find_dpa; nb_example_2d_mesh_tallies;
    nb_photon_energy_spectra; nb_example_3d_mesh_tallies; nb_simulate_CAD_cell_tally_heat;
    nb_transmutation_isotope_build_up; nb_parameter_study_optimisation;
    nb_tritium_breeding_ratio; nb_parametric_shape; nb_point_source_plotting;
    nb_doppler_broadened_xs; nb_neutron_energy_spectra; nb_sampling_parameter_space ].

End Notebooks.

(** * What the notebooks' own code does *)
Module Analysis.
Import Py.

(** ** Failure handling *)

(** Statements with which a script reacts to a failure or checks its inputs:
    [try] (recovery), [while] (retrying), [if], [assert] and [raise]
    (validation). *)
Definition handles_failure (s : stmt) : bool :=
  match s with
  | S_Try _ _ _ | S_While _ _ | S_If _ _ _ | S_Assert _ | S_Raise _ => true
  | _ => false
  end.

(** A conditional expression chooses between results, as an [if] does. *)
Definition is_conditional (e : expr) : bool :=
  match e with E_IfExp _ _ _ => true | _ => false end.

(** ** Functions and loops *)

Definition defined_functions (nb : notebook) : list string :=
  flat_map (fun s => match s with S_FunctionDef f _ _ => [f] | _ => [] end)
           (all_statements nb).

(** The statements inside the loops and the function bodies of a notebook. *)
Definition inner_statements (nb : notebook) : list stmt :=
  flat_map (fun s => match s with
                     | S_For _ _ b | S_While _ b | S_FunctionDef _ _ b => flat_map nested b
                     | _ => []
                     end) (all_statements nb).

(** ** Arithmetic *)

Definition is_number (e : expr) : bool :=
  match e with E_Int _ | E_Float _ => true | _ => false end.

(** Surfaces of the CSG geometry.  On a surface, unary [-] and [+] name the
    half-space on either side, and [&] intersects regions: operators of the
    geometry library, not arithmetic. *)
Definition surface_classes : list string := ["Sphere"; "ZCylinder"; "XPlane"].

Definition surfaces (nb : notebook) : list string :=
  flat_map (fun s => match s with
                     | S_Assign (E_Name x) (E_Call f _ _) =>
                         if mem (callee_name f) surface_classes then [x] else []
                     | _ => []
                     end) (all_statements nb).

(** [+] and [*] on a string or on a list display concatenate and repeat. *)
Fixpoint is_sequence (e : expr) : bool :=
  match e with
  | E_Str _ | E_List _ | E_Tuple _ => true
  | E_BinOp l (Add | Mult) r => is_sequence l || is_sequence r
  | _ => false
  end.

(** The expression applies an arithmetic operator to numbers: a binary
    [+ - * / **] that is not a concatenation or repetition, or a negation of
    something other than a literal or a surface. *)
Definition is_arithmetic (surf : list string) (e : expr) : bool :=
  match e with
  | E_BinOp _ BitAnd _ => false
  | E_BinOp _ _ _ => negb (is_sequence e)
  | E_UnaryOp _ (E_Name x) => negb (mem x surf)
  | E_UnaryOp _ x => negb (is_number x)
  | _ => false
  end.

(** Calls that hand a notebook the results of a simulation: the statepoint and
    HDF5 readers, the JSON readers of saved results, and the helper functions
    of [openmc_model] and the optimiser, which run simulations and return
    their tallies. *)
Definition result_sources : list string :=
  [ "StatePoint"; "from_hdf5"; "read_json"; "load"; "read_in_data";
    "objective"; "find_tbr_hcpb"; "gp_minimize" ].

Fixpoint target_names (t : expr) : list string :=
  match t with
  | E_Name x => [x]
  | E_Tuple es | E_List es => flat_map target_names es
  | _ => []
  end.

(** The expression mentions a simulation result: it calls a result source or
    reads a variable of [R], the variables known to hold results.  The
    variable of a comprehension holds results when it ranges over results. *)
Fixpoint mentions_results (R : list string) (e : expr) : bool :=
  match e with
  | E_Name x => mem x R
  | E_Attribute v _ => mentions_results R v
  | E_Subscript v i => mentions_results R v || mentions_results R i
  | E_Slice lo hi =>
      match lo with Some x => mentions_results R x | None => false end
      || match hi with Some x => mentions_results R x | None => false end
  | E_Call f args kws =>
      mem (callee_name f) result_sources
      || mentions_results R f
      || existsb (mentions_results R) args
      || existsb (fun kw => match kw with (_, v) => mentions_results R v end) kws
  | E_BinOp l _ r => mentions_results R l || mentions_results R r
  | E_UnaryOp _ x => mentions_results R x
  | E_Compare l _ r => mentions_results R l || mentions_results R r
  | E_IfExp c a b => mentions_results R c || mentions_results R a || mentions_results R b
  | E_List es | E_Tuple es => existsb (mentions_results R) es
  | E_Dict kvs =>
      existsb (fun kv => match kv with
                         | (k, v) => mentions_results R k || mentions_results R v
                         end) kvs
  | E_ListComp elt t it =>
      mentions_results R it
      || mentions_results (if mentions_results R it then target_names t ++ R else R) elt
  | E_Lambda _ b => mentions_results R b
  | _ => false
  end.

(** The arithmetic that an expression applies to simulation results. *)
Fixpoint result_arithmetic_in (surf R : list string) (e : expr) : list expr :=
  (if is_arithmetic surf e && mentions_results R e then [e] else [])
  ++ match e with
     | E_Attribute v _ => result_arithmetic_in surf R v
     | E_Subscript v i => result_arithmetic_in surf R v ++ result_arithmetic_in surf R i
     | E_Call f args kws =>
         result_arithmetic_in surf R f
         ++ flat_map (result_arithmetic_in surf R) args
         ++ flat_map (fun kw => match kw with
                                | (_, v) => result_arithmetic_in surf R v
                                end) kws
     | E_BinOp l _ r => result_arithmetic_in surf R l ++ result_arithmetic_in surf R r
     | E_UnaryOp _ x => result_arithmetic_in surf R x
     | E_Compare l _ r => result_arithmetic_in surf R l ++ result_arithmetic_in surf R r
     | E_IfExp c a b =>
         result_arithmetic_in surf R c ++ result_arithmetic_in surf R a
         ++ result_arithmetic_in surf R b
     | E_List es | E_Tuple es => flat_map (result_arithmetic_in surf R) es
     | E_Dict kvs =>
         flat_map (fun kv => match kv with
                             | (k, v) => result_arithmetic_in surf R k
                                         ++ result_arithmetic_in surf R v
                             end) kvs
     | E_ListComp elt t it =>
         result_arithmetic_in surf R it
         ++ result_arithmetic_in surf
              (if mentions_results R it then target_names t ++ R else R) elt
     | E_Lambda _ b => result_arithmetic_in surf R b
     | _ => []
     end.

(** One pass over the statements in execution order.  The state is the list
    of variables that hold results so far and the result arithmetic found. *)
Definition bind_results (R : list string) (t v : expr) : list string :=
  if mentions_results R v then target_names t ++ R else R.

Fixpoint scan (surf : list string) (s : stmt) (st : list string * list expr)
  : list string * list expr :=
  let scan_all := fix scan_all (l : list stmt) (st : list string * list expr) :=
    match l with
    | [] => st
    | s' :: l' => scan_all l' (scan surf s' st)
    end in
  let '(R, found) := st in
  let here := flat_map (result_arithmetic_in surf R) (stmt_exprs s) in
  match s with
  | S_Assign t v => (bind_results R t v, found ++ here)
  | S_For t it b => scan_all b (bind_results R t it, found ++ here)
  | S_With c (Some v) b => scan_all b (bind_results R v c, found ++ here)
  | S_With _ None b | S_While _ b | S_FunctionDef _ _ b => scan_all b (R, found ++ here)
  | S_If _ b1 b2 => scan_all b2 (scan_all b1 (R, found ++ here))
  | S_Try b hs f =>
      scan_all f
        ((fix handlers (hs : list (option expr * list stmt)) st :=
            match hs with
            | [] => st
            | (_, hb) :: hs' => handlers hs' (scan_all hb st)
            end) hs (scan_all b (R, found ++ here)))
  | _ => (R, found ++ here)
  end.

(** The arithmetic a notebook applies to simulation results, in order. *)
Definition result_arithmetic (nb : notebook) : list expr :=
  snd (fold_left (fun st s => scan (surfaces nb) s st) (statements nb) ([], [])).

(** The variables that hold simulation results by the end of a notebook. *)
Definition result_variables (nb : notebook) : list string :=
  fst (fold_left (fun st s => scan (surfaces nb) s st) (statements nb) ([], [])).

(** Library calls that compute on the numbers they are given: the
    reductions of numpy and pandas, scipy's interpolation on a grid and the
    unit conversion of [openmc_tally_unit_converter]. *)
Definition reductions : list string :=
  ["sum"; "mean"; "std"; "var"; "max"; "min"; "prod"; "cumsum"; "median"].

Definition numeric_functions : list string := ["griddata"; "process_tally"].

Definition is_library_computation (e : expr) : bool :=
  match e with
  | E_Call (E_Attribute _ m) _ _ => mem m reductions || mem m numeric_functions
  | E_Call (E_Name f) _ _ => mem f reductions || mem f numeric_functions
  | _ => false
  end.

(** The library computations a notebook applies to simulation results. *)
Definition result_computations (nb : notebook) : list expr :=
  let R := result_variables nb in
  List.filter (fun e => is_library_computation e && mentions_results R e) (all_exprs nb).

(** Every call of a notebook that is given simulation results, by the name
    it is made under. *)
Definition calls_on_results (nb : notebook) : list string :=
  let R := result_variables nb in
  flat_map (fun e => match e with
                     | E_Call f _ _ => if mentions_results R e then [callee_name f] else []
                     | _ => []
                     end) (all_exprs nb).

(** What else is done with results: they are read, handed back by a call
    that launched the simulation, shown, or saved. *)
Definition result_readers : list string :=
  [ "StatePoint"; "get_tally"; "get_pandas_dataframe"; "get_slice"; "get_values";
    "from_hdf5"; "get_atoms"; "read_json"; "load"; "items"; "read_in_data"; "DataFrame" ].

Definition result_launchers : list string := ["objective"; "find_tbr_hcpb"; "gp_minimize"].

Definition result_presenters : list string :=
  [ "print"; "show"; "imshow"; "plot"; "plot_spectrum_from_tally"; "write_data_to_vtk";
    "add_trace"; "Scatter"; "Scatter3d"; "Contour"; "plot_simulation_results";
    "plot_interpolated_results"; "show_results" ].

Definition result_savers : list string := ["append"; "dump"; "output_result"].

(** Every call that is given results reads, launches, presents, saves or is
    one of the library computations. *)
Definition results_are_handled (nb : notebook) : bool :=
  forallb (fun f => mem f (result_readers ++ result_launchers ++ result_presenters
                           ++ result_savers ++ reductions ++ numeric_functions))
          (calls_on_results nb).

(** All arithmetic of a notebook, on results or not. *)
Definition arithmetic (nb : notebook) : list expr :=
  List.filter (is_arithmetic (surfaces nb)) (all_exprs nb).

(** An assignment whose right-hand side is arithmetic. *)
Definition assigns_arithmetic (surf : list string) (s : stmt) : bool :=
  match s with
  | S_Assign _ v => is_arithmetic surf v
  | _ => false
  end.

(** A notebook is glue: it defines none but its three helper functions, and
    inside its loops and function bodies no variable is assigned the result
    of an arithmetic operator, so nothing numerical is iterated. *)
Definition glue_only (nb : notebook) : bool :=
  forallb (fun f => mem f ["output_result"; "show_results"; "find_tbr"])
          (defined_functions nb)
  && forallb (fun s => negb (assigns_arithmetic (surfaces nb) s)) (inner_statements nb).

(** ** What attributes are set from *)

Inductive value_kind :=
| Literal      (* a constant, or a display of constants *)
| Reference    (* a variable, or a display of variables and constants *)
| CallResult   (* the value returned by a call *)
| Generated    (* an array or a random sample made by numpy or random *)
| Arithmetic   (* the result of an arithmetic operator *)
| Other.

Fixpoint is_literal (e : expr) : bool :=
  match e with
  | E_Int _ | E_Float _ | E_Str _ | E_Bool _ | E_None => true
  | E_UnaryOp _ x => is_number x
  | E_List es | E_Tuple es => forallb is_literal es
  | E_Dict kvs =>
      forallb (fun kv => match kv with (k, v) => is_literal k && is_literal v end) kvs
  | _ => false
  end.

Fixpoint is_reference (e : expr) : bool :=
  match e with
  | E_Name _ => true
  | E_List es | E_Tuple es => forallb is_reference es
  | _ => is_literal e
  end.

Definition generator_modules : list string := ["np"; "numpy"; "random"].

Definition is_generated (e : expr) : bool :=
  match e with
  | E_Call f _ _ => mem (root_name f) generator_modules
  | _ => false
  end.

Definition value_kind_of (surf : list string) (e : expr) : value_kind :=
  if is_literal e then Literal
  else if is_reference e then Reference
  else if is_generated e then Generated
  else match e with
       | E_Call _ _ _ => CallResult
       | _ => if is_arithmetic surf e then Arithmetic else Other
       end.

(** The statements [obj.attr = value] of a notebook, as (obj, attr, value). *)
Definition attribute_assignments (nb : notebook) : list (expr * string * expr) :=
  flat_map (fun s => match s with
                     | S_Assign (E_Attribute obj attr) v => [(obj, attr, v)]
                     | _ => []
                     end) (all_statements nb).

(** The value of an attribute assignment is a literal, a reference, the
    result of a call into openmc or openmc_plasma_source, or arithmetic. *)
Definition attribute_value_ok (surf : list string) (a : expr * string * expr) : bool :=
  match value_kind_of surf a.2 with
  | Literal | Reference | Arithmetic => true
  | CallResult => mem (root_name a.2) ["openmc"; "ops"]
  | Generated | Other => false
  end.

Definition set_from_arithmetic (surf : list string) (a : expr * string * expr) : bool :=
  match value_kind_of surf a.2 with Arithmetic => true | _ => false end.

(** A call that constructs an object: by Python's convention the name of a
    class starts with a capital letter. *)
Definition is_class_name (s : string) : bool :=
  match s with
  | String c _ => let n := nat_of_ascii c in ((65 <=? n) && (n <=? 90))%nat
  | EmptyString => false
  end.

(** The arguments of the constructor calls of a notebook, as (constructor,
    keyword or position, value): they populate the object as it is made. *)
Definition constructor_arguments (nb : notebook) : list (expr * string * expr) :=
  flat_map (fun e => match e with
                     | E_Call f args kws =>
                         if is_class_name (callee_name f)
                         then map (fun a => (f, "", a)) args
                              ++ map (fun kw => (f, kw.1, kw.2)) kws
                         else []
                     | _ => []
                     end) (all_exprs nb).

(** Everything a notebook populates an object with: what it passes to the
    constructor and what it assigns to an attribute afterwards. *)
Definition populations (nb : notebook) : list (expr * string * expr) :=
  constructor_arguments nb ++ attribute_assignments nb.

Definition populated_with (k : value_kind -> bool) (nb : notebook)
  : list (expr * string * expr) :=
  List.filter (fun a => k (value_kind_of (surfaces nb) a.2)) (populations nb).

Definition is_computed (k : value_kind) : bool :=
  match k with Generated | Arithmetic | Other => true | _ => false end.

(** The variables bound to a constructed object, and the arguments of the
    methods that fill such an object after its construction. *)
Definition constructed_objects (nb : notebook) : list string :=
  flat_map (fun s => match s with
                     | S_Assign (E_Name x) (E_Call f _ _) =>
                         if is_class_name (callee_name f) then [x] else []
                     | _ => []
                     end) (all_statements nb).

Definition filling_methods : list string :=
  ["add_element"; "add_nuclide"; "set_density"; "append"].

Definition filling_arguments (nb : notebook) : list (expr * string * expr) :=
  let objects := constructed_objects nb in
  flat_map (fun e => match e with
                     | E_Call (E_Attribute (E_Name o) m) args kws =>
                         if mem o objects && mem m filling_methods
                         then map (fun a => (E_Name o, m, a)) (args ++ map snd kws)
                         else []
                     | _ => []
                     end) (all_exprs nb).

Definition filled_plainly (nb : notebook) : bool :=
  forallb (fun a => match value_kind_of (surfaces nb) a.2 with
                    | Literal | Reference => true
                    | _ => false
                    end) (filling_arguments nb).

(** The calls whose results objects are populated with: classes of openmc
    and of openmc_plasma_source, [dict] and the reader of saved results. *)
Definition population_call_ok (surf : list string) (a : expr * string * expr) : bool :=
  match value_kind_of surf a.2 with
  | CallResult => mem (root_name a.2) ["openmc"; "ops"; "dict"; "read_in_data"]
  | _ => true
  end.

Definition is_arithmetic_or_generated (k : value_kind) : bool :=
  match k with Generated | Arithmetic => true | _ => false end.

(** What a computed value is: arithmetic, a generated array or sample, an
    expression on surfaces that makes a region, a function, or a collection
    built from other values. *)
Inductive computed_kind :=
| By_arithmetic
| By_generation
| Region
| Function
| Collection.

Definition computed_kind_of (surf : list string) (e : expr) : option computed_kind :=
  match value_kind_of surf e with
  | Arithmetic => Some By_arithmetic
  | Generated => Some By_generation
  | Other =>
      match e with
      | E_UnaryOp _ _ | E_BinOp _ _ _ => Some Region
      | E_Lambda _ _ => Some Function
      | E_List _ | E_Tuple _ | E_Dict _ | E_ListComp _ _ _ => Some Collection
      | _ => None
      end
  | _ => None
  end.

(** The computed values a notebook populates objects with: the object's
    class or variable, the keyword or attribute, and the kind of value. *)
Definition computed_populations (nb : notebook)
  : list (string * string * option computed_kind) :=
  map (fun a => (callee_name a.1.1, a.1.2, computed_kind_of (surfaces nb) a.2))
      (populated_with is_computed nb).

(** The generated arrays and random samples of a notebook. *)
Definition generated_values (nb : notebook) : list expr :=
  List.filter is_generated (all_exprs nb).

(** Where a generated value stands: it is assigned to a variable, it is an
    argument of a constructor, or it is what a loop ranges over. *)
Inductive use :=
| Assigned (variable : string)
| Constructor_argument (cls : string)
| Loop_range
| Elsewhere.

Definition use_in (s : stmt) : use :=
  match s with
  | S_Assign (E_Name x) v =>
      if is_generated v then Assigned x
      else match v with
           | E_Call f args kws =>
               if is_class_name (callee_name f)
                  && existsb is_generated (args ++ map snd kws)
               then Constructor_argument (callee_name f) else Elsewhere
           | _ => Elsewhere
           end
  | S_For _ _ _ => Loop_range
  | _ => Elsewhere
  end.

Definition generated_uses (nb : notebook) : list (use * expr) :=
  flat_map (fun s => map (fun e => (use_in s, e))
                         (List.filter is_generated (flat_map sub_exprs (stmt_exprs s))))
           (all_statements nb).

End Analysis.

(** * The OpenMC run sequence *)
Module OpenMC.
Import Py.

Definition exprs_in (l : list stmt) : list expr :=
  flat_map sub_exprs (flat_map stmt_exprs (flat_map nested l)).

Definition has_call (names : list string) (l : list stmt) : bool :=
  match calls_named names (exprs_in l) with [] => false | _ => true end.

(** The variables bound to an [openmc.Model]. *)
Definition models (nb : notebook) : list string :=
  flat_map (fun s => match s with
                     | S_Assign (E_Name x) (E_Call f _ _) =>
                         if String.eqb (callee_name f) "Model" then [x] else []
                     | _ => []
                     end) (all_statements nb).

(** [m.run(...)] on a model [m]: the call that launches the transport code. *)
Definition is_model_run (ms : list string) (e : expr) : bool :=
  match e with
  | E_Call (E_Attribute (E_Name m) a) _ _ => String.eqb a "run" && mem m ms
  | _ => false
  end.

Definition runs_model (ms : list string) (s : stmt) : bool :=
  existsb (is_model_run ms) (exprs_in [s]).

Definition material_classes : list string := ["Material"; "Materials"].
Definition geometry_classes : list string := ["Geometry"].
Definition settings_classes : list string := ["Settings"; "FusionSettings"].
Definition tally_classes : list string := ["Tally"; "CellTally"].
Definition source_classes : list string := ["Source"; "FusionRingSource"].

(** Reading tally data as arrays, and as a table. *)
Definition array_accessors : list string := ["mean"; "std_dev"; "get_values"; "get_slice"].

Definition reads_attribute (names : list string) (l : list stmt) : bool :=
  existsb (fun e => match e with E_Attribute _ a => mem a names | _ => false end)
          (exprs_in l).

(** What a notebook does around its model run. *)
Record run_sequence := {
  constructs_material : bool;
  constructs_geometry : bool;
  constructs_settings : bool;
  constructs_tally : bool;
  constructs_source : bool;
  (** the variable the value of [run()] is bound to *)
  statepoint_filename : option string;
  (** the argument of the [openmc.StatePoint(...)] that follows *)
  statepoint_opened : option expr;
  (** [get_tally] is called after the statepoint is opened *)
  gets_tally : bool;
  (** ... and then [get_pandas_dataframe] *)
  extracts_table : bool;
  (** ... or the tally's arrays are read *)
  extracts_arrays : bool
}.

Definition opens_statepoint (s : stmt) : option expr :=
  match s with
  | S_Assign (E_Name _) (E_Call f [a] []) =>
      if String.eqb (callee_name f) "StatePoint" then Some a else None
  | _ => None
  end.

Definition run_sequence_of (nb : notebook) : option run_sequence :=
  match split_when (runs_model (models nb)) (statements nb) with
  | None => None
  | Some (before, run, after) =>
      let opened := split_when (fun s => bool_decide (is_Some (opens_statepoint s))) after in
      let rest := match opened with Some (_, _, r) => r | None => [] end in
      Some {|
        constructs_material := has_call material_classes before;
        constructs_geometry := has_call geometry_classes before;
        constructs_settings := has_call settings_classes before;
        constructs_tally := has_call tally_classes before;
        constructs_source := has_call source_classes before;
        statepoint_filename :=
          match run with S_Assign (E_Name f) (E_Call _ _ _) => Some f | _ => None end;
        statepoint_opened :=
          match opened with Some (_, s, _) => opens_statepoint s | None => None end;
        gets_tally := has_call ["get_tally"] rest;
        extracts_table := has_call ["get_pandas_dataframe"] rest;
        extracts_arrays := reads_attribute array_accessors rest
      |}
  end.

(** The sequence as the interface description states it: the five kinds of
    object are constructed, [run()] yields the statepoint's filename, the
    statepoint is opened, tallies are fetched and extracted as a table. *)
Definition follows_stated_sequence (q : run_sequence) : bool :=
  constructs_material q && constructs_geometry q && constructs_settings q
  && constructs_tally q && constructs_source q
  && bool_decide (is_Some (statepoint_filename q))
  && bool_decide (is_Some (statepoint_opened q))
  && gets_tally q && extracts_table q.

(** What the seven notebooks with a model run share. *)
Definition common_sequence (q : run_sequence) : bool :=
  constructs_material q && constructs_geometry q && constructs_settings q
  && constructs_tally q && constructs_source q
  && bool_decide (is_Some (statepoint_filename q))
  && bool_decide (is_Some (statepoint_opened q))
  && gets_tally q.

Definition sequence_with (filename : string) (opened : expr) (table arrays : bool)
  : run_sequence :=
  {| constructs_material := true; constructs_geometry := true;
     constructs_settings := true; constructs_tally := true; constructs_source := true;
     statepoint_filename := Some filename; statepoint_opened := Some opened;
     gets_tally := true; extracts_table := table; extracts_arrays := arrays |}.

(** ** Every way a notebook launches the transport code *)

Inductive launch :=
| Model_run (model : string)
| Openmc_run
| Integrate (integrator : string)
| Helper (function : string).

(** The functions of the repository's module [openmc_model] that build a
    model and run it; the notebooks import them. *)
Definition simulation_helpers : list string := ["find_tbr_hcpb"; "objective"].

(** [m.run()] on a model, [openmc.run()], [i.integrate()], and every mention
    of a helper, called or handed to a sampler or an optimiser. *)
Definition launch_of (ms : list string) (e : expr) : list launch :=
  match e with
  | E_Call (E_Attribute (E_Name x) a) _ _ =>
      if String.eqb a "run" then
        if mem x ms then [Model_run x]
        else if String.eqb x "openmc" then [Openmc_run] else []
      else if String.eqb a "integrate" then [Integrate x]
      else []
  | E_Name f => if mem f simulation_helpers then [Helper f] else []
  | _ => []
  end.

Definition launches (nb : notebook) : list launch :=
  flat_map (launch_of (models nb)) (all_exprs nb).

(** The names a notebook imports from the module [m]. *)
Definition imported_from (m : string) (nb : notebook) : list string :=
  flat_map (fun s => match s with
                     | S_ImportFrom m' names => if String.eqb m m' then names else []
                     | _ => []
                     end) (all_statements nb).

(** The kinds of OpenMC object a notebook constructs anywhere: material,
    geometry, settings, tally, source; and whether it opens a statepoint. *)
Definition constructs (nb : notebook) : list bool :=
  map (fun classes => has_call classes (statements nb))
      [material_classes; geometry_classes; settings_classes; tally_classes; source_classes].

Definition opens_a_statepoint (nb : notebook) : bool :=
  has_call ["StatePoint"] (statements nb).

End OpenMC.

(** * paramak shapes and their export

    paramak is driven through constructor calls and export methods.  What the
    CAD kernel computes is opaque; a shape is kept as the description it was
    constructed from, and an exported file as the shape it was written from. *)
Module Paramak.
Import Py.

Inductive operation :=
| Rotate (rotation_angle : Z)
| Extrude (distance : Z).

Inductive connection := Straight | Spline.

Inductive shape :=
| Shape (points : list (Z * Z)) (edges : connection) (op : operation) (cut : option shape).

Inductive file_content :=
| STEP (s : shape)
| STL (s : shape)
| H5M (volumes : list (shape * string)).

Record state := {
  variables : gmap string shape;
  files : gmap string file_content;
  constructed : list shape
}.

Definition initial : state := {| variables := ∅; files := ∅; constructed := [] |}.

Definition point_of (e : expr) : option (Z * Z) :=
  match e with
  | E_Tuple [E_Int x; E_Int y] => Some (x, y)
  | _ => None
  end.

Definition points_of (e : expr) : option (list (Z * Z)) :=
  match e with
  | E_List es => mapM point_of es
  | _ => None
  end.

Definition int_of (e : expr) : option Z :=
  match e with E_Int n => Some n | _ => None end.

(** The shape classes the notebook uses: how the points are connected, and
    the keyword that carries the operation's parameter. *)
Definition shape_class (cls : string) : option (connection * (Z -> operation) * string) :=
  if String.eqb cls "RotateStraightShape" then Some (Straight, Rotate, "rotation_angle")
  else if String.eqb cls "RotateSplineShape" then Some (Spline, Rotate, "rotation_angle")
  else if String.eqb cls "ExtrudeStraightShape" then Some (Straight, Extrude, "distance")
  else if String.eqb cls "ExtrudeSplineShape" then Some (Spline, Extrude, "distance")
  else None.

(** [paramak.Cls(points=..., rotation_angle=... | distance=..., cut=...)] *)
Definition construct (st : state) (cls : string) (kws : list (string * expr))
  : option shape :=
  '(edges, op, parameter) ← shape_class cls;
  pts ← keyword "points" kws ≫= points_of;
  n ← keyword parameter kws ≫= int_of;
  match keyword "cut" kws with
  | None => Some (Shape pts edges (op n) None)
  | Some (E_Name other) =>
      removed ← variables st !! other;
      Some (Shape pts edges (op n) (Some removed))
  | Some _ => None
  end.

Definition tagged_file (st : state) (e : expr) : option (shape * string) :=
  match e with
  | E_Tuple [E_Str f; E_Str tag] =>
      match files st !! f with
      | Some (STL s) => Some (s, tag)
      | _ => None
      end
  | _ => None
  end.

(** One statement.  [None] is a call the library would reject: an unknown
    variable, a malformed argument, a missing input file.  Statements that
    neither construct nor export a shape leave the state alone. *)
Definition exec (st : state) (s : stmt) : option state :=
  match s with
  | S_Assign (E_Name x) (E_Call (E_Attribute (E_Name "paramak") cls) [] kws) =>
      sh ← construct st cls kws;
      Some {| variables := <[ x := sh ]> (variables st);
              files := files st;
              constructed := constructed st ++ [sh] |}
  | S_Expr (E_Call (E_Attribute (E_Name x) method) args []) =>
      match variables st !! x, args with
      | Some sh, [E_Str f] =>
          if String.eqb method "export_stp" then
            Some {| variables := variables st; files := <[ f := STEP sh ]> (files st);
                    constructed := constructed st |}
          else if String.eqb method "export_stl" then
            Some {| variables := variables st; files := <[ f := STL sh ]> (files st);
                    constructed := constructed st |}
          else None
      | Some sh, [] => if String.eqb method "show" then Some st else None
      | Some sh, _ => None
      | None, _ => Some st
      end
  | S_Expr (E_Call (E_Name "stl_to_h5m") [] kws) =>
      match keyword "files_with_tags" kws, keyword "h5m_filename" kws with
      | Some (E_List fs), Some (E_Str h) =>
          volumes ← mapM (tagged_file st) fs;
          Some {| variables := variables st; files := <[ h := H5M volumes ]> (files st);
                  constructed := constructed st |}
      | _, _ => None
      end
  | _ => Some st
  end.

Definition run (nb : notebook) : option state :=
  foldl (fun st s => st ≫= fun st => exec st s) (Some initial) (statements nb).

End Paramak.

(** * The depletion schedule *)
Module Deplete.
Import Py.

(** The values of the expressions that make up the schedule: integers, floats
    and lists, with Python's [*] (product, or repetition of a list) and [+]
    (sum, or concatenation of lists). *)
Inductive value :=
| VInt (n : Z)
| VFloat (x : float)
| VList (l : list value).

Definition times (a b : value) : option value :=
  match a, b with
  | VInt x, VInt y => Some (VInt (x * y))
  | VList l, VInt n | VInt n, VList l => Some (VList (concat (replicate (Z.to_nat n) l)))
  | _, _ => None
  end.

Definition plus (a b : value) : option value :=
  match a, b with
  | VInt x, VInt y => Some (VInt (x + y))
  | VList l, VList l' => Some (VList (l ++ l'))
  | _, _ => None
  end.

Fixpoint value_of (e : expr) : option value :=
  match e with
  | E_Int n => Some (VInt n)
  | E_Float x => Some (VFloat x)
  | E_List es =>
      VList <$> (fix values_of (es : list expr) : option (list value) :=
                   match es with
                   | [] => Some []
                   | e :: es' =>
                       match value_of e, values_of es' with
                       | Some v, Some vs => Some (v :: vs)
                       | _, _ => None
                       end
                   end) es
  | E_BinOp l Mult r =>
      match value_of l, value_of r with
      | Some a, Some b => times a b
      | _, _ => None
      end
  | E_BinOp l Add r =>
      match value_of l, value_of r with
      | Some a, Some b => plus a b
      | _, _ => None
      end
  | _ => None
  end.

(** What the notebook sets up, runs and reads back. *)
Record depletion_run := {
  (** the chain file the operator is bound to *)
  chain_file : string;
  (** the schedule the integrator is given *)
  timesteps : value;
  source_rates : value;
  (** the file read with [from_hdf5] once [integrate()] has returned *)
  results_file : string;
  (** the methods then called on the results *)
  reads_back : list string
}.

(** [i.integrate()]: the variable [i]. *)
Definition integrate_call (s : stmt) : option string :=
  match s with
  | S_Expr (E_Call (E_Attribute (E_Name i) m) [] []) =>
      if String.eqb m "integrate" then Some i else None
  | _ => None
  end.

(** [r = ....from_hdf5(file)]: the variable [r] and the file. *)
Definition from_hdf5_call (s : stmt) : option (string * string) :=
  match s with
  | S_Assign (E_Name r) (E_Call f [E_Str file] []) =>
      if String.eqb (callee_name f) "from_hdf5" then Some (r, file) else None
  | _ => None
  end.

(** A call to a class whose name ends in [suffix]: its arguments. *)
Definition constructor_call (suffix : string) (e : expr)
  : option (list expr * list (string * expr)) :=
  match e with
  | E_Call f args kws =>
      if ends_with suffix (callee_name f) then Some (args, kws) else None
  | _ => None
  end.

Definition string_of (e : expr) : option string :=
  match e with E_Str s => Some s | _ => None end.

Definition methods_called_on (x : string) (l : list stmt) : list string :=
  flat_map (fun e => match e with
                     | E_Call (E_Attribute (E_Name y) m) _ _ =>
                         if String.eqb x y then [m] else []
                     | _ => []
                     end)
           (flat_map sub_exprs (flat_map stmt_exprs (flat_map nested l))).

(** From the integrator variable [i] back to its operator and to their
    arguments: the chain file and the schedule. *)
Definition setup_of (before : list stmt) (i : string) : option (string * value * value) :=
  integrator ← assigned i before ≫= constructor_call "Integrator";
  operator ← (argument 0 "operator" integrator.1 integrator.2 ≫= resolve before)
             ≫= constructor_call "Operator";
  chain ← (argument 1 "chain_file" operator.1 operator.2 ≫= resolve before)
          ≫= string_of;
  ts ← (argument 1 "timesteps" integrator.1 integrator.2 ≫= resolve before) ≫= value_of;
  sr ← (keyword "source_rates" integrator.2 ≫= resolve before) ≫= value_of;
  Some (chain, ts, sr).

(** The first [from_hdf5] read, and what is called on its result. *)
Definition read_back_of (after : list stmt) : option (string * list string) :=
  match split_when (fun s => bool_decide (is_Some (from_hdf5_call s))) after with
  | Some (_, read, rest) =>
      match from_hdf5_call read with
      | Some (r, file) => Some (file, methods_called_on r rest)
      | None => None
      end
  | None => None
  end.

(** Follow the notebook from its [integrate()] call, backwards and forwards. *)
Definition depletion_run_of (nb : notebook) : option depletion_run :=
  match split_when (fun s => bool_decide (is_Some (integrate_call s))) (statements nb) with
  | Some (before, run, after) =>
      match integrate_call run ≫= setup_of before, read_back_of after with
      | Some (chain, ts, sr), Some (file, methods) =>
          Some {| chain_file := chain; timesteps := ts; source_rates := sr;
                  results_file := file; reads_back := methods |}
      | _, _ => None
      end
  | None => None
  end.

(** ** The notebook run against the interface of [openmc.deplete]

    What the transport and the depletion solver compute is opaque.  An
    operator is kept as the model variable and the chain file it was bound
    to, an integrator as its operator and its schedule, and a results file
    as the integrator whose [integrate()] wrote it. *)
Inductive object :=
| Plain (v : value)
| Text (s : string)
| Operator (model chain_file : string)
| Integrator (cls : string) (operator : object) (timesteps source_rates : value)
| Results (file : string) (written_by : object)
| Atoms (results : object) (material nuclide : string)
| Opaque.

Record state := {
  variables : gmap string object;
  files : gmap string object
}.

Definition initial : state := {| variables := ∅; files := ∅ |}.

Definition bind (x : string) (o : object) (st : state) : state :=
  {| variables := <[ x := o ]> (variables st); files := files st |}.

(** The file [integrate()] writes in the working directory. *)
Definition depletion_results : string := "depletion_results.h5".

(** An argument: a variable stands for what it is bound to (an unbound one
    raises), a string for itself, a number or a list for its value; anything
    else is left opaque. *)
Definition eval (st : state) (e : expr) : option object :=
  match e with
  | E_Name x => variables st !! x
  | E_Str s => Some (Text s)
  | _ => Some (match value_of e with Some v => Plain v | None => Opaque end)
  end.

(** [x = f(args, kws)] for the classes of [openmc.deplete]; other calls give
    an opaque object. *)
Definition call (st : state) (f : expr) (args : list expr) (kws : list (string * expr))
  : option object :=
  let cls := callee_name f in
  if String.eqb cls "Operator" then
    match argument 0 "model" args kws, argument 1 "chain_file" args kws ≫= eval st with
    | Some (E_Name model), Some (Text chain) =>
        _ ← variables st !! model; Some (Operator model chain)
    | _, _ => None
    end
  else if ends_with "Integrator" cls then
    match argument 0 "operator" args kws ≫= eval st,
          argument 1 "timesteps" args kws ≫= eval st,
          keyword "source_rates" kws ≫= eval st with
    | Some (Operator model chain), Some (Plain ts), Some (Plain sr) =>
        Some (Integrator cls (Operator model chain) ts sr)
    | _, _, _ => None
    end
  else if String.eqb cls "from_hdf5" then
    match nth_error args 0 ≫= eval st with
    | Some (Text file) => written_by ← files st !! file; Some (Results file written_by)
    | _ => None
    end
  else Some Opaque.

(** One statement.  [None] is a call the library would reject: an unbound
    variable, an argument of the wrong kind, a results file that is not
    there.  Statements that do not concern [openmc.deplete] leave the state
    alone, apart from the variables they bind. *)
Definition exec (st : state) (s : stmt) : option state :=
  match s with
  | S_Assign (E_Name x) (E_Call f args kws) =>
      o ← call st f args kws; Some (bind x o st)
  | S_Assign (E_Name x) e =>
      o ← eval st e; Some (bind x o st)
  | S_Assign (E_Tuple [E_Name t; E_Name n])
             (E_Call (E_Attribute (E_Name r) method) [E_Name material; E_Str nuclide] []) =>
      if String.eqb method "get_atoms" then
        match variables st !! r with
        | Some (Results file written_by) =>
            let atoms := Atoms (Results file written_by) material nuclide in
            Some (bind n atoms (bind t atoms st))
        | _ => None
        end
      else Some st
  | S_Expr (E_Call (E_Attribute (E_Name i) method) [] []) =>
      if String.eqb method "integrate" then
        match variables st !! i with
        | Some (Integrator cls operator ts sr) =>
            Some {| variables := variables st;
                    files := <[ depletion_results := Integrator cls operator ts sr ]>
                               (files st) |}
        | _ => None
        end
      else Some st
  | _ => Some st
  end.

Definition run_statements (l : list stmt) : option state :=
  foldl (fun st s => st ≫= fun st => exec st s) (Some initial) l.

Definition run (nb : notebook) : option state := run_statements (statements nb).

(** What is seen of a state: the files, and what the variables [names] are
    bound to. *)
Definition observe (names : list string) (st : state)
  : list (string * object) * list (option object) :=
  (map_to_list (files st), map (fun x => variables st !! x) names).

(** The statements without those that call [method] on a variable. *)
Definition without_calls_of (method : string) (l : list stmt) : list stmt :=
  List.filter (fun s => match s with
                        | S_Expr (E_Call (E_Attribute (E_Name _) m) [] []) =>
                            negb (String.eqb m method)
                        | _ => true
                        end) l.

End Deplete.

(** * Running the arithmetic of a notebook

    The numbers of the post-processing cells: Python [int]s and [float]s, and
    numpy [float64] scalars (what pandas and numpy hand back).  An operation
    with a [float64] operand is numpy's and follows IEEE-754 without raising;
    between Python numbers, [/] is true division and raises on a zero
    divisor. *)
Module Arith.
Import Py PyNum.

Inductive number :=
| PyInt (n : Z)
| PyFloat (x : float)
| Float64 (x : float).

Definition to_float (a : number) : float :=
  match a with
  | PyInt n => float_of_int n
  | PyFloat x | Float64 x => x
  end.

Definition is_float64 (a : number) : bool :=
  match a with Float64 _ => true | _ => false end.

Definition is_zero (a : number) : bool :=
  match a with
  | PyInt n => (n =? 0)%Z
  | PyFloat x | Float64 x => PrimFloat.eqb x 0
  end.

(** [None] stands for a raised exception (or an operator not modelled). *)
Definition apply (op : binop) (a b : number) : option number :=
  let wrap := if is_float64 a || is_float64 b then Float64 else PyFloat in
  match op, a, b with
  | Add, PyInt x, PyInt y => Some (PyInt (x + y))
  | Sub, PyInt x, PyInt y => Some (PyInt (x - y))
  | Mult, PyInt x, PyInt y => Some (PyInt (x * y))
  | Add, _, _ => Some (wrap (to_float a + to_float b)%float)
  | Sub, _, _ => Some (wrap (to_float a - to_float b)%float)
  | Mult, _, _ => Some (wrap (to_float a * to_float b)%float)
  | Div, _, _ =>
      if negb (is_float64 a || is_float64 b) && is_zero b then None
      else Some (wrap (to_float a / to_float b)%float)
  | _, _, _ => None
  end.

Definition negate (a : number) : number :=
  match a with
  | PyInt n => PyInt (- n)
  | PyFloat x => PyFloat (- x)
  | Float64 x => Float64 (- x)
  end.

Fixpoint eval (env : gmap string number) (e : expr) : option number :=
  match e with
  | E_Int n => Some (PyInt n)
  | E_Float x => Some (PyFloat x)
  | E_Name x => env !! x
  | E_BinOp l op r =>
      match eval env l, eval env r with
      | Some a, Some b => apply op a b
      | _, _ => None
      end
  | E_UnaryOp USub x => negate <$> eval env x
  | E_UnaryOp UAdd x => eval env x
  | _ => None
  end.

(** An assignment [x = e] binds [x] to the value of [e] when [e] is arithmetic
    on numbers; when it is not (a call into a library, say) and [x] is one of
    the [inputs], to the number that the library returned.  Other statements
    bind no number. *)
Definition exec (inputs : gmap string number) (env : gmap string number) (s : stmt)
  : gmap string number :=
  match s with
  | S_Assign (E_Name x) e =>
      match eval env e with
      | Some a => <[ x := a ]> env
      | None =>
          match inputs !! x with
          | Some a => <[ x := a ]> env
          | None => env
          end
      end
  | _ => env
  end.

Definition run (inputs : gmap string number) (nb : notebook) : gmap string number :=
  foldl (exec inputs) ∅ (statements nb).

End Arith.

(** * Tables

    What the analyses are expected to find, written out from the notebooks. *)
Module Expected.
Import Py Notebooks.

(** The post-processing arithmetic of the three notebooks that have any. *)
Definition find_dpa_arithmetic : list expr :=
  [ E_BinOp "damage_energy_in_ev" Div (E_BinOp (E_Int 2) Mult (E_Int 40));
    E_BinOp "displacements_per_source_neutron" Mult (E_Float 0.8);
    E_BinOp "number_of_neutrons_per_year" Mult
      "displacements_per_source_neutron_with_recombination";
    E_BinOp (E_BinOp "volume_of_firstwall_cell" Mult "density_of_iron_in_g_per_cm3") Div
      "iron_atomic_mass_in_g";
    E_BinOp "volume_of_firstwall_cell" Mult "density_of_iron_in_g_per_cm3";
    E_BinOp "displacements_for_all_atoms" Div "number_of_iron_atoms" ].

Definition mesh_3d_arithmetic : list expr :=
  [ E_BinOp ("my_heating_tally" @. "mean") Mult (E_Float 1.60218e-19);
    E_BinOp ("my_heating_tally" @. "std_dev") Mult (E_Float 1.60218e-19) ].

Definition optimisation_arithmetic : list expr :=
  [ E_UnaryOp USub
      (E_Call "objective" [E_List [E_Name "breeder_percent_in_breeder_plus_multiplier"]] []);
    E_UnaryOp USub (E_Subscript "data" (E_Str "tbr"));
    E_UnaryOp USub (E_Subscript "i" (E_Int 1));
    E_UnaryOp USub "i";
    E_UnaryOp USub
      (E_Call "objective"
         [E_List [E_Name "breeder_percent_in_breeder_plus_multiplier";
                  E_Name "blanket_breeder_li6_enrichment"]] []);
    E_UnaryOp USub ("res" @. "fun");
    E_UnaryOp USub ("res" @. "func_vals");
    E_UnaryOp USub ("res" @. "fun");
    E_UnaryOp USub ("res" @. "fun");
    E_UnaryOp USub ("res" @. "func_vals");
    E_UnaryOp USub ("res" @. "fun") ].

(** The library computations on results: sums over the rows of a tally, the
    unit conversions of the CAD notebook and the interpolation of the
    optimisation notebook. *)
Definition sum_of (e : expr) : expr := E_Call (e @. "sum") [] [].

Definition find_dpa_computations : list expr :=
  [ sum_of (E_Subscript "df" (E_Str "mean")) ].

Definition tbr_computations : list expr :=
  [ sum_of (E_Subscript "df" (E_Str "mean"));
    sum_of (E_Subscript "df" (E_Str "std. dev.")) ].

Definition cad_computations : list expr :=
  [ sum_of (E_Call ("heating_tally" @. "get_values") [] []);
    E_Call ("otuc" @. "process_tally") [E_Name "heating_tally"] [];
    E_Call ("otuc" @. "process_tally") [E_Name "heating_tally"]
      [("required_units", E_Str "MeV/source_particle")];
    E_Call ("otuc" @. "process_tally") [E_Name "heating_tally"]
      [("required_units", E_Str "gigawatts"); ("source_strength", E_Float 1e21)] ].

Definition optimisation_computations : list expr :=
  [ E_Call "griddata"
      [ E_Tuple [E_Name "x"; E_Name "y"]; E_Name "z";
        E_Tuple [ E_Subscript "xi" (E_Tuple [E_None; E_Slice None None]);
                  E_Subscript "yi" (E_Tuple [E_Slice None None; E_None]) ] ]
      [("method", E_Str "linear")] ].

(** The two attributes that are set from arithmetic: the volumes of the
    depletion notebook, [(4/3) * math.pi * r**3]. *)
Definition sphere_volume (radius : expr) : expr :=
  E_BinOp (E_BinOp (E_BinOp (E_Int 4) Div (E_Int 3)) Mult ("math" @. "pi")) Mult
    (E_BinOp radius Pow (E_Int 3)).

(** The computed values that objects are populated with, notebook by
    notebook in the order of [notebooks]: the class or variable, the keyword
    or attribute (empty for an argument by position) and the kind. *)
Definition regions (n : nat) : list (string * string * option Analysis.computed_kind) :=
  replicate n ("Cell", "region", Some Analysis.Region).

Definition goal_function : string * string * option Analysis.computed_kind :=
  ("Runner", "goal", Some Analysis.Function).

Definition collection (cls k : string) : string * string * option Analysis.computed_kind :=
  (cls, k, Some Analysis.Collection).

Definition computed_populations
  : list (list (string * string * option Analysis.computed_kind)) :=
  [ [];
    [("TokamakSource", "pedestal_radius", Some Analysis.By_arithmetic)];
    [];
    regions 3;
    regions 3;
    [];
    [];
    regions 1 ++ [ ("my_material", "volume", Some Analysis.By_arithmetic);
                   ("shield_cell", "volume", Some Analysis.By_arithmetic) ];
    [ goal_function; collection "Scatter" "y"; goal_function;
      collection "Scatter3d" "x"; collection "Scatter3d" "y";
      ("Scatter3d", "z", Some Analysis.By_arithmetic);
      collection "Scatter3d" "x"; collection "Scatter3d" "y"; collection "Scatter3d" "z";
      collection "Scatter" "x"; collection "Scatter" "y";
      ("Scatter", "hovertext", Some Analysis.By_arithmetic);
      collection "Scatter" "x"; collection "Scatter" "y"; collection "Scatter" "hovertext" ];
    []; []; []; [];
    regions 3 ++ [("EnergyFilter", "", Some Analysis.By_generation)];
    [goal_function] ].

Definition linspace (start stop : expr) (num : Z) : expr :=
  E_Call ("np" @. "linspace") [start; stop; E_Int num] [].

Definition uniform (low high : Z) : expr :=
  E_Call ("np" @. "random" @. "uniform") [E_Int low; E_Int high] [].

(** The notebooks that call [run()] on a model. *)
Definition notebooks_with_model_run : list notebook :=
  [ nb_find_dpa; nb_example_2d_mesh_tallies; nb_photon_energy_spectra;
    nb_example_3d_mesh_tallies; nb_simulate_CAD_cell_tally_heat;
    nb_tritium_breeding_ratio; nb_neutron_energy_spectra ].

(** The notebooks that launch the transport code in any way. *)
Definition notebooks_that_simulate : list notebook :=
  notebooks_with_model_run
  ++ [ nb_transmutation_isotope_build_up; nb_parameter_study_optimisation;
       nb_sampling_parameter_space ].

(** The shapes of the CAD notebook. *)
Definition square_50_100 : list (Z * Z) := [(50, 50); (50, 100); (100, 100); (100, 50)]%Z.
Definition square_60_90 : list (Z * Z) := [(60, 60); (60, 90); (90, 90); (90, 60)]%Z.

Definition small_Shape : Paramak.shape :=
  Paramak.Shape square_60_90 Paramak.Straight (Paramak.Extrude 20) None.

Definition my_shape : Paramak.shape :=
  Paramak.Shape square_50_100 Paramak.Straight (Paramak.Extrude 20) (Some small_Shape).

(** One year, in seconds. *)
Definition year : Z := 365 * 24 * 60 * 60.

End Expected.

(** * Auxiliary definitions of the statements below *)

(** A path component: a string without the separator. *)
Fixpoint no_slash (s : string) : bool :=
  match s with
  | EmptyString => true
  | String c rest => negb (Ascii.eqb c "/") && no_slash rest
  end.

(** [Path("outputs")], the parent of every file [output_result] writes. *)
Definition outputs_dir : Posix.PurePath :=
  {| Posix.absolute := false; Posix.parts := ["outputs"] |}.

(** No statement of the notebook, at any depth, is a [try], [while], [if],
    [assert] or [raise], and no expression is a conditional expression. *)
Definition no_failure_handling (nb : Py.notebook) : bool :=
  forallb (fun s => negb (Analysis.handles_failure s)) (Py.all_statements nb)
  && forallb (fun e => negb (Analysis.is_conditional e)) (Py.all_exprs nb).

(** * Task 16: saving results under a given name
    [tasks/task_16_parameter_study_optimisation/parameter_study_optimisation.ipynb],
    the notebook's first code cell. *)
Module OptimisationFiles.
Import Posix.

Section OutputResult.

(** [json.dump(_, f, indent=4)]: the text it writes for a value. *)
Variable json_dumps : Json.value -> string.

(** [output_result(filepath, result)] *)
Definition output_result (filepath : string) (result : Json.value) : IO unit :=
  let filename := filepath in
  mkdir_parents_exist_ok (parent (Path filename));;
  f ← open_w filename;
  write f (json_dumps result).

End OutputResult.

(** An action that, whether it returns or raises, leaves the files as they
    were and removes no directory: [os.mkdir] and [Path.mkdir] are such. *)
Definition keeps_files {A} (m : IO A) : Prop :=
  forall w, files (m w).2 = files w /\ dirs w ⊆ dirs (m w).2.

(** A path the model follows faithfully: relative to the working directory
    and without a [..] component, so that the string of the path is the only
    name of the file. *)
Definition plain_relative (filepath : string) : bool :=
  negb (absolute (Path filepath))
  && forallb (fun c => negb (String.eqb c "..")) (parts (Path filepath)).

(** [p], [p.parent], [p.parent.parent], ... *)
Definition ancestor (k : nat) (p : PurePath) : PurePath := Nat.iter k parent p.

(** A file name: one component, and not one of the special ones. *)
Definition file_name (name : string) : bool :=
  no_slash name && real_component name && negb (String.eqb name "..").

End OptimisationFiles.

(** * Python dictionaries with string keys

    The dictionaries the notebooks handle: the results of the helper
    functions of [openmc_model], the items of JSON files and the displays
    passed to the plotting library.  [d[k] = v] replaces the value of a key
    that is there and adds the key at the end when it is not. *)
Module PyDict.

Definition getitem {V} (k : string) (d : list (string * V)) : option V :=
  snd <$> List.find (fun kv => String.eqb kv.1 k) d.

Fixpoint setitem {V} (k : string) (v : V) (d : list (string * V)) : list (string * V) :=
  match d with
  | [] => [(k, v)]
  | (k', v') :: d' => if String.eqb k' k then (k, v) :: d' else (k', v') :: setitem k v d'
  end.

(** A dictionary display [{k1: v1, k2: v2, ...}]: the items are entered
    from left to right, so of two equal keys the later one's value stays. *)
Definition display {V} (items : list (string * V)) : list (string * V) :=
  foldl (fun d kv => setitem kv.1 kv.2 d) [] items.

End PyDict.

(** * Task 13: the sampling loops and [find_tbr]
    [unnamed/part_003], code cells 3 to 6. *)
Module SamplingRuns.
Import Posix.

(** What a cell of the notebook can raise. *)
Inductive exception :=
| OSError_ (e : OSError)
| KeyError (key : string)
| IndexError
| ValueError.

Definition Run (A : Type) : Type := filesystem -> (exception + A) * filesystem.

#[global] Instance Run_ret : MRet Run := fun A a w => (inr a, w).
#[global] Instance Run_bind : MBind Run := fun A B k m w =>
  match m w with
  | (inl e, w') => (inl e, w')
  | (inr a, w') => k a w'
  end.

Definition raise {A} (e : exception) : Run A := fun w => (inl e, w).

(** A call of a function that raises [OSError]s only. *)
Definition lift {A} (m : IO A) : Run A := fun w =>
  match m w with
  | (inl e, w') => (inl (OSError_ e), w')
  | (inr a, w') => (inr a, w')
  end.

(** [l[i]] *)
Definition index {A} (l : list A) (i : nat) : Run A :=
  match nth_error l i with
  | Some a => mret a
  | None => raise IndexError
  end.

(** [d[k]] *)
Definition lookup_key (d : list (string * Json.value)) (k : string) : Run Json.value :=
  match PyDict.getitem k d with
  | Some v => mret v
  | None => raise (KeyError k)
  end.

Section Cells.

(** [find_tbr_hcpb], imported from [openmc_model]: it runs a simulation and
    returns a dictionary of the inputs and the resulting TBR. *)
Variable find_tbr_hcpb : Json.value -> Json.value -> list (string * Json.value).
Variable json_dumps : Json.value -> string.

(** [find_tbr(x)], the function the adaptive learner samples. *)
Definition find_tbr (uuid4 : string) (x : list Json.value) : Run Json.value :=
  match x with
  | [breeder_percent_in_breeder_plus_multiplier_ratio; blanket_breeder_li6_enrichment] =>
      let result := find_tbr_hcpb breeder_percent_in_breeder_plus_multiplier_ratio
                      blanket_breeder_li6_enrichment in
      let result := PyDict.setitem "sample" (Json.Str "adaptive") result in
      lift (Sampling.output_result json_dumps uuid4 (Json.Dict result));;
      lookup_key result "tbr"
  | _ => raise ValueError
  end.

End Cells.

Section Loops.

(** In the loops the helper is taken with everything it does: each call
    runs a simulation in the working directory, which writes the files of the
    model and of the run there, and it may raise. *)
Variable find_tbr_hcpb : Json.value -> Json.value -> Run (list (string * Json.value)).
Variable json_dumps : Json.value -> string.

(** The body of the grid and Halton loops, for one [coord]; [sample] is
    ["grid"] or ["halton"].  The random loop has the same body, with the two
    coordinates drawn by [np.random.uniform] and [sample = "random"]. *)
Definition sample_once (sample uuid4 : string) (coord : list Json.value) : Run unit :=
  breeder_percent_in_breeder_plus_multiplier_ratio ← index coord 0;
  blanket_breeder_li6_enrichment ← index coord 1;
  result ← find_tbr_hcpb breeder_percent_in_breeder_plus_multiplier_ratio
             blanket_breeder_li6_enrichment;
  let result := PyDict.setitem "sample" (Json.Str sample) result in
  lift (Sampling.output_result json_dumps uuid4 (Json.Dict result)).

(** [for coord in tqdm(coords): ...]; each pass is given the identifier its
    [uuid.uuid4()] draws. *)
Fixpoint sampling_loop (sample : string) (passes : list (string * list Json.value))
  : Run unit :=
  match passes with
  | [] => mret tt
  | (uuid4, coord) :: rest => sample_once sample uuid4 coord;; sampling_loop sample rest
  end.

End Loops.

(** A coordinate that has the two entries a pass reads. *)
Definition two_or_more (coord : list Json.value) : bool :=
  match coord with _ :: _ :: _ => true | _ => false end.

(** [s.startswith(prefix)] *)
Fixpoint starts_with (prefix s : string) : bool :=
  match prefix, s with
  | EmptyString, _ => true
  | String c prefix', String c' s' => Ascii.eqb c c' && starts_with prefix' s'
  | String _ _, EmptyString => false
  end.

(** The names in and of the directory of the results. *)
Definition under_outputs (p : string) : bool :=
  String.eqb p "outputs" || starts_with "outputs/" p.

(** A helper that keeps out of the directory of the results: whatever a call
    does elsewhere, and whether it returns or raises, the files and
    directories named there are afterwards what they were. *)
Definition keeps_out_of_outputs
    (helper : Json.value -> Json.value -> Run (list (string * Json.value))) : Prop :=
  forall (a b : Json.value) (w : filesystem) (p : string),
    under_outputs p = true ->
    files (helper a b w).2 !! p = files w !! p
    /\ (p ∈ dirs (helper a b w).2 <-> p ∈ dirs w).

(** A helper whose simulations all finish. *)
Definition always_returns
    (helper : Json.value -> Json.value -> Run (list (string * Json.value))) : Prop :=
  forall (a b : Json.value) (w : filesystem), exists result, (helper a b w).1 = inr result.

End SamplingRuns.

(** * Task 16: the optimised samples and the 2D sweep
    [tasks/task_16_parameter_study_optimisation/parameter_study_optimisation.ipynb],
    cells [1_plot_1d_optimisation] and [get_true_values_2D]. *)
Module OptimisationCells.
Import PyNum.
#[local] Open Scope float_scope.

(** [l[-1]]; [None] stands for [IndexError]. *)
Definition last_item {A} (l : list A) : option A :=
  List.last (map Some l) None.

(** [data = json.load(f).items()]: the samples of the learner, keyed by the
    text of the sampled point, in the order in which they were taken. *)
Definition x_vals (data : list (string * float)) : list string :=
  map (fun i => i.1) data.

Definition tbr_vals (data : list (string * float)) : list float :=
  map (fun i => - i.2) data.

(** [print('Maximum TBR of ', tbr_vals[-1], 'found with ...', x_vals[-1])] *)
Definition print_maximum_tbr_of (data : list (string * float)) : option (list printed) :=
  t ← last_item (tbr_vals data);
  x ← last_item (x_vals data);
  Some [ Text "Maximum TBR of "; Number t;
         Text "found with a breeder percent in breeder plus multiplier of "; Text x ].

(** One entry of [tbr_values] in the 2D sweep. *)
Record tbr_value := {
  breeder_percent_in_breeder_plus_multiplier : float;
  blanket_breeder_li6_enrichment : float;
  tbr : float
}.

(** Cell [get_true_values_2D]: the list [tbr_values] after the two nested
    loops; both grids are [np.linspace(0, 100, 20)] in the notebook. *)
Definition get_true_values_2D (objective : list float -> float)
    (breeder_grid enrichment_grid : list float) : list tbr_value :=
  flat_map (fun breeder_percent =>
              map (fun enrichment =>
                     {| breeder_percent_in_breeder_plus_multiplier := breeder_percent;
                        blanket_breeder_li6_enrichment := enrichment;
                        tbr := - objective [breeder_percent; enrichment] |})
                  enrichment_grid)
           breeder_grid.

End OptimisationCells.

(** * Reading numbers back with pandas

    [pd.read_json] as the notebooks call it, without [precise_float], reads
    the numbers of a file with the decoder of its vendored ujson
    ([ultrajsondec.c], [decode_numeric] and [createDouble]): the digits before
    the point as an integer, at most fifteen digits after it accumulated in
    binary64, and the two put together with one multiplication by a power of
    ten from a table and one addition.  The model covers the texts
    [-]digits.digits with an integer part below [2^63]; a text with an
    exponent, an integer, [NaN] and the infinities are left out. *)
Module ReadJson.
Import PyNum.
#[local] Open Scope float_scope.

Definition JSON_DOUBLE_MAX_DECIMALS : nat := 15.

Definition g_pow10 : list float :=
  [1.0; 0.1; 0.01; 0.001; 0.0001; 0.00001; 0.000001; 0.0000001; 0.00000001;
   0.000000001; 0.0000000001; 0.00000000001; 0.000000000001; 0.0000000000001;
   0.00000000000001; 0.000000000000001].

(** [createDouble(intNeg, intValue, frcValue, frcDecimalCount)] *)
Definition createDouble (intNeg intValue frcValue : float) (frcDecimalCount : nat) : float :=
  (intValue + frcValue * nth frcDecimalCount g_pow10 0) * intNeg.

(** [chr - 48] for a digit. *)
Definition digit (chr : ascii) : option Z :=
  let n := Z.of_nat (nat_of_ascii chr) in
  if ((48 <=? n) && (n <=? 57))%Z then Some (n - 48)%Z else None.

(** The loop over the integer part, up to the point. *)
Fixpoint scan_integer (offset : string) (intValue : Z) : option (Z * string) :=
  match offset with
  | EmptyString => None
  | String chr rest =>
      match digit chr with
      | Some d =>
          let intValue := (intValue * 10 + d)%Z in
          if (intValue <? 2 ^ 63)%Z then scan_integer rest intValue else None
      | None => if Ascii.eqb chr "." then Some (intValue, rest) else None
      end
  end.

(** The loop over the fraction part: digits after the fifteenth are skipped. *)
Fixpoint scan_fraction (offset : string) (frcValue : float) (decimalCount : nat)
  : option (float * nat) :=
  match offset with
  | EmptyString => Some (frcValue, decimalCount)
  | String chr rest =>
      match digit chr with
      | Some d =>
          if (decimalCount <? JSON_DOUBLE_MAX_DECIMALS)%nat
          then scan_fraction rest (frcValue * 10 + float_of_int d) (S decimalCount)
          else scan_fraction rest frcValue decimalCount
      | None => None
      end
  end.

(** [decode_numeric] on the text of one number. *)
Definition decode_numeric (text : string) : option float :=
  let '(intNeg, offset) :=
    match text with
    | String "-" rest => (-1, rest)
    | _ => (1, text)
    end in
  '(intValue, offset) ← scan_integer offset 0%Z;
  '(frcValue, decimalCount) ← scan_fraction offset 0 0%nat;
  Some (createDouble intNeg (float_of_int intValue) frcValue decimalCount).

(** How the decimal [digits / 10^decimals] lies to a positive binary64 [v]
    and its neighbours: [Lt] when it is nearer to [v] than half the distance
    to a neighbour, so that Python's [float(text)] reads it as [v] and
    [repr(v)] may print it; [Gt] when it is farther, so that it reads as
    another number.  ([v] is not a power of two.) *)
Definition decimal_to_float (digits : Z) (decimals : nat) (v : float) : option comparison :=
  match Prim2SF v with
  | S754_finite false m e =>
      if (Z.pos m =? 2 ^ 52)%Z then None
      else
        let den := (10 ^ Z.of_nat decimals)%Z in
        Some (if (e <? 0)%Z
              then (Z.abs (digits * 2 ^ (- e) - Z.pos m * den) * 2 ?= den)%Z
              else (Z.abs (digits - Z.pos m * 2 ^ e * den) * 2 ?= den * 2 ^ e)%Z)
  | _ => None
  end.

End ReadJson.

(** * Task 16: the true values, from the loop through the file to the plot *)
Module TrueValues.
Import Optimisation.
#[local] Open Scope float_scope.

Section Cells.

Variable objective : list float -> float.

(** [float.__repr__]: the text [json.dump] writes for a number. *)
Variable float_repr : float -> string.

(** The numbers of [outputs/1d_tbr_values.json] as [json.dump(tbr_values)]
    writes them, one pair per entry. *)
Definition stored (grid : list float) : list (string * string) :=
  map (fun v => (float_repr (breeder_percent_in_breeder_plus_multiplier v),
                 float_repr (tbr v)))
      (get_true_values_1D objective grid).

(** [pd.read_json('outputs/1d_tbr_values.json')]: the rows of the frame.  A
    column of whole numbers comes back as integers of the same values; the
    rows keep them as the binary64 numbers they are equal to. *)
Fixpoint read_json (rows : list (string * string)) : option (list tbr_value) :=
  match rows with
  | [] => Some []
  | row :: rows =>
      x ← ReadJson.decode_numeric row.1;
      t ← ReadJson.decode_numeric row.2;
      data ← read_json rows;
      Some ({| breeder_percent_in_breeder_plus_multiplier := x; tbr := t |} :: data)
  end.

(** The true-value trace of the plot, from the loop's grid. *)
Definition plotted (grid : list float) : option (list float * list float) :=
  true_value_trace <$> read_json (stored grid).

End Cells.

End TrueValues.

(** * Signs of binary64 values *)
Module Binary64.

(** Not a negative number and not [-0.0]: the sign bit is clear, or the value
    is NaN. *)
Definition not_negative (x : float) : bool :=
  match Prim2SF x with
  | S754_zero s | S754_infinity s | S754_finite s _ _ => negb s
  | S754_nan => true
  end.

(** The sign a value carries when it has one. *)
Definition has_sign (s : bool) (x : spec_float) : Prop :=
  match x with
  | S754_zero s' | S754_infinity s' | S754_finite s' _ _ => s' = s
  | S754_nan => True
  end.

End Binary64.

(** * Constructive solid geometry

    The geometry cells of the notebooks: surfaces, the half-spaces [-s] and
    [+s] on either side of a surface, and their intersections [a & b].  A
    point is in [-s] when the surface's equation is negative there and in
    [+s] when it is not, as [openmc]'s [Halfspace.__contains__] decides it.
    Coordinates are rational; the notebooks' radii are integers. *)
Module Csg.
Import Py QArith.
#[local] Open Scope Q_scope.

(** [openmc.Sphere(r=r)], [openmc.ZCylinder(r=r)] and [openmc.XPlane(x0)],
    centred on the origin as the notebooks leave them. *)
Inductive surface :=
| Sphere (r : Q)
| ZCylinder (r : Q)
| XPlane (x0 : Q).

Inductive region :=
| Negative (s : surface)
| Positive (s : surface)
| Intersection (a b : region).

Definition point : Type := Q * Q * Q.

(** [surface.evaluate(point)] *)
Definition evaluate (s : surface) (p : point) : Q :=
  let '(x, y, z) := p in
  match s with
  | Sphere r => x * x + y * y + z * z - r * r
  | ZCylinder r => x * x + y * y - r * r
  | XPlane x0 => x - x0
  end.

(** [point in region] *)
Fixpoint contains (g : region) (p : point) : bool :=
  match g with
  | Negative s => negb (Qle_bool 0 (evaluate s p))
  | Positive s => Qle_bool 0 (evaluate s p)
  | Intersection a b => contains a p && contains b p
  end.

(** What the geometry cells of a notebook have defined so far. *)
Record geometry := {
  numbers : gmap string Z;
  surfaces : gmap string surface;
  boundary : list surface;            (* surfaces with boundary_type='vacuum' *)
  regions : gmap string region;
  cells : gmap string region;
  universe : list (string * region)   (* the cells of [openmc.Universe(cells=[...])] *)
}.

Definition empty : geometry :=
  {| numbers := ∅; surfaces := ∅; boundary := []; regions := ∅; cells := ∅;
     universe := [] |}.

Definition number_of (g : geometry) (e : expr) : option Q :=
  match e with
  | E_Int n => Some (inject_Z n)
  | E_Name x => inject_Z <$> numbers g !! x
  | _ => None
  end.

(** The surface a constructor call makes; [None] when the call is not one of
    the three constructors or passes an argument that is not modelled. *)
Definition surface_of (g : geometry) (f : expr) (args : list expr)
    (kws : list (string * expr)) : option surface :=
  if negb (String.eqb (root_name f) "openmc") then None
  else if negb (forallb (fun kw => mem kw.1 ["r"; "boundary_type"]) kws) then None
  else match callee_name f, args with
       | "Sphere", [] => Sphere <$> (keyword "r" kws ≫= number_of g)
       | "ZCylinder", [] => ZCylinder <$> (keyword "r" kws ≫= number_of g)
       | "XPlane", [x0] =>
           match keyword "r" kws with
           | None => XPlane <$> number_of g x0
           | Some _ => None
           end
       | _, _ => None
       end.

Definition is_vacuum (kws : list (string * expr)) : bool :=
  match keyword "boundary_type" kws with
  | Some (E_Str "vacuum") => true
  | _ => false
  end.

(** The region an expression denotes: [-s], [+s], [a & b], or a variable
    that holds a region. *)
Fixpoint region_of (g : geometry) (e : expr) : option region :=
  match e with
  | E_UnaryOp USub (E_Name s) => Negative <$> surfaces g !! s
  | E_UnaryOp UAdd (E_Name s) => Positive <$> surfaces g !! s
  | E_BinOp a BitAnd b =>
      match region_of g a, region_of g b with
      | Some ra, Some rb => Some (Intersection ra rb)
      | _, _ => None
      end
  | E_Name x => regions g !! x
  | _ => None
  end.

(** The cells a list display names, in order. *)
Fixpoint cells_named (g : geometry) (es : list expr) : option (list (string * region)) :=
  match es with
  | [] => Some []
  | E_Name c :: es' =>
      match cells g !! c, cells_named g es' with
      | Some r, Some l => Some ((c, r) :: l)
      | _, _ => None
      end
  | _ :: _ => None
  end.

Definition is_constructor (class : string) (f : expr) : bool :=
  String.eqb (root_name f) "openmc" && String.eqb (callee_name f) class.

(** One statement.  [None] when a geometry constructor is called in a way
    that is not modelled; statements that build no geometry change nothing. *)
Definition exec (g : geometry) (s : stmt) : option geometry :=
  match s with
  | S_Assign (E_Name x) (E_Int n) =>
      Some {| numbers := <[ x := n ]> (numbers g); surfaces := surfaces g;
              boundary := boundary g; regions := regions g; cells := cells g;
              universe := universe g |}
  | S_Assign (E_Name x) (E_Call f args kws) =>
      if mem (callee_name f) Analysis.surface_classes && String.eqb (root_name f) "openmc" then
        s ← surface_of g f args kws;
        Some {| numbers := numbers g; surfaces := <[ x := s ]> (surfaces g);
                boundary := if is_vacuum kws then boundary g ++ [s] else boundary g;
                regions := regions g; cells := cells g; universe := universe g |}
      else if is_constructor "Cell" f then
        match args, kws with
        | [], [("region", e)] =>
            r ← region_of g e;
            Some {| numbers := numbers g; surfaces := surfaces g; boundary := boundary g;
                    regions := regions g; cells := <[ x := r ]> (cells g);
                    universe := universe g |}
        | _, _ => None
        end
      else if is_constructor "Universe" f then
        match args, kws with
        | [], [("cells", E_List es)] =>
            u ← cells_named g es;
            Some {| numbers := numbers g; surfaces := surfaces g; boundary := boundary g;
                    regions := regions g; cells := cells g; universe := u |}
        | _, _ => None
        end
      else Some g
  | S_Assign (E_Name x) e =>
      match region_of g e with
      | Some r =>
          Some {| numbers := numbers g; surfaces := surfaces g; boundary := boundary g;
                  regions := <[ x := r ]> (regions g); cells := cells g;
                  universe := universe g |}
      | None => Some g
      end
  | _ => Some g
  end.

Definition geometry_of (nb : notebook) : option geometry :=
  foldl (fun g s => g ≫= fun g => exec g s) (Some empty) (statements nb).

(** The cells of the universe that contain a point. *)
Definition cells_at (g : geometry) (p : point) : list string :=
  map fst (List.filter (fun c => contains c.2 p) (universe g)).

(** Inside every vacuum boundary. *)
Definition inside_boundary (g : geometry) (p : point) : bool :=
  forallb (fun s => contains (Negative s) p) (boundary g).

(** The position of the point source: the argument of
    [openmc.stats.Point((x, y, z))] in the last assignment to an attribute
    [space]. *)
Definition point_of (e : expr) : option point :=
  match e with
  | E_Call f [E_Tuple [E_Int x; E_Int y; E_Int z]] [] =>
      if String.eqb (callee_name f) "Point"
      then Some (inject_Z x, inject_Z y, inject_Z z) else None
  | _ => None
  end.

Definition source_point (nb : notebook) : option point :=
  foldl (fun found s => match s with
                        | S_Assign (E_Attribute _ "space") e =>
                            match point_of e with Some p => Some p | None => found end
                        | _ => found
                        end) None (statements nb).

(** A point with integer coordinates. *)
Definition integer_point (x y z : Z) : point := (inject_Z x, inject_Z y, inject_Z z).

(** The 3D mesh notebook: the part of the shell between the spheres of radius
    500 and 510 that is inside the cylinder of radius 110. *)
Definition shell_in_column : region :=
  Intersection (Negative (ZCylinder 110))
    (Intersection (Negative (Sphere 510)) (Positive (Sphere 500))).

End Csg.

(** * Tally meshes

    The regular mesh a notebook hands to [openmc.MeshFilter]: the box
    between [lower_left] and [upper_right], cut into [dimension] cells. *)
Module Mesh.
Import Py QArith.
#[local] Open Scope Q_scope.

Record mesh := {
  dimension : option (list Z);
  lower_left : option (list Q);
  upper_right : option (list Q)
}.

Record state := {
  numbers : gmap string Z;
  meshes : gmap string mesh;
  filtered : option mesh      (* the mesh of the last [MeshFilter(mesh)] *)
}.

Definition integer_of (numbers : gmap string Z) (e : expr) : option Z :=
  match e with
  | E_Int n => Some n
  | E_UnaryOp USub (E_Int n) => Some (- n)%Z
  | E_Name x => numbers !! x
  | _ => None
  end.

Definition integers_of (numbers : gmap string Z) (e : expr) : option (list Z) :=
  match e with
  | E_List es => mapM (integer_of numbers) es
  | _ => None
  end.

(** [mesh.attr = value] on the mesh [m]; an attribute set to something other
    than a list of integers is not known. *)
Definition set_attribute (numbers : gmap string Z) (attr : string) (value : expr)
    (m : mesh) : mesh :=
  let ints := integers_of numbers value in
  if String.eqb attr "dimension" then
    {| dimension := ints; lower_left := lower_left m; upper_right := upper_right m |}
  else if String.eqb attr "lower_left" then
    {| dimension := dimension m; lower_left := map inject_Z <$> ints;
       upper_right := upper_right m |}
  else if String.eqb attr "upper_right" then
    {| dimension := dimension m; lower_left := lower_left m;
       upper_right := map inject_Z <$> ints |}
  else m.

Definition exec (st : state) (s : stmt) : state :=
  match s with
  | S_Assign (E_Name x) (E_Call f args kws) =>
      if String.eqb (callee_name f) "RegularMesh" then
        {| numbers := numbers st;
           meshes := <[ x := {| dimension := None; lower_left := None;
                                upper_right := None |} ]> (meshes st);
           filtered := filtered st |}
      else if String.eqb (callee_name f) "MeshFilter" then
        match args with
        | [E_Name m] =>
            {| numbers := numbers st; meshes := meshes st; filtered := meshes st !! m |}
        | _ => st
        end
      else st
  | S_Assign (E_Name x) e =>
      match integer_of (numbers st) e with
      | Some n =>
          {| numbers := <[ x := n ]> (numbers st); meshes := meshes st;
             filtered := filtered st |}
      | None => st
      end
  | S_Assign (E_Attribute (E_Name m) attr) value =>
      {| numbers := numbers st;
         meshes := match meshes st !! m with
                   | Some m0 =>
                       <[ m := set_attribute (numbers st) attr value m0 ]> (meshes st)
                   | None => meshes st
                   end;
         filtered := filtered st |}
  | _ => st
  end.

(** The mesh of the notebook's mesh filter, as it is when the filter is made. *)
Definition tally_mesh (nb : notebook) : option mesh :=
  filtered (foldl exec {| numbers := ∅; meshes := ∅; filtered := None |}
                  (statements nb)).

(** Strictly inside the box of the mesh. *)
Definition strictly_inside (m : mesh) (p : Csg.point) : bool :=
  let '(x, y, z) := p in
  match lower_left m, upper_right m with
  | Some [x0; y0; z0], Some [x1; y1; z1] =>
      negb (Qle_bool x x0) && negb (Qle_bool x1 x)
      && negb (Qle_bool y y0) && negb (Qle_bool y1 y)
      && negb (Qle_bool z z0) && negb (Qle_bool z1 z)
  | _, _ => false
  end.

(** In the box of the mesh or on its faces. *)
Definition within (m : mesh) (p : Csg.point) : bool :=
  let '(x, y, z) := p in
  match lower_left m, upper_right m with
  | Some [x0; y0; z0], Some [x1; y1; z1] =>
      Qle_bool x0 x && Qle_bool x x1 && Qle_bool y0 y && Qle_bool y y1
      && Qle_bool z0 z && Qle_bool z z1
  | _, _ => false
  end.

(** The edge lengths of one cell of the mesh. *)
Definition cell_size (m : mesh) : option (list Q) :=
  match dimension m, lower_left m, upper_right m with
  | Some [nx; ny; nz], Some [x0; y0; z0], Some [x1; y1; z1] =>
      Some [ Qred ((x1 - x0) / inject_Z nx); Qred ((y1 - y0) / inject_Z ny);
             Qred ((z1 - z0) / inject_Z nz) ]
  | _, _, _ => None
  end.

End Mesh.

(** * What reaches what

    Reading the notebooks' cells for the values that reach a call: the
    operator an integrator is given, the items of a dictionary display, the
    subplot positions of a loop, the files written and read. *)
Module Dataflow.
Import Py.

(** ** The depletion operator *)

(** The arguments of the [Operator(...)] call whose value the integrator of
    the notebook's [integrate()] is given. *)
Definition integrated_operator (nb : notebook)
  : option (list expr * list (string * expr)) :=
  match split_when (fun s => bool_decide (is_Some (Deplete.integrate_call s)))
                   (statements nb) with
  | Some (before, run, _) =>
      i ← Deplete.integrate_call run;
      integrator ← assigned i before ≫= Deplete.constructor_call "Integrator";
      (argument 0 "operator" integrator.1 integrator.2 ≫= resolve before)
        ≫= Deplete.constructor_call "Operator"
  | None => None
  end.

(** Every [Operator(...)] call of the notebook, in order. *)
Definition operator_constructions (nb : notebook)
  : list (list expr * list (string * expr)) :=
  flat_map (fun e => match Deplete.constructor_call "Operator" e with
                     | Some c => [c]
                     | None => []
                     end) (all_exprs nb).

(** ** Dictionary displays *)

(** The items of a display whose keys are string literals. *)
Fixpoint string_items (kvs : list (expr * expr)) : option (list (string * expr)) :=
  match kvs with
  | [] => Some []
  | (E_Str k, v) :: kvs' => cons (k, v) <$> string_items kvs'
  | _ :: _ => None
  end.

(** The dictionary that the display [e] evaluates to. *)
Definition dict_of (e : expr) : option (list (string * expr)) :=
  match e with
  | E_Dict kvs => PyDict.display <$> string_items kvs
  | _ => None
  end.

(** The keyword arguments [k] of the calls of method [m]. *)
Definition keyword_of_calls (m k : string) (nb : notebook) : list expr :=
  flat_map (fun e => match e with
                     | E_Call f _ kws =>
                         if String.eqb (callee_name f) m
                         then option_list (keyword k kws) else []
                     | _ => []
                     end) (all_exprs nb).

(** ** Subplot positions *)

Definition strings_of (e : expr) : option (list string) :=
  match e with
  | E_List es => mapM (fun e => match e with E_Str s => Some s | _ => None end) es
  | _ => None
  end.

Definition integers_of (e : expr) : option (list Z) :=
  match e with
  | E_List es => mapM (fun e => match e with E_Int n => Some n | _ => None end) es
  | _ => None
  end.

Definition integer_lists_of (e : expr) : option (list (list Z)) :=
  match e with
  | E_List es => mapM integers_of es
  | _ => None
  end.

(** [for sample, coords in zip(sampling_methods, row_col_coords)]: the passes
    of the loop, and the [row=coords[0], col=coords[1]] each pass hands to
    [add_trace]; [None] stands for [IndexError]. *)
Definition subplot_positions (sampling_methods : list string)
    (row_col_coords : list (list Z)) : option (list (string * (Z * Z))) :=
  mapM (fun pass : string * list Z =>
          row ← pass.2 !! 0%nat; col ← pass.2 !! 1%nat; Some (pass.1, (row, col)))
       (zip sampling_methods row_col_coords).

(** The loop's positions, with the lists and the grid of [make_subplots]
    read from the notebook. *)
Definition interpolated_subplots (nb : notebook)
  : option (Z * Z * list (string * (Z * Z))) :=
  let l := statements nb in
  methods ← assigned "sampling_methods" l ≫= strings_of;
  coords ← assigned "row_col_coords" l ≫= integer_lists_of;
  grid ← assigned "interpolated_fig" l;
  match grid with
  | E_Call (E_Name "make_subplots") [] kws =>
      match keyword "rows" kws, keyword "cols" kws with
      | Some (E_Int rows), Some (E_Int cols) =>
          positions ← subplot_positions methods coords;
          Some (rows, cols, positions)
      | _, _ => None
      end
  | _ => None
  end.

(** ** Files written and read *)

(** The paths given to [output_result], with the index of the statement. *)
Definition files_written (nb : notebook) : list (nat * string) :=
  flat_map (fun '(i, s) =>
              match s with
              | S_Expr (E_Call (E_Name "output_result") (E_Str path :: _) _) => [(i, path)]
              | _ => []
              end) (zip (seq 0 (length (statements nb))) (statements nb)).

(** The paths given to [pd.read_json] and to [open(_, 'r')]. *)
Definition files_read (nb : notebook) : list (nat * string) :=
  flat_map (fun '(i, s) =>
              match s with
              | S_Assign _ (E_Call (E_Attribute _ "read_json") [E_Str path] _) => [(i, path)]
              | S_With (E_Call (E_Name "open") [E_Str path; E_Str "r"] _) _ _ => [(i, path)]
              | _ => []
              end) (zip (seq 0 (length (statements nb))) (statements nb)).

(** Every read is of a file that an earlier statement has written. *)
Definition reads_follow_writes (nb : notebook) : bool :=
  forallb (fun r => existsb (fun w => (w.1 <? r.1)%nat && String.eqb w.2 r.2)
                            (files_written nb))
          (files_read nb).

End Dataflow.

(** * Facts *)

(** Case analysis over the notebooks of the repository: [tac] proves the goal
    for each of them in turn. *)
Ltac each_notebook H tac :=
  cbv delta [Notebooks.notebooks] in H; cbn [In] in H;
  repeat (destruct H as [<- | H]; [tac | ]); contradiction.

(** * Binary64 facts used below *)

Lemma SFmul_comm (p e : Z) (x y : spec_float) : SFmul p e x y = SFmul p e y x.
Proof.
  destruct x as [sx|sx| |sx mx ex], y as [sy|sy| |sy my ey]; simpl;
    rewrite ?(xorb_comm sx sy); try reflexivity.
  now rewrite (Pos.mul_comm mx my), (Z.add_comm ex ey).
Qed.

Lemma float_mul_comm (x y : float) : (x * y)%float = (y * x)%float.
Proof. apply Prim2SF_inj. rewrite !mul_spec. apply SFmul_comm. Qed.

Lemma float_opp_involutive (x : float) : (- - x)%float = x.
Proof.
  apply Prim2SF_inj. rewrite !opp_spec.
  destruct (Prim2SF x); simpl; now rewrite ?negb_involutive.
Qed.

(** * Task 6: DPA *)

Example neutrons_per_second_value :
  FindDpa.number_of_neutrons_per_second = 1.0638913571168374e+21%float.
Proof. vm_compute. reflexivity. Qed.

(** C8.  What the last cell of the DPA notebook prints is the composition of
    its post-processing cells: the sum of the tally means over [2*40], times
    the recombination factor [0.8], times the neutrons of a full-power year,
    [(3e9 / (17.6e6 * 1.60218e-19)) * 60*60*24*365.25], over the iron atoms of
    the cell, [cell_volume * density / (55.845 * 1.66054e-24)].  The equation
    holds between binary64 values whatever the tally and the volume are; the
    notebook multiplies the neutrons per year on the left, the formula on the
    right, and binary64 multiplication commutes. *)
Theorem find_dpa_DPA_is_composition
    (Series_sum : list float -> float) (df_mean : list float) (cell_volume : float) :
  FindDpa.print_DPA df_mean Series_sum cell_volume =
  [ PyNum.Text "DPA =";
    PyNum.Number
      ((Series_sum df_mean / PyNum.float_of_int (2 * 40)) * 0.8
       * ((3e9 / (17.6e6 * 1.60218e-19))
          * PyNum.float_of_int 60 * PyNum.float_of_int 60 * PyNum.float_of_int 24 * 365.25)
       / (cell_volume * FindDpa.density_of_iron_in_g_per_cm3 / (55.845 * 1.66054e-24)))%float ].
Proof.
  unfold FindDpa.print_DPA, FindDpa.DPA, FindDpa.displacements_for_all_atoms.
  rewrite float_mul_comm. reflexivity.
Qed.

(** The cells of the DPA notebook, run on what the tally and the volume
    calculation returned, bind [DPA] to the value of [FindDpa.DPA]: the
    definitions of [FindDpa] are the arithmetic of the notebook. *)
Lemma find_dpa_cells_compute_DPA
    (Series_sum : list float -> float) (df_mean : list float) (cell_volume : float) :
  let inputs : gmap string Arith.number :=
    {[ "damage_energy_in_ev" := Arith.Float64 (Series_sum df_mean);
       "volume_of_firstwall_cell" := Arith.PyFloat cell_volume ]} in
  let env := Arith.run inputs Notebooks.nb_find_dpa in
  env !! "displacements_per_source_neutron"
  = Some (Arith.Float64 (FindDpa.displacements_per_source_neutron df_mean Series_sum))
  /\ env !! "number_of_neutrons_per_year"
     = Some (Arith.PyFloat FindDpa.number_of_neutrons_per_year)
  /\ env !! "displacements_for_all_atoms"
     = Some (Arith.Float64 (FindDpa.displacements_for_all_atoms df_mean Series_sum))
  /\ env !! "number_of_iron_atoms"
     = Some (Arith.PyFloat (FindDpa.number_of_iron_atoms cell_volume))
  /\ env !! "DPA" = Some (Arith.Float64 (FindDpa.DPA df_mean Series_sum cell_volume)).
Proof.
  cbv zeta. repeat split; vm_compute; reflexivity.
Qed.

(** * Files and directories: what a call can change *)

Section FileFacts.
Import Posix OptimisationFiles.

Lemma os_mkdir_keeps_files (p : PurePath) : keeps_files (os_mkdir p).
Proof.
  intros w. unfold os_mkdir, mbind, IO_bind, get, raise, put.
  destruct (is_file w (parent p)); [split; [reflexivity | set_solver]|].
  destruct (negb (is_dir w (parent p))); [split; [reflexivity | set_solver]|].
  destruct (is_dir w p || is_file w p); (split; [reflexivity | cbn; set_solver]).
Qed.

Lemma mkdir_exist_ok_keeps_files (p : PurePath) : keeps_files (mkdir_exist_ok p).
Proof.
  intros w. unfold mkdir_exist_ok, catch.
  pose proof (os_mkdir_keeps_files p w) as H.
  destruct (os_mkdir p w) as [[e|[]] w1]; [|exact H].
  destruct e; unfold raise, mbind, IO_bind, get, mret, IO_ret;
    try destruct (is_dir w1 p); exact H.
Qed.

Lemma mkdir_parents_keeps_files (n : nat) (p : PurePath) :
  keeps_files (mkdir_parents_exist_ok_rec n p).
Proof.
  revert p. induction n as [|n IH]; intros p w;
    cbn [mkdir_parents_exist_ok_rec]; unfold catch;
    pose proof (os_mkdir_keeps_files p w) as H;
    destruct (os_mkdir p w) as [[e|[]] w1]; try exact H.
  - destruct e; unfold raise, mbind, IO_bind, get, mret, IO_ret;
      try destruct (is_dir w1 p); exact H.
  - destruct e as [path|path|path|path]; unfold raise, mbind, IO_bind, get, mret, IO_ret;
      [destruct (is_dir w1 p); exact H | | destruct (is_dir w1 p); exact H
      | destruct (is_dir w1 p); exact H].
    destruct (parts p) as [|c cs]; [exact H|].
    pose proof (IH (parent p) w1) as H1.
    destruct (mkdir_parents_exist_ok_rec n (parent p) w1) as [[e|[]] w2].
    + cbn [snd] in *. destruct H as [Hf Hd], H1 as [Hf1 Hd1].
      split; [congruence | set_solver].
    + pose proof (mkdir_exist_ok_keeps_files p w2) as H2.
      cbn [snd] in *. destruct H as [Hf Hd], H1 as [Hf1 Hd1], H2 as [Hf2 Hd2].
      split; [congruence | set_solver].
Qed.

(** [open] on a name that names a file, where the file is not a directory
    and its directory exists: the file is created or truncated. *)
Lemma open_w_creates (filename : string) (w : filesystem) :
  String.eqb filename "" = false -> names_directory filename = false ->
  is_dir w (Path filename) = false ->
  is_file w (parent (Path filename)) = false ->
  is_dir w (parent (Path filename)) = true ->
  open_w filename w
  = (inr (Path filename),
     {| files := <[ str (Path filename) := "" ]> (files w); dirs := dirs w |}).
Proof.
  intros H0 Hn Hd Hfp Hdp. unfold open_w, mbind, IO_bind, get, put, raise, mret, IO_ret.
  cbv zeta. now rewrite H0, Hd, Hfp, Hdp, Hn.
Qed.

(** When [open] raises it has changed nothing. *)
Lemma open_w_raises (filename : string) (w w' : filesystem) (e : OSError) :
  open_w filename w = (inl e, w') -> w' = w.
Proof.
  unfold open_w, mbind, IO_bind, get, put, raise, mret, IO_ret. cbv zeta.
  destruct (String.eqb filename ""); [now intros [= _ <-]|].
  destruct (is_dir w (Path filename)); [now intros [= _ <-]|].
  destruct (is_file w (parent (Path filename))); [now intros [= _ <-]|].
  destruct (negb (is_dir w (parent (Path filename)))); [now intros [= _ <-]|].
  destruct (names_directory filename); [now intros [= _ <-] | discriminate].
Qed.

(** What a call of [output_result] can change, whatever the name and the
    state: no directory goes, no file changes but the one that is named; when
    the call raises no file has changed, and when it returns the file holds
    the text of the result. *)
Lemma output_result_frame (json_dumps : Json.value -> string) (filepath : string)
    (result : Json.value) (w : filesystem) :
  let r := output_result json_dumps filepath result w in
  dirs w ⊆ dirs r.2
  /\ (forall p, p <> str (Path filepath) -> files r.2 !! p = files w !! p)
  /\ match r.1 with
     | inl _ => files r.2 = files w
     | inr _ => files r.2 !! str (Path filepath) = Some (json_dumps result)
     end.
Proof.
  cbv zeta. set (q := parent (Path filepath)).
  assert (Hrun : output_result json_dumps filepath result w
                 = match mkdir_parents_exist_ok_rec (length (parts q)) q w with
                   | (inl e, w1) => (inl e, w1)
                   | (inr _, w1) =>
                       match open_w filepath w1 with
                       | (inl e, w2) => (inl e, w2)
                       | (inr f, w2) => write f (json_dumps result) w2
                       end
                   end) by reflexivity.
  rewrite Hrun. clear Hrun.
  pose proof (mkdir_parents_keeps_files (length (parts q)) q w) as [Hf Hd].
  destruct (mkdir_parents_exist_ok_rec (length (parts q)) q w) as [[e|[]] w1];
    cbn [fst snd] in *.
  { split; [exact Hd|]. split; [intros p _; now rewrite Hf | exact Hf]. }
  destruct (open_w filepath w1) as [[e|f] w2] eqn:Hopen; cbn [fst snd].
  { apply open_w_raises in Hopen. subst w2.
    split; [exact Hd|]. split; [intros p _; now rewrite Hf | exact Hf]. }
  assert (Hw2 : f = Path filepath
                /\ w2 = {| files := <[ str (Path filepath) := "" ]> (files w1);
                           dirs := dirs w1 |}).
  { revert Hopen. unfold open_w, mbind, IO_bind, get, put, raise, mret, IO_ret. cbv zeta.
    destruct (String.eqb filepath ""); [discriminate|].
    destruct (is_dir w1 (Path filepath)); [discriminate|].
    destruct (is_file w1 (parent (Path filepath))); [discriminate|].
    destruct (negb (is_dir w1 (parent (Path filepath)))); [discriminate|].
    destruct (names_directory filepath); [discriminate|].
    intros [= <- <-]. split; reflexivity. }
  destruct Hw2 as [-> ->].
  unfold write, mbind, IO_bind, get, put. cbn [fst snd files dirs].
  split; [exact Hd|]. split.
  - intros p Hp. rewrite !lookup_insert_ne by congruence. now rewrite Hf.
  - rewrite lookup_insert_eq. rewrite lookup_insert_eq. reflexivity.
Qed.

End FileFacts.

(** * Task 13: [output_result] *)

Section SamplingFacts.
Import Posix.

Lemma split_on_slash_no_slash (s : string) :
  no_slash s = true -> split_on_slash s = [s].
Proof.
  induction s as [|c s IH]; simpl; [reflexivity|].
  intros [Hc Hs]%andb_true_iff. apply negb_true_iff in Hc.
  rewrite Hc, (IH Hs). reflexivity.
Qed.

Lemma no_slash_app (s t : string) :
  no_slash s = true -> no_slash t = true -> no_slash (s +:+ t) = true.
Proof.
  induction s as [|c s IH]; simpl; [auto|].
  intros [Hc Hs]%andb_true_iff Ht. rewrite Hc. simpl. auto.
Qed.

Lemma uuid_text_no_slash (u : string) :
  Sampling.uuid_text u = true -> no_slash u = true.
Proof.
  induction u as [|c u IH]; simpl; [reflexivity|].
  intros [Hc Hu]%andb_true_iff. rewrite (IH Hu), andb_true_r.
  apply negb_true_iff, Ascii.eqb_neq. intros ->. discriminate Hc.
Qed.

Lemma real_component_json (u : string) : real_component (u +:+ ".json") = true.
Proof.
  destruct u as [|c [|c' u]]; try reflexivity;
    unfold real_component; simpl; destruct (Ascii.eqb c "."); reflexivity.
Qed.

Lemma Path_result_file (u : string) :
  Sampling.uuid_text u = true ->
  Path (Sampling.filename u) =
  {| absolute := false; parts := ["outputs"; u +:+ ".json"] |}.
Proof.
  intros Hu. unfold Path, Sampling.filename. simpl.
  rewrite split_on_slash_no_slash
    by (apply (no_slash_app u ".json"); [now apply uuid_text_no_slash | reflexivity]).
  simpl. rewrite real_component_json. reflexivity.
Qed.

Lemma parent_result_file (u : string) :
  parent {| absolute := false; parts := ["outputs"; u +:+ ".json"] |} = outputs_dir.
Proof. reflexivity. Qed.

Lemma str_result_file (u : string) :
  str {| absolute := false; parts := ["outputs"; u +:+ ".json"] |} = Sampling.filename u.
Proof. reflexivity. Qed.

Lemma str_outputs_dir : str outputs_dir = "outputs".
Proof. reflexivity. Qed.

Lemma last_component_in_outputs (name : string) :
  no_slash name = true -> last_component ("outputs/" +:+ name) = name.
Proof.
  intros Hs. unfold last_component. simpl. change ("" +:+ name) with name.
  rewrite (split_on_slash_no_slash name Hs). reflexivity.
Qed.

Lemma json_name_is_a_file_name (u : string) :
  let c := u +:+ ".json" in
  String.eqb c "" || String.eqb c "." || String.eqb c ".." = false.
Proof.
  cbv zeta.
  assert (Hlen : (5 <= String.length (u +:+ ".json"))%nat)
    by (induction u; simpl; lia).
  destruct (u +:+ ".json") as [|a [|b [|c s]]]; simpl in Hlen; try lia.
  rewrite !orb_false_iff. repeat split; apply String.eqb_neq; discriminate.
Qed.

Lemma result_file_names_a_file (u : string) :
  Sampling.uuid_text u = true ->
  String.eqb (Sampling.filename u) "" = false
  /\ names_directory (Sampling.filename u) = false.
Proof.
  intros Hu. split; [reflexivity|].
  unfold names_directory. cbv zeta.
  change (Sampling.filename u) with ("outputs/" +:+ (u +:+ ".json")).
  rewrite last_component_in_outputs
    by (apply (no_slash_app u ".json"); [now apply uuid_text_no_slash | reflexivity]).
  apply json_name_is_a_file_name.
Qed.

Lemma filename_not_outputs (u : string) : Sampling.filename u <> "outputs".
Proof. unfold Sampling.filename. simpl. discriminate. Qed.

Lemma is_file_outputs (w : filesystem) :
  files w !! "outputs" = None -> is_file w outputs_dir = false.
Proof.
  intros H. unfold is_file. change (parts outputs_dir) with ["outputs"].
  cbv iota. rewrite str_outputs_dir. apply bool_decide_eq_false_2.
  rewrite H. apply is_Some_None.
Qed.

Lemma os_mkdir_outputs_present (w : filesystem) :
  files w !! "outputs" = None -> "outputs" ∈ dirs w ->
  os_mkdir outputs_dir w = (inl (FileExistsError "outputs"), w).
Proof.
  intros Hout Hin. unfold os_mkdir, mbind, IO_bind, get.
  change (is_file w (parent outputs_dir)) with false.
  change (is_dir w (parent outputs_dir)) with true.
  cbv iota beta. simpl negb. cbv iota.
  unfold is_dir at 1. change (parts outputs_dir) with ["outputs"]. cbv iota. rewrite str_outputs_dir.
  rewrite (bool_decide_eq_true_2 _ Hin). reflexivity.
Qed.

Lemma os_mkdir_outputs_absent (w : filesystem) :
  files w !! "outputs" = None -> "outputs" ∉ dirs w ->
  os_mkdir outputs_dir w =
  (inr tt, {| files := files w; dirs := {[ "outputs" ]} ∪ dirs w |}).
Proof.
  intros Hout Hnin. unfold os_mkdir, mbind, IO_bind, get.
  change (is_file w (parent outputs_dir)) with false.
  change (is_dir w (parent outputs_dir)) with true.
  cbv iota beta. simpl negb. cbv iota.
  rewrite (is_file_outputs w Hout), orb_false_r.
  unfold is_dir. change (parts outputs_dir) with ["outputs"]. cbv iota. rewrite str_outputs_dir.
  rewrite (bool_decide_eq_false_2 _ Hnin). reflexivity.
Qed.

(** Making [outputs] where no regular file has that name: it is added, or was
    there already. *)
Lemma mkdir_outputs (w : filesystem) :
  files w !! "outputs" = None ->
  mkdir_parents_exist_ok outputs_dir w =
  (inr tt, {| files := files w; dirs := {[ "outputs" ]} ∪ dirs w |}).
Proof.
  intros Hout. unfold mkdir_parents_exist_ok.
  change (length (parts outputs_dir)) with 1%nat.
  cbn [mkdir_parents_exist_ok_rec]. unfold catch.
  destruct (decide ("outputs" ∈ dirs w)) as [Hin|Hnin].
  - rewrite (os_mkdir_outputs_present w Hout Hin).
    unfold mbind, IO_bind, get, is_dir. change (parts outputs_dir) with ["outputs"]. cbv iota beta. rewrite str_outputs_dir.
    rewrite (bool_decide_eq_true_2 _ Hin). unfold mret, IO_ret.
    destruct w as [fs ds]. simpl in *. f_equal. f_equal.
    symmetry. apply leibniz_equiv. set_solver.
  - rewrite (os_mkdir_outputs_absent w Hout Hnin). reflexivity.
Qed.

(** A call whose name is not a directory's, where [outputs] is not a regular
    file: it returns, and the file holds the text of the result, whether or
    not it existed. *)
Lemma output_result_saves (json_dumps : Json.value -> string) (u : string)
    (result : Json.value) (w : filesystem) :
  Sampling.uuid_text u = true ->
  Sampling.filename u ∉ dirs w ->
  files w !! "outputs" = None ->
  Sampling.output_result json_dumps u result w =
  (inr tt, {| files := <[ Sampling.filename u := json_dumps result ]> (files w);
              dirs := {[ "outputs" ]} ∪ dirs w |}).
Proof.
  intros Hu Hnodir Hout.
  destruct (result_file_names_a_file u Hu) as [Hne Hname].
  unfold Sampling.output_result. cbv zeta.
  rewrite (Path_result_file u Hu), parent_result_file.
  unfold mbind at 1. unfold IO_bind at 1. rewrite (mkdir_outputs w Hout).
  set (w1 := {| files := files w; dirs := {[ "outputs" ]} ∪ dirs w |}).
  unfold mbind at 1. unfold IO_bind at 1.
  rewrite (open_w_creates (Sampling.filename u) w1 Hne Hname);
    rewrite ?(Path_result_file u Hu), ?parent_result_file.
  - rewrite str_result_file. unfold write, mbind, IO_bind, get, put.
    rewrite str_result_file. cbn [files dirs].
    rewrite lookup_insert_eq. cbn [default]. rewrite insert_insert_eq. reflexivity.
  - unfold is_dir. cbn [parts]. rewrite str_result_file.
    apply bool_decide_eq_false_2.
    subst w1; simpl; pose proof (filename_not_outputs u); set_solver.
  - apply (is_file_outputs w1 Hout).
  - unfold is_dir. change (parts outputs_dir) with ["outputs"]. cbv iota.
    rewrite str_outputs_dir. apply bool_decide_eq_true_2. subst w1; simpl; set_solver.
Qed.

Lemma output_result_run (json_dumps : Json.value -> string) (u : string)
    (result : Json.value) (w : filesystem) :
  Sampling.uuid_text u = true ->
  files w !! Sampling.filename u = None ->
  Sampling.filename u ∉ dirs w ->
  files w !! "outputs" = None ->
  Sampling.output_result json_dumps u result w =
  (inr tt, {| files := <[ Sampling.filename u := json_dumps result ]> (files w);
              dirs := {[ "outputs" ]} ∪ dirs w |}).
Proof. intros Hu _. now apply output_result_saves. Qed.

Lemma string_length_append (s t : string) :
  String.length (s +:+ t) = (String.length s + String.length t)%nat.
Proof. induction s as [|c s IH]; simpl; [reflexivity | now rewrite IH]. Qed.

Lemma string_append_cancel_r (s1 s2 t : string) : s1 +:+ t = s2 +:+ t -> s1 = s2.
Proof.
  revert s2. induction s1 as [|c s1 IH]; intros [|c' s2] H.
  - reflexivity.
  - apply (f_equal String.length) in H.
    rewrite !string_length_append in H. simpl in H. lia.
  - apply (f_equal String.length) in H.
    rewrite !string_length_append in H. simpl in H. lia.
  - change (String c (s1 +:+ t) = String c' (s2 +:+ t)) in H.
    injection H as -> H. f_equal. now apply IH.
Qed.

Lemma filename_inj (u u' : string) : Sampling.filename u = Sampling.filename u' -> u = u'.
Proof.
  unfold Sampling.filename. simpl. intros H.
  injection H as H. now apply string_append_cancel_r in H.
Qed.

Lemma files_after_cons (json_dumps : Json.value -> string) (d : string * Json.value)
    (draws : list (string * Json.value)) (m : gmap string string) :
  Sampling.files_after json_dumps (d :: draws) m
  = Sampling.files_after json_dumps draws (<[ Sampling.filename d.1 := json_dumps d.2 ]> m).
Proof. reflexivity. Qed.

Lemma files_after_other (json_dumps : Json.value -> string)
    (draws : list (string * Json.value)) (m : gmap string string) (p : string) :
  (forall d, In d draws -> Sampling.filename d.1 <> p) ->
  Sampling.files_after json_dumps draws m !! p = m !! p.
Proof.
  revert m. induction draws as [|d draws IH]; intros m Hp; [reflexivity|].
  rewrite files_after_cons.
  rewrite IH by (intros d' Hd'; apply Hp; now right).
  apply lookup_insert_ne. apply Hp. now left.
Qed.

(** A run of calls with pairwise distinct fresh identifiers: every call
    returns, and the files are those of before with one more per call. *)
Lemma output_results_run (json_dumps : Json.value -> string)
    (draws : list (string * Json.value)) (w : filesystem) :
  Forall (fun d => Sampling.uuid_text d.1 = true) draws ->
  List.NoDup (map fst draws) ->
  (forall d, In d draws ->
     files w !! Sampling.filename d.1 = None /\ Sampling.filename d.1 ∉ dirs w) ->
  files w !! "outputs" = None ->
  exists ds,
    Sampling.output_results json_dumps draws w
    = (inr tt, {| files := Sampling.files_after json_dumps draws (files w); dirs := ds |})
    /\ dirs w ⊆ ds.
Proof.
  revert w. induction draws as [|[u r] draws IH]; intros w Hu Hnd Hfresh Hout.
  - exists (dirs w). destruct w. split; [reflexivity | set_solver].
  - apply Forall_cons_iff in Hu as [Hu Hus]. cbn [fst map] in *.
    apply NoDup_cons_iff in Hnd as [Hnotin Hnd].
    destruct (Hfresh (u, r) ltac:(now left)) as [Hf Hd]. cbn [fst] in *.
    cbn [Sampling.output_results]. unfold mbind at 1. unfold IO_bind at 1.
    rewrite (output_result_run json_dumps u r w Hu Hf Hd Hout).
    set (w1 := {| files := <[ Sampling.filename u := json_dumps r ]> (files w);
                  dirs := {[ "outputs" ]} ∪ dirs w |}).
    destruct (IH w1 Hus Hnd) as (ds & Hrun & Hsub).
    + intros d Hin. destruct (Hfresh d ltac:(now right)) as [Hf' Hd'].
      assert (Hne : Sampling.filename u <> Sampling.filename d.1).
      { intros Heq. apply filename_inj in Heq. subst u.
        apply Hnotin. now apply in_map. }
      subst w1. cbn [files dirs]. split.
      * now rewrite lookup_insert_ne.
      * pose proof (filename_not_outputs d.1). set_solver.
    + subst w1. cbn [files]. rewrite lookup_insert_ne; [assumption|].
      apply filename_not_outputs.
    + exists ds. split; [exact Hrun | subst w1; cbn [dirs] in Hsub; set_solver].
Qed.

(** After such a run each call's file holds that call's result: no later
    call has overwritten it. *)
Corollary output_results_keeps_each_file (json_dumps : Json.value -> string)
    (draws : list (string * Json.value)) (m : gmap string string) :
  List.NoDup (map fst draws) ->
  forall d, In d draws ->
    Sampling.files_after json_dumps draws m !! Sampling.filename d.1 = Some (json_dumps d.2).
Proof.
  revert m. induction draws as [|d0 draws IH]; intros m Hnd d Hin; [destruct Hin|].
  cbn [map] in Hnd. apply NoDup_cons_iff in Hnd as [Hnotin Hnd].
  rewrite files_after_cons.
  destruct Hin as [<- | Hin].
  - rewrite files_after_other; [apply lookup_insert_eq|].
    intros d' Hd' Heq. apply filename_inj in Heq. apply Hnotin.
    rewrite <- Heq. now apply in_map.
  - now apply IH.
Qed.

End SamplingFacts.

(** * Task 13: what a call of [output_result] does to the files *)

(** When [outputs] exists as a regular file, [output_result] raises what
    [mkdir] raises, and writes nothing. *)
Lemma output_result_raises (json_dumps : Json.value -> string) (uuid4 content : string)
    (result : Json.value) (w : Posix.filesystem) :
  Sampling.uuid_text uuid4 = true ->
  Posix.files w !! "outputs" = Some content ->
  "outputs" ∉ Posix.dirs w ->
  Sampling.output_result json_dumps uuid4 result w
  = (inl (Posix.FileExistsError "outputs"), w).
Proof.
  intros Hu Hfile Hnodir.
  unfold Sampling.output_result. cbv zeta. rewrite (Path_result_file uuid4 Hu).
  rewrite parent_result_file.
  assert (Hmk : Posix.mkdir_parents_exist_ok outputs_dir w
                = (inl (Posix.FileExistsError "outputs"), w)).
  { unfold Posix.mkdir_parents_exist_ok.
    change (length (Posix.parts outputs_dir)) with 1%nat.
    cbn [Posix.mkdir_parents_exist_ok_rec]. unfold Posix.catch, Posix.os_mkdir.
    unfold mbind, Posix.IO_bind, Posix.get.
    change (Posix.is_file w (Posix.parent outputs_dir)) with false.
    change (Posix.is_dir w (Posix.parent outputs_dir)) with true.
    cbv iota beta. simpl negb. cbv iota.
    assert (Hf : Posix.is_file w outputs_dir = true).
    { unfold Posix.is_file. change (Posix.parts outputs_dir) with ["outputs"].
      cbv iota. rewrite str_outputs_dir. apply bool_decide_eq_true_2.
      rewrite Hfile. eauto. }
    assert (Hd : Posix.is_dir w outputs_dir = false).
    { unfold Posix.is_dir. change (Posix.parts outputs_dir) with ["outputs"].
      cbv iota. rewrite str_outputs_dir. now apply bool_decide_eq_false_2. }
    rewrite Hf. rewrite orb_true_r. unfold Posix.raise. cbv iota beta.
    cbn [negb]. cbv iota beta. rewrite Hd. reflexivity. }
  unfold mbind at 1. unfold Posix.IO_bind at 1. rewrite Hmk. reflexivity.
Qed.

(** A call changes no file but the one its identifier names, whether it
    returns or raises. *)
Lemma sampling_output_result_frame (json_dumps : Json.value -> string) (u : string)
    (result : Json.value) (w : Posix.filesystem) :
  Sampling.uuid_text u = true ->
  let r := Sampling.output_result json_dumps u result w in
  Posix.dirs w ⊆ Posix.dirs r.2
  /\ (forall p, p <> Sampling.filename u -> Posix.files r.2 !! p = Posix.files w !! p)
  /\ match r.1 with
     | inl _ => Posix.files r.2 = Posix.files w
     | inr _ => Posix.files r.2 !! Sampling.filename u = Some (json_dumps result)
     end.
Proof.
  intros Hu.
  pose proof (output_result_frame json_dumps (Sampling.filename u) result w) as H.
  rewrite (Path_result_file u Hu), str_result_file in H. exact H.
Qed.

(** Calls that draw other identifiers leave a file as it is, whether they
    return or raise. *)
Lemma output_results_leave_other_files (json_dumps : Json.value -> string)
    (draws : list (string * Json.value)) (u : string) (w : Posix.filesystem) :
  Forall (fun d => Sampling.uuid_text d.1 = true) draws ->
  ~ In u (map fst draws) ->
  Posix.files (Sampling.output_results json_dumps draws w).2 !! Sampling.filename u
  = Posix.files w !! Sampling.filename u.
Proof.
  revert w. induction draws as [|[u' r'] draws IH]; intros w Hus Hnotin; [reflexivity|].
  apply Forall_cons_iff in Hus as [Hu' Hus]. cbn [fst map] in *.
  assert (Hne : Sampling.filename u <> Sampling.filename u').
  { intros Heq%filename_inj. apply Hnotin. now left. }
  destruct (sampling_output_result_frame json_dumps u' r' w Hu') as (_ & Hother & Hcase).
  cbn [Sampling.output_results]. unfold mbind, Posix.IO_bind.
  destruct (Sampling.output_result json_dumps u' r' w) as [[e|[]] w1]; cbn [fst snd] in *.
  - now apply Hother.
  - rewrite IH; [now apply Hother | exact Hus | intros Hin; apply Hnotin; now right].
Qed.

(** C9, amended.  What a call of [output_result] does, for every state of
    the files and every identifier [uuid4()] draws.  Where [outputs] is not a regular
    file and the drawn name is not a directory's, the call returns; [outputs]
    is then a directory and [outputs/<uuid4>.json] holds the JSON text of
    [result], whether or not a file of that name existed.  Where [outputs] is
    a regular file the call raises [FileExistsError] and nothing has changed.
    In every case no file of another name has changed, no file and no
    directory has gone, and a call that raises has changed no file; and the
    later calls of a run, as long as they draw other identifiers, leave the
    file of this call as it is. *)
Theorem output_result_writes_the_drawn_file (json_dumps : Json.value -> string)
    (uuid4 : string) (result : Json.value) (w : Posix.filesystem) :
  Sampling.uuid_text uuid4 = true ->
  let name := ("outputs/" +:+ uuid4) +:+ ".json" in
  let r := Sampling.output_result json_dumps uuid4 result w in
  (Posix.files w !! "outputs" = None -> name ∉ Posix.dirs w ->
     r = (inr tt, {| Posix.files := <[ name := json_dumps result ]> (Posix.files w);
                     Posix.dirs := {[ "outputs" ]} ∪ Posix.dirs w |}))
  /\ (forall content, Posix.files w !! "outputs" = Some content ->
        "outputs" ∉ Posix.dirs w -> r = (inl (Posix.FileExistsError "outputs"), w))
  /\ (forall e, r.1 = inl e -> Posix.files r.2 = Posix.files w)
  /\ (r.1 = inr tt -> Posix.files r.2 !! name = Some (json_dumps result))
  /\ (forall p, p <> name -> Posix.files r.2 !! p = Posix.files w !! p)
  /\ (forall p, is_Some (Posix.files w !! p) -> is_Some (Posix.files r.2 !! p))
  /\ (forall d, d ∈ Posix.dirs w -> d ∈ Posix.dirs r.2)
  /\ (forall later : list (string * Json.value),
        Forall (fun d => Sampling.uuid_text d.1 = true) later ->
        ~ In uuid4 (map fst later) ->
        Posix.files (Sampling.output_results json_dumps later r.2).2 !! name
        = Posix.files r.2 !! name).
Proof.
  intros Hu. cbv zeta. change (("outputs/" +:+ uuid4) +:+ ".json") with (Sampling.filename uuid4).
  destruct (sampling_output_result_frame json_dumps uuid4 result w Hu)
    as (Hdirs & Hother & Hcase).
  split; [|split; [|split; [|split; [|split; [|split; [|split]]]]]].
  - intros Hout Hnodir. now apply output_result_saves.
  - intros content Hfile Hnodir. now apply (output_result_raises _ _ content).
  - intros e He. rewrite He in Hcase. exact Hcase.
  - intros He. rewrite He in Hcase. exact Hcase.
  - exact Hother.
  - intros p Hp. destruct (decide (p = Sampling.filename uuid4)) as [-> | Hne].
    + destruct (Sampling.output_result json_dumps uuid4 result w).1.
      * now rewrite Hcase.
      * rewrite Hcase. eauto.
    + now rewrite Hother.
  - intros d Hd. now apply Hdirs.
  - intros later Hus Hnotin. now apply output_results_leave_other_files.
Qed.

Lemma output_result_writes_the_drawn_file_witness :
  Sampling.output_result (fun _ => "{}") "16fd2706-8baf-433b-82eb-8c7fada847da"
    (Json.Dict [("tbr", Json.Float 1.25); ("sample", Json.Str "random")])
    {| Posix.files := {[ "outputs/old.json" := "[]" ]}; Posix.dirs := ∅ |}
  = (inr tt,
     {| Posix.files := <[ "outputs/16fd2706-8baf-433b-82eb-8c7fada847da.json" := "{}" ]>
                         {[ "outputs/old.json" := "[]" ]};
        Posix.dirs := {[ "outputs" ]} ∪ ∅ |}).
Proof.
  destruct (output_result_writes_the_drawn_file (fun _ => "{}")
              "16fd2706-8baf-433b-82eb-8c7fada847da"
              (Json.Dict [("tbr", Json.Float 1.25); ("sample", Json.Str "random")])
              {| Posix.files := {[ "outputs/old.json" := "[]" ]}; Posix.dirs := ∅ |})
    as [Hsaves _].
  - reflexivity.
  - apply Hsaves.
    + vm_compute. reflexivity.
    + cbn [Posix.dirs]. apply not_elem_of_empty.
Defined.

(** C9, as the claim states it, fails in two states of the files: a call
    whose [uuid4()] draws the identifier of a result file that is there
    overwrites that file, and a call made where [outputs] is a regular file
    writes nothing and raises. *)
Lemma output_result_overwrites_a_drawn_name :
  let u := "16fd2706-8baf-433b-82eb-8c7fada847da" in
  let text := fun tbr : string =>
    "{" +:+ Py.nl +:+ "    " +:+ Py.dq +:+ "tbr" +:+ Py.dq +:+ ": " +:+ tbr +:+ Py.nl +:+ "}" in
  let json_dumps := fun v : Json.value =>
    match v with
    | Json.Dict [(_, Json.Float x)] => if (x =? 1.25)%float then text "1.25" else text "1.0"
    | _ => "null"
    end in
  let before := {| Posix.files := {[ Sampling.filename u := text "1.0" ]};
                   Posix.dirs := {[ "outputs" ]} |} in
  let blocked := {| Posix.files := {[ "outputs" := "" ]}; Posix.dirs := ∅ |} in
  Posix.files before !! "outputs/16fd2706-8baf-433b-82eb-8c7fada847da.json"
  = Some (json_dumps (Json.Dict [("tbr", Json.Float 1)]))
  /\ (exists w', Sampling.output_result json_dumps u (Json.Dict [("tbr", Json.Float 1.25)])
                   before = (inr tt, w')
        /\ Posix.files w' !! "outputs/16fd2706-8baf-433b-82eb-8c7fada847da.json"
           = Some (text "1.25"))
  /\ text "1.25" <> text "1.0"
  /\ Sampling.output_result json_dumps u (Json.Dict [("tbr", Json.Float 1.25)]) blocked
     = (inl (Posix.FileExistsError "outputs"), blocked).
Proof.
  cbv zeta. split; [vm_compute; reflexivity|]. split; [|split].
  - eexists. split.
    + apply output_result_saves.
      * reflexivity.
      * cbn [Posix.dirs]. intros H%elem_of_singleton. discriminate H.
      * vm_compute. reflexivity.
    + cbn [Posix.files]. rewrite lookup_insert_eq. f_equal.
  - vm_compute. discriminate.
  - apply (output_result_raises _ _ "").
    + reflexivity.
    + vm_compute. reflexivity.
    + apply not_elem_of_empty.
Qed.

(** * Task 14 (16): signs *)

(** The cells that [Optimisation] embeds, as they stand in the notebook: the
    stored value, [fx], the plotted list and the printed maximum each carry
    one negation. *)
Lemma optimisation_cells_negate :
  let cells := Py.statements Notebooks.nb_parameter_study_optimisation in
  nth_error cells 18
  = Some (Py.S_For (Py.E_Name "breeder_percent_in_breeder_plus_multiplier")
            (Py.E_Call (Py.E_Name "tqdm")
               [Py.E_Call (Py.E_Attribute (Py.E_Name "np") "linspace")
                  [Py.E_Int 0; Py.E_Int 100; Py.E_Int 101] []] [])
            [Py.S_Expr
               (Py.E_Call (Py.E_Attribute (Py.E_Name "tbr_values") "append")
                  [Py.E_Dict
                     [(Py.E_Str "breeder_percent_in_breeder_plus_multiplier",
                       Py.E_Name "breeder_percent_in_breeder_plus_multiplier");
                      (Py.E_Str "tbr",
                       Py.E_UnaryOp Py.USub
                         (Py.E_Call (Py.E_Name "objective")
                            [Py.E_List
                               [Py.E_Name "breeder_percent_in_breeder_plus_multiplier"]]
                            []))]] [])])
  /\ nth_error cells 26
     = Some (Py.S_Assign (Py.E_Name "x_data")
               (Py.E_Subscript (Py.E_Name "data")
                  (Py.E_Str "breeder_percent_in_breeder_plus_multiplier")))
  /\ nth_error cells 27
     = Some (Py.S_Assign (Py.E_Name "fx")
               (Py.E_UnaryOp Py.USub (Py.E_Subscript (Py.E_Name "data") (Py.E_Str "tbr"))))
  /\ (exists trace,
        nth_error cells 34
        = Some (Py.S_Expr (Py.E_Call (Py.E_Attribute (Py.E_Name "fig") "add_trace")
                             [Py.E_Call (Py.E_Attribute (Py.E_Name "go") "Scatter") [] trace]
                             []))
        /\ Py.keyword "x" trace = Some (Py.E_Name "x_data")
        /\ Py.keyword "y" trace
           = Some (Py.E_ListComp (Py.E_UnaryOp Py.USub (Py.E_Name "i"))
                     (Py.E_Name "i") (Py.E_Name "fx")))
  /\ nth_error cells 52
     = Some (Py.S_Expr
               (Py.E_Call (Py.E_Name "print")
                  [Py.E_Str "Maximum TBR = ";
                   Py.E_UnaryOp Py.USub (Py.E_Attribute (Py.E_Name "res") "fun")] [])).
Proof.
  cbv zeta. split; [reflexivity|]. split; [reflexivity|]. split; [reflexivity|].
  split; [|reflexivity].
  eexists. split; [reflexivity|]. split; reflexivity.
Qed.

Section TrueValueFacts.
Import Optimisation TrueValues.
#[local] Open Scope float_scope.

Lemma true_value_trace_columns (data : list tbr_value) :
  true_value_trace data
  = (map breeder_percent_in_breeder_plus_multiplier data, map tbr data).
Proof.
  unfold true_value_trace, fx, x_data.
  f_equal. rewrite !map_map. rewrite <- (map_id (map tbr data)).
  rewrite map_map. apply map_ext. intros v. apply float_opp_involutive.
Qed.

(** Each row read back is what the decoder makes of the two texts written
    for the entry of its grid point. *)
Lemma read_json_stored (objective : list float -> float) (float_repr : float -> string)
    (grid : list float) (data : list tbr_value) :
  read_json (stored objective float_repr grid) = Some data ->
  Forall2 (fun x v =>
             ReadJson.decode_numeric (float_repr x)
             = Some (breeder_percent_in_breeder_plus_multiplier v)
             /\ ReadJson.decode_numeric (float_repr (- objective [x])) = Some (tbr v))
          grid data.
Proof.
  revert data. induction grid as [|x grid IH]; intros data H.
  - injection H as <-. constructor.
  - unfold stored in H. cbn [get_true_values_1D map read_json] in H.
    cbn [fst snd breeder_percent_in_breeder_plus_multiplier tbr] in H.
    destruct (ReadJson.decode_numeric (float_repr x)) as [x'|] eqn:Hx;
      cbn [mbind option_bind] in H; [|discriminate H].
    destruct (ReadJson.decode_numeric (float_repr (- objective [x]))) as [t'|] eqn:Ht;
      cbn [mbind option_bind] in H; [|discriminate H].
    match type of H with context [read_json ?rows] =>
      destruct (read_json rows) as [rest|] eqn:Hrest end;
      cbn [mbind option_bind] in H; [|discriminate H].
    injection H as <-. constructor; [now split | now apply IH].
Qed.

Lemma read_json_exact (objective : list float -> float) (float_repr : float -> string)
    (grid : list float) :
  (forall x, In x grid ->
     ReadJson.decode_numeric (float_repr x) = Some x
     /\ ReadJson.decode_numeric (float_repr (- objective [x])) = Some (- objective [x])) ->
  read_json (stored objective float_repr grid) = Some (get_true_values_1D objective grid).
Proof.
  induction grid as [|x grid IH]; intros H; [reflexivity|].
  unfold stored. cbn [get_true_values_1D map read_json].
  cbn [fst snd breeder_percent_in_breeder_plus_multiplier tbr].
  destruct (H x (or_introl eq_refl)) as [-> ->]. cbn [mbind option_bind].
  change (read_json (stored objective float_repr grid) ≫= (fun data =>
            Some ({| breeder_percent_in_breeder_plus_multiplier := x;
                    tbr := - objective [x] |} :: data))
          = Some (get_true_values_1D objective (x :: grid))).
  rewrite IH by (intros y Hy; apply H; now right). reflexivity.
Qed.

End TrueValueFacts.

(** C10, amended.  The optimisation notebook negates an even number of times
    from the stored value to the plotted one.  The stored true value of a grid point
    [x] is [tbr = -objective([x])]; from the rows read back, the plot cell
    computes [fx = -tbr] and draws [-fx] against the breeder percentages,
    which is the [tbr] column as it was read, bit for bit; and the printed
    maximum TBR is [-res.fun].  Between the two stands the file: what is
    drawn for [x] is what the decoder of [pd.read_json] makes of the text
    that [json.dump] wrote for [-objective([x])], and it is the stored value
    itself wherever that decoder reads the text back exactly. *)
Theorem optimisation_negations_cancel_on_the_values_read_back :
  (forall (objective : list float -> float) (grid : list float),
      map Optimisation.tbr (Optimisation.get_true_values_1D objective grid)
      = map (fun x => (- objective [x])%float) grid)
  /\ (forall data : list Optimisation.tbr_value,
      Optimisation.fx data = map (fun v => (- Optimisation.tbr v)%float) data
      /\ Optimisation.true_value_trace data
         = (map Optimisation.breeder_percent_in_breeder_plus_multiplier data,
            map Optimisation.tbr data))
  /\ (forall (objective : list float -> float) (float_repr : float -> string)
        (grid : list float) (data : list Optimisation.tbr_value),
      TrueValues.read_json (TrueValues.stored objective float_repr grid) = Some data ->
      TrueValues.plotted objective float_repr grid
      = Some (map Optimisation.breeder_percent_in_breeder_plus_multiplier data,
              map Optimisation.tbr data)
      /\ Forall2 (fun x y => ReadJson.decode_numeric (float_repr x) = Some y)
           grid (map Optimisation.breeder_percent_in_breeder_plus_multiplier data)
      /\ Forall2 (fun x y =>
                    ReadJson.decode_numeric (float_repr (- objective [x])%float) = Some y)
           grid (map Optimisation.tbr data))
  /\ (forall (objective : list float -> float) (float_repr : float -> string)
        (grid : list float),
      (forall x, In x grid ->
         ReadJson.decode_numeric (float_repr x) = Some x
         /\ ReadJson.decode_numeric (float_repr (- objective [x])%float)
            = Some (- objective [x])%float) ->
      TrueValues.plotted objective float_repr grid
      = Some (grid, map (fun x => (- objective [x])%float) grid))
  /\ (forall res : Optimisation.OptimizeResult,
      Optimisation.print_maximum_tbr res
      = [PyNum.Text "Maximum TBR = "; PyNum.Number (- Optimisation.fun_ res)%float]).
Proof.
  split; [|split; [|split; [|split]]].
  - intros objective grid. unfold Optimisation.get_true_values_1D.
    rewrite map_map. reflexivity.
  - intros data. split.
    + unfold Optimisation.fx. apply map_map.
    + apply true_value_trace_columns.
  - intros objective float_repr grid data Hread. split; [|split].
    + unfold TrueValues.plotted. rewrite Hread. cbn [fmap option_fmap option_map].
      now rewrite true_value_trace_columns.
    + apply read_json_stored in Hread.
      induction Hread as [|x v grid data [Hx _] _ IH]; constructor; assumption.
    + apply read_json_stored in Hread.
      induction Hread as [|x v grid data [_ Ht] _ IH]; constructor; assumption.
  - intros objective float_repr grid Hexact.
    unfold TrueValues.plotted. rewrite (read_json_exact objective float_repr grid Hexact).
    cbn [fmap option_fmap option_map]. rewrite true_value_trace_columns.
    unfold Optimisation.get_true_values_1D. rewrite !map_map. cbn.
    now rewrite map_id.
  - reflexivity.
Qed.

(** C10, as the claim states it, fails on a true value of one third: it is
    stored as [0.3333333333333333], the shortest decimal that Python reads as that
    number, and is drawn as [0.33333333333333304], five units in the last
    place below it: the decoder keeps fifteen decimals and multiplies them by
    its power of ten. *)
Lemma a_third_is_not_plotted_as_stored :
  let third := (1 / 3)%float in
  let objective := fun _ : list float => (- third)%float in
  let float_repr := fun x : float =>
    if (x =? third)%float then "0.3333333333333333" else "0.0" in
  ReadJson.decimal_to_float 3333333333333333 16 third = Some Lt
  /\ (forall digits : Z, ReadJson.decimal_to_float digits 15 third = Some Gt)
  /\ map Optimisation.tbr (Optimisation.get_true_values_1D objective [0%float]) = [third]
  /\ TrueValues.plotted objective float_repr [0%float]
     = Some ([0%float], [0.33333333333333304%float])
  /\ (0.33333333333333304 <? third)%float = true.
Proof.
  cbv zeta. split; [vm_compute; reflexivity|]. split; [|split; [|split]].
  - intros digits. unfold ReadJson.decimal_to_float.
    change (Prim2SF (1 / 3)%float) with (S754_finite false 6004799503160661 (-54)).
    cbv iota beta. change (Z.pos 6004799503160661 =? 2 ^ 52)%Z with false.
    change (-54 <? 0)%Z with true. cbv iota. f_equal.
    change (2 ^ (- (-54)))%Z with 18014398509481984%Z.
    change (10 ^ Z.of_nat 15)%Z with 1000000000000000%Z.
    apply Z.compare_gt_iff. lia.
  - vm_compute. reflexivity.
  - vm_compute. reflexivity.
  - vm_compute. reflexivity.
Qed.

(** * The notebooks' own code *)

Section NotebookFacts.
Import Py Notebooks Analysis.

(** A boolean check that holds of every element of a list holds of each. *)
Lemma checked_all {A} (p : A -> bool) (l : list A) :
  forallb p l = true -> forall a, In a l -> p a = true.
Proof. intros H a Ha. exact (proj1 (forallb_forall p l) H a Ha). Qed.

Lemma negb_checked (b : bool) : negb b = true -> b = false.
Proof. now destruct b. Qed.

Lemma no_failure_handling_checked : forallb no_failure_handling notebooks = true.
Proof. vm_compute. reflexivity. Qed.

End NotebookFacts.

(** C4.  No notebook reacts to a failure: none of its statements, at any
    depth, is a [try], a [while], an [if], an [assert] or a [raise], and none
    of its expressions is conditional.  An exception raised inside a call
    therefore leaves the cell as it was raised; for the notebooks' own file
    helper [output_result]: what [Path.mkdir] raises is what the call raises. *)
Theorem notebooks_do_not_handle_failures :
  (forall nb : Py.notebook, In nb Notebooks.notebooks ->
     (forall s, In s (Py.all_statements nb) -> Analysis.handles_failure s = false)
     /\ (forall e, In e (Py.all_exprs nb) -> Analysis.is_conditional e = false))
  /\ (forall json_dumps uuid4 content result (w : Posix.filesystem),
        Sampling.uuid_text uuid4 = true ->
        Posix.files w !! "outputs" = Some content ->
        "outputs" ∉ Posix.dirs w ->
        Sampling.output_result json_dumps uuid4 result w
        = (inl (Posix.FileExistsError "outputs"), w)).
Proof.
  split.
  - intros nb Hnb.
    pose proof (checked_all _ _ no_failure_handling_checked nb Hnb) as H.
    apply andb_true_iff in H as [Hs He]. split.
    + intros s Hin. apply negb_checked. exact (checked_all _ _ Hs s Hin).
    + intros e Hin. apply negb_checked. exact (checked_all _ _ He e Hin).
  - exact output_result_raises.
Qed.

Lemma notebooks_do_not_handle_failures_witness :
  Analysis.handles_failure (Py.S_Shell "rm *.h5") = false
  /\ Sampling.output_result (fun _ => "{}") "16fd2706-8baf-433b-82eb-8c7fada847da"
       Json.Null {| Posix.files := {[ "outputs" := "not a directory" ]}; Posix.dirs := ∅ |}
     = (inl (Posix.FileExistsError "outputs"),
        {| Posix.files := {[ "outputs" := "not a directory" ]}; Posix.dirs := ∅ |}).
Proof.
  split.
  - apply (proj1 (proj1 notebooks_do_not_handle_failures Notebooks.nb_find_dpa
                    ltac:(right; right; left; reflexivity))).
    apply (nth_error_In _ 34). reflexivity.
  - apply (proj2 notebooks_do_not_handle_failures _ _ "not a directory").
    + reflexivity.
    + vm_compute. reflexivity.
    + apply not_elem_of_empty.
Defined.

(** ** Arithmetic of the notebooks' own *)

Section ArithmeticFacts.
Import Py Notebooks Analysis Expected.

Lemma glue_only_checked : forallb glue_only notebooks = true.
Proof. vm_compute. reflexivity. Qed.

Lemma mem_In (x : string) (l : list string) : mem x l = true -> In x l.
Proof.
  unfold mem. intros H. apply existsb_exists in H as (y & Hy & Heq).
  apply String.eqb_eq in Heq. now subst.
Qed.

Lemma find_dpa_arithmetic_found : result_arithmetic nb_find_dpa = find_dpa_arithmetic.
Proof. vm_compute. reflexivity. Qed.

Lemma mesh_3d_arithmetic_found :
  result_arithmetic nb_example_3d_mesh_tallies = mesh_3d_arithmetic.
Proof. vm_compute. reflexivity. Qed.

Lemma optimisation_arithmetic_found :
  result_arithmetic nb_parameter_study_optimisation = optimisation_arithmetic.
Proof. vm_compute. reflexivity. Qed.

Lemma result_arithmetic_elsewhere (nb : notebook) :
  In nb notebooks ->
  nb = nb_find_dpa \/ nb = nb_example_3d_mesh_tallies
  \/ nb = nb_parameter_study_optimisation \/ result_arithmetic nb = [].
Proof.
  intros H.
  each_notebook H
    ltac:(first [ left; reflexivity
                | right; left; reflexivity
                | right; right; left; reflexivity
                | right; right; right; vm_compute; reflexivity ]).
Qed.

Lemma result_computations_elsewhere (nb : notebook) :
  In nb notebooks ->
  nb = nb_find_dpa \/ nb = nb_tritium_breeding_ratio
  \/ nb = nb_simulate_CAD_cell_tally_heat \/ nb = nb_parameter_study_optimisation
  \/ result_computations nb = [].
Proof.
  intros H.
  each_notebook H
    ltac:(first [ left; reflexivity
                | right; left; reflexivity
                | right; right; left; reflexivity
                | right; right; right; left; reflexivity
                | right; right; right; right; vm_compute; reflexivity ]).
Qed.

Lemma results_are_handled_checked : forallb results_are_handled notebooks = true.
Proof. vm_compute. reflexivity. Qed.

End ArithmeticFacts.




(** ** Attributes *)

Section AttributeFacts.
Import Py Notebooks Analysis Expected.

Lemma attribute_values_checked :
  forallb (fun nb => forallb (attribute_value_ok (surfaces nb)) (attribute_assignments nb))
          notebooks = true.
Proof. vm_compute. reflexivity. Qed.

Lemma arithmetic_attributes_elsewhere (nb : notebook) :
  In nb notebooks ->
  nb = nb_transmutation_isotope_build_up
  \/ forallb (fun a => negb (set_from_arithmetic (surfaces nb) a))
             (attribute_assignments nb) = true.
Proof.
  intros H.
  each_notebook H ltac:(first [left; reflexivity | right; vm_compute; reflexivity]).
Qed.

Lemma generated_values_elsewhere (nb : notebook) :
  In nb notebooks ->
  nb = nb_parameter_study_optimisation \/ nb = nb_neutron_energy_spectra
  \/ nb = nb_sampling_parameter_space \/ generated_values nb = [].
Proof.
  intros H.
  each_notebook H
    ltac:(first [ left; reflexivity
                | right; left; reflexivity
                | right; right; left; reflexivity
                | right; right; right; vm_compute; reflexivity ]).
Qed.

Lemma population_calls_checked :
  forallb (fun nb => forallb (population_call_ok (surfaces nb)) (populations nb))
          notebooks = true.
Proof. vm_compute. reflexivity. Qed.

Lemma filled_plainly_checked : forallb filled_plainly notebooks = true.
Proof. vm_compute. reflexivity. Qed.

Lemma generated_uses_cover (nb : notebook) :
  In nb notebooks -> length (generated_uses nb) = length (generated_values nb).
Proof. intros H. each_notebook H ltac:(vm_compute; reflexivity). Qed.

End AttributeFacts.




(** ** The run sequence *)

Section RunSequenceFacts.
Import Py Notebooks OpenMC Expected.

Lemma each_notebook_with_model_run (P : notebook -> Prop) :
  P nb_find_dpa -> P nb_example_2d_mesh_tallies -> P nb_photon_energy_spectra ->
  P nb_example_3d_mesh_tallies -> P nb_simulate_CAD_cell_tally_heat ->
  P nb_tritium_breeding_ratio -> P nb_neutron_energy_spectra ->
  forall nb, In nb notebooks_with_model_run -> P nb.
Proof.
  intros H1 H2 H3 H4 H5 H6 H7 nb H.
  cbv delta [notebooks_with_model_run] in H. cbn [In] in H.
  repeat (destruct H as [<- | H]; [assumption | ]). contradiction.
Qed.

Lemma launches_found (nb : notebook) :
  In nb notebooks -> In nb notebooks_that_simulate \/ launches nb = [].
Proof.
  intros H.
  each_notebook H
    ltac:(first [ right; vm_compute; reflexivity
                | left; cbv delta [notebooks_that_simulate notebooks_with_model_run];
                  cbn [In app]; tauto ]).
Qed.

Lemma model_runs_found (nb : notebook) :
  In nb notebooks -> In nb notebooks_with_model_run \/ run_sequence_of nb = None.
Proof.
  intros H.
  each_notebook H
    ltac:(first [ right; vm_compute; reflexivity
                | left; cbv delta [notebooks_with_model_run]; cbn [In]; tauto ]).
Qed.

End RunSequenceFacts.




(** ** Depletion *)

(** C6.  Run against the interface of [openmc.deplete] from a working
    directory without files, the depletion notebook binds [integrator] to a
    [PredictorIntegrator] on an [Operator] -- itself constructed on the model
    and on the chain file [chain-nndc-b7.1.xml] -- and on a schedule of ten
    time steps of one year with a source rate of 1e9 for the first five and
    of 0 for the last five.  Up to there no file is written; the next
    statement is [integrator.integrate()], and after it the directory holds
    [depletion_results.h5], written by that integrator.  The notebook then
    reads this file with [ResultsList.from_hdf5] and takes the atom counts of
    Co60 in the material from what it read.  Without the call of
    [integrate()] the read fails, the file not being there. *)
Theorem depletion_notebook_runs_operator_schedule_and_reads_results :
  let nb := Notebooks.nb_transmutation_isotope_build_up in
  let chain := "/tasks/task_14_activation_transmutation_depletion/chain-nndc-b7.1.xml" in
  let schedule := Deplete.VList (replicate 10 (Deplete.VInt Expected.year)) in
  let rates := Deplete.VList (replicate 5 (Deplete.VFloat 1e9)
                              ++ replicate 5 (Deplete.VInt 0)) in
  let integrator := Deplete.Integrator "PredictorIntegrator"
                      (Deplete.Operator "model" chain) schedule rates in
  let results := Deplete.Results "depletion_results.h5" integrator in
  let atoms := Deplete.Atoms results "my_material" "Co60" in
  Deplete.observe ["integrator"] <$> Deplete.run_statements (firstn 41 (Py.statements nb))
  = Some ([], [Some integrator])
  /\ nth_error (Py.statements nb) 41
     = Some (Py.S_Expr (Py.E_Call (Py.E_Attribute (Py.E_Name "integrator") "integrate") [] []))
  /\ Deplete.observe [] <$> Deplete.run_statements (firstn 42 (Py.statements nb))
     = Some ([("depletion_results.h5", integrator)], [])
  /\ Deplete.observe ["results"; "times"; "number_of_co60_atoms"] <$> Deplete.run nb
     = Some ([("depletion_results.h5", integrator)], [Some results; Some atoms; Some atoms])
  /\ Deplete.run_statements (Deplete.without_calls_of "integrate" (Py.statements nb)) = None
  /\ Py.ends_with ".xml" chain = true
  /\ Py.ends_with ".h5" Deplete.depletion_results = true
  /\ Deplete.depletion_run_of nb
     = Some {| Deplete.chain_file := chain;
               Deplete.timesteps := schedule;
               Deplete.source_rates := rates;
               Deplete.results_file := "depletion_results.h5";
               Deplete.reads_back := ["get_atoms"] |}.
Proof.
  cbv zeta. repeat split; vm_compute; reflexivity.
Qed.

(** ** CAD shapes *)

(** C7.  Run against paramak's interface, the CAD notebook constructs six
    shapes, each from four 2D points and a rotation or an extrusion; the last
    one is an extrusion from which another shape is cut.  It exports that
    shape to a STEP file and to an STL file, and converts the STL file to the
    DAGMC file [dagmc.h5m]. *)
Theorem cad_notebook_constructs_cuts_and_exports :
  exists st : Paramak.state,
    Paramak.run Notebooks.nb_parametric_shape = Some st
    /\ Paramak.constructed st
       = [ Paramak.Shape Expected.square_50_100 Paramak.Straight (Paramak.Rotate 180) None;
           Paramak.Shape Expected.square_50_100 Paramak.Spline (Paramak.Rotate 180) None;
           Paramak.Shape Expected.square_50_100 Paramak.Straight (Paramak.Extrude 20) None;
           Paramak.Shape Expected.square_50_100 Paramak.Spline (Paramak.Extrude 20) None;
           Expected.small_Shape;
           Expected.my_shape ]
    /\ Paramak.variables st !! "small_Shape" = Some Expected.small_Shape
    /\ Paramak.variables st !! "my_shape"
       = Some (Paramak.Shape Expected.square_50_100 Paramak.Straight (Paramak.Extrude 20)
                 (Some Expected.small_Shape))
    /\ Paramak.files st !! "example_shape.stp" = Some (Paramak.STEP Expected.my_shape)
    /\ Paramak.files st !! "example_shape.stl" = Some (Paramak.STL Expected.my_shape)
    /\ Paramak.files st !! "dagmc.h5m" = Some (Paramak.H5M [(Expected.my_shape, "mat1")])
    /\ size (Paramak.files st) = 3%nat.
Proof.
  destruct (Paramak.run Notebooks.nb_parametric_shape) as [st|] eqn:Hrun;
    [|vm_compute in Hrun; discriminate Hrun].
  exists st. split; [reflexivity|].
  assert (Hst : Some st = Paramak.run Notebooks.nb_parametric_shape) by now rewrite Hrun.
  clear Hrun.
  repeat split.
  all: apply (f_equal (fun o => match o with Some s => Some s | None => None end)) in Hst.
  all: vm_compute in Hst; injection Hst as ->; vm_compute; reflexivity.
Qed.

(** * Saving results: what a call can change *)

(** X1.  For a relative path without [..] components, and whatever the state
    of the file system, a call of [output_result(filepath, result)] removes
    no directory and changes no file other than the one it is asked to
    write.  When [mkdir] or [open] raises, no file has changed at all; when
    the call returns, the file holds the JSON text of [result]. *)
Theorem output_result_changes_only_its_file (json_dumps : Json.value -> string)
    (filepath : string) (result : Json.value) (w : Posix.filesystem) :
  OptimisationFiles.plain_relative filepath = true ->
  let r := OptimisationFiles.output_result json_dumps filepath result w in
  Posix.dirs w ⊆ Posix.dirs r.2
  /\ (forall p, p <> Posix.str (Posix.Path filepath) ->
        Posix.files r.2 !! p = Posix.files w !! p)
  /\ match r.1 with
     | inl _ => Posix.files r.2 = Posix.files w
     | inr _ =>
         Posix.files r.2 !! Posix.str (Posix.Path filepath) = Some (json_dumps result)
     end.
Proof. intros _. apply output_result_frame. Qed.

Lemma output_result_changes_only_its_file_witness :
  let w := {| Posix.files := {[ "outputs" := "not a directory" ]}; Posix.dirs := ∅ |} in
  let r := OptimisationFiles.output_result (fun _ => "[]") "outputs/2d_tbr_values.json"
             (Json.List []) w in
  Posix.dirs w ⊆ Posix.dirs r.2
  /\ (forall p, p <> Posix.str (Posix.Path "outputs/2d_tbr_values.json") ->
        Posix.files r.2 !! p = Posix.files w !! p)
  /\ match r.1 with
     | inl _ => Posix.files r.2 = Posix.files w
     | inr _ =>
         Posix.files r.2 !! Posix.str (Posix.Path "outputs/2d_tbr_values.json")
         = Some "[]"
     end.
Proof.
  apply (output_result_changes_only_its_file (fun _ => "[]")
           "outputs/2d_tbr_values.json" (Json.List [])).
  reflexivity.
Defined.

Section OutputsFacts.
Import Posix OptimisationFiles.

Lemma file_name_parts (name : string) :
  file_name name = true ->
  no_slash name = true /\ real_component name = true /\ name <> "..".
Proof.
  unfold file_name. intros [[H1 H2]%andb_true_iff H3]%andb_true_iff.
  repeat split; [assumption..|]. intros ->. discriminate H3.
Qed.

Lemma Path_in_outputs (name : string) :
  file_name name = true ->
  Path ("outputs/" +:+ name) = {| absolute := false; parts := ["outputs"; name] |}.
Proof.
  intros (Hs & Hr & _)%file_name_parts. unfold Path. simpl.
  change ("" +:+ name) with name.
  rewrite (split_on_slash_no_slash name Hs). simpl. rewrite Hr. reflexivity.
Qed.

Lemma Path_file_name (name : string) :
  file_name name = true -> Path name = {| absolute := false; parts := [name] |}.
Proof.
  intros (Hs & Hr & _)%file_name_parts. unfold Path.
  rewrite (split_on_slash_no_slash name Hs). simpl. rewrite Hr.
  destruct name as [|c name]; [reflexivity|].
  simpl in Hs. apply andb_true_iff in Hs as [Hc _]. apply negb_true_iff in Hc.
  now rewrite Hc.
Qed.

Lemma str_in_outputs (name : string) :
  str {| absolute := false; parts := ["outputs"; name] |} = "outputs/" +:+ name.
Proof. reflexivity. Qed.

Lemma in_outputs_not_outputs (name : string) : "outputs/" +:+ name <> "outputs".
Proof. simpl. discriminate. Qed.

Lemma file_name_is_plain (name : string) :
  file_name name = true ->
  String.eqb name "" || String.eqb name "." || String.eqb name ".." = false.
Proof.
  intros (_ & Hr & Hdd)%file_name_parts.
  unfold real_component in Hr. apply andb_true_iff in Hr as [H1 H2].
  apply negb_true_iff in H1, H2. rewrite H1, H2. cbn [orb].
  now apply String.eqb_neq.
Qed.

Lemma in_outputs_names_a_file (name : string) :
  file_name name = true ->
  String.eqb ("outputs/" +:+ name) "" = false
  /\ names_directory ("outputs/" +:+ name) = false.
Proof.
  intros Hname. split; [reflexivity|]. unfold names_directory. cbv zeta.
  rewrite last_component_in_outputs by now apply file_name_parts.
  now apply file_name_is_plain.
Qed.

Lemma file_name_names_a_file (name : string) :
  file_name name = true ->
  String.eqb name "" = false /\ names_directory name = false.
Proof.
  intros Hname. pose proof (file_name_is_plain name Hname) as H.
  split.
  - now apply orb_false_iff in H as [[H _]%orb_false_iff _].
  - unfold names_directory, last_component. cbv zeta.
    rewrite split_on_slash_no_slash by now apply file_name_parts.
    exact H.
Qed.

(** One call that names a file in [outputs]. *)
Lemma output_result_in_outputs (json_dumps : Json.value -> string) (name : string)
    (result : Json.value) (w : filesystem) :
  file_name name = true ->
  files w !! "outputs" = None ->
  "outputs/" +:+ name ∉ dirs w ->
  output_result json_dumps ("outputs/" +:+ name) result w =
  (inr tt, {| files := <[ "outputs/" +:+ name := json_dumps result ]> (files w);
              dirs := {[ "outputs" ]} ∪ dirs w |}).
Proof.
  intros Hname Hout Hnodir.
  destruct (in_outputs_names_a_file name Hname) as [Hne Hfile].
  unfold output_result. cbv zeta. rewrite (Path_in_outputs name Hname).
  change (parent {| absolute := false; parts := ["outputs"; name] |}) with outputs_dir.
  unfold mbind at 1. unfold IO_bind at 1. rewrite (mkdir_outputs w Hout).
  set (w1 := {| files := files w; dirs := {[ "outputs" ]} ∪ dirs w |}).
  unfold mbind at 1. unfold IO_bind at 1.
  rewrite (open_w_creates ("outputs/" +:+ name) w1 Hne Hfile);
    rewrite ?(Path_in_outputs name Hname);
    change (parent {| absolute := false; parts := ["outputs"; name] |}) with outputs_dir.
  - rewrite str_in_outputs. unfold write, mbind, IO_bind, get, put.
    rewrite str_in_outputs. cbn [files dirs].
    rewrite lookup_insert_eq. cbn [default]. rewrite insert_insert_eq. reflexivity.
  - unfold is_dir. cbn [parts]. rewrite str_in_outputs.
    apply bool_decide_eq_false_2.
    subst w1; simpl; pose proof (in_outputs_not_outputs name); set_solver.
  - apply (is_file_outputs w1 Hout).
  - unfold is_dir. change (parts outputs_dir) with ["outputs"]. cbv iota.
    rewrite str_outputs_dir. apply bool_decide_eq_true_2. subst w1; simpl; set_solver.
Qed.

Lemma mkdir_here (w : filesystem) :
  mkdir_parents_exist_ok {| absolute := false; parts := [] |} w = (inr tt, w).
Proof. reflexivity. Qed.

End OutputsFacts.





(** * Making the directories of a path *)

Section MkdirFacts.
Import Posix OptimisationFiles.

Lemma ancestor_parent (k : nat) (p : PurePath) :
  ancestor k (parent p) = ancestor (S k) p.
Proof. unfold ancestor. now rewrite Nat.iter_succ_r. Qed.

Lemma is_file_same_files (w w' : filesystem) (p : PurePath) :
  files w' = files w -> is_file w' p = is_file w p.
Proof. intros H. unfold is_file. now rewrite H. Qed.

Lemma is_dir_mono (w w' : filesystem) (p : PurePath) :
  dirs w ⊆ dirs w' -> is_dir w p = true -> is_dir w' p = true.
Proof.
  unfold is_dir. destruct (parts p); [reflexivity|].
  intros Hsub H%bool_decide_eq_true_1. apply bool_decide_eq_true_2. set_solver.
Qed.

Lemma is_dir_empty_parts (w : filesystem) (p : PurePath) :
  parts p = [] -> is_dir w (parent p) = true.
Proof. intros H. unfold is_dir, parent. cbn [parts]. now rewrite H. Qed.

(** What [mkdir_exist_ok] does to a path whose parent is a directory. *)
Lemma mkdir_exist_ok_in_directory (p : PurePath) (w : filesystem) :
  is_file w (parent p) = false -> is_dir w (parent p) = true -> is_file w p = false ->
  exists w', mkdir_exist_ok p w = (inr tt, w')
    /\ files w' = files w /\ is_dir w' p = true /\ dirs w ⊆ dirs w'
    /\ (forall d, d ∈ dirs w' -> d ∈ dirs w \/ (d = str p /\ parts p <> [])).
Proof.
  intros Hfp Hdp Hf. unfold mkdir_exist_ok, catch, os_mkdir, mbind, IO_bind, get, raise, put.
  rewrite Hfp, Hdp, Hf, orb_false_r. cbn [negb].
  destruct (is_dir w p) eqn:Hd.
  - unfold mret, IO_ret. rewrite Hd. exists w. repeat split; [assumption | set_solver | auto].
  - eexists. split; [reflexivity|]. cbn [files dirs].
    assert (Hne : parts p <> []).
    { intros H. unfold is_dir in Hd. rewrite H in Hd. discriminate Hd. }
    repeat split.
    + unfold is_dir. destruct (parts p); [reflexivity|]. cbn [dirs].
      apply bool_decide_eq_true_2. set_solver.
    + set_solver.
    + intros d [->%elem_of_singleton | Hin]%elem_of_union; auto.
Qed.

(** [mkdir(parents=True, exist_ok=True)] on a path none of whose ancestors,
    nor the path itself, is a regular file: it returns, and the directory is
    there; the directories it has made are ancestors of the path. *)
Lemma mkdir_parents_rec_makes (n : nat) (p : PurePath) (w : filesystem) :
  (length (parts p) <= n)%nat ->
  (forall k, is_file w (ancestor k p) = false) ->
  exists w', mkdir_parents_exist_ok_rec n p w = (inr tt, w')
    /\ files w' = files w /\ is_dir w' p = true /\ dirs w ⊆ dirs w'
    /\ (forall d, d ∈ dirs w' ->
          d ∈ dirs w \/ exists k, d = str (ancestor k p) /\ parts (ancestor k p) <> []).
Proof.
  revert p w. induction n as [|n IH]; intros p w Hlen Hfiles.
  - assert (Hparts : parts p = []) by (destruct (parts p); [reflexivity | cbn in Hlen; lia]).
    cbn [mkdir_parents_exist_ok_rec].
    unfold catch, os_mkdir, mbind, IO_bind, get, raise.
    rewrite (Hfiles 1%nat : is_file w (parent p) = false).
    rewrite (is_dir_empty_parts w p Hparts). cbn [negb].
    assert (Hd : is_dir w p = true) by (unfold is_dir; now rewrite Hparts).
    rewrite Hd. cbn [orb]. unfold mret, IO_ret. rewrite Hd.
    exists w. repeat split; [assumption | set_solver | auto].
  - cbn [mkdir_parents_exist_ok_rec].
    pose proof (Hfiles 1%nat : is_file w (parent p) = false) as Hfp.
    pose proof (Hfiles 0%nat : is_file w p = false) as Hf.
    destruct (is_dir w (parent p)) eqn:Hdp.
    + (* the parent is there: one [os.mkdir] *)
      destruct (mkdir_exist_ok_in_directory p w Hfp Hdp Hf)
        as (w' & Hrun & Hfs & Hd & Hsub & Hnew).
      exists w'. split; [|repeat split; try assumption].
      * revert Hrun. unfold mkdir_exist_ok, catch.
        destruct (os_mkdir p w) as [[e|[]] w1] eqn:Hos; [|auto].
        destruct e; auto.
        exfalso. revert Hos. unfold os_mkdir, mbind, IO_bind, get, raise, put.
        rewrite Hfp, Hdp. cbn [negb]. destruct (is_dir w p || is_file w p); discriminate.
      * intros d Hin. destruct (Hnew d Hin) as [H | [-> Hne]]; [now left|].
        right. now exists 0%nat.
    + (* the parent is missing: make it first *)
      assert (Hos : os_mkdir p w = (inl (FileNotFoundError (str p)), w)).
      { unfold os_mkdir, mbind, IO_bind, get, raise. now rewrite Hfp, Hdp. }
      unfold catch. rewrite Hos.
      destruct (parts p) as [|c l] eqn:Hparts.
      { rewrite (is_dir_empty_parts w p Hparts) in Hdp. discriminate Hdp. }
      destruct (IH (parent p) w) as (w1 & Hrun1 & Hfs1 & Hd1 & Hsub1 & Hnew1).
      { cbn [parent parts]. rewrite Hparts.
        assert (length (removelast (c :: l)) = length l) as ->.
        { clear. revert c. induction l as [|a l IHl]; intros c; [reflexivity|].
          change (removelast (c :: a :: l)) with (c :: removelast (a :: l)).
          cbn [length]. now rewrite IHl. }
        cbn [length] in Hlen. lia. }
      { intros k. rewrite ancestor_parent. apply Hfiles. }
      unfold mbind at 1. unfold IO_bind at 1. rewrite Hrun1.
      destruct (mkdir_exist_ok_in_directory p w1) as (w' & Hrun & Hfs & Hd & Hsub & Hnew).
      { now rewrite (is_file_same_files w w1 _ Hfs1). }
      { exact Hd1. }
      { now rewrite (is_file_same_files w w1 _ Hfs1). }
      exists w'. split; [exact Hrun|]. repeat split.
      * congruence.
      * exact Hd.
      * set_solver.
      * intros d Hin. destruct (Hnew d Hin) as [H | [-> Hne]].
        -- destruct (Hnew1 d H) as [H1 | (k & -> & Hk)]; [now left|].
           right. exists (S k). now rewrite <- ancestor_parent.
        -- right. now exists 0%nat.
Qed.

Lemma removelast_shorter (a b : string) (l : list string) :
  (String.length (join_slash (removelast (a :: b :: l))) + 1
   <= String.length (join_slash (a :: b :: l)))%nat.
Proof.
  revert a b. induction l as [|c l IH]; intros a b.
  - cbn [removelast join_slash]. rewrite !string_length_append. cbn. lia.
  - change (removelast (a :: b :: c :: l)) with (a :: removelast (b :: c :: l)).
    specialize (IH b c).
    destruct (removelast (b :: c :: l)) as [|b' l'] eqn:E.
    + cbn [join_slash] in *. rewrite !string_length_append. cbn. lia.
    + change (join_slash (a :: b' :: l')) with (a +:+ "/" +:+ join_slash (b' :: l')).
      change (join_slash (a :: b :: c :: l))
        with (a +:+ "/" +:+ join_slash (b :: c :: l)).
      rewrite !string_length_append. lia.
Qed.

Lemma parts_ancestor (k : nat) (p : PurePath) :
  parts (ancestor k p) = Nat.iter k (@removelast string) (parts p)
  /\ absolute (ancestor k p) = absolute p.
Proof.
  induction k as [|k [IH1 IH2]]; [split; reflexivity|].
  unfold ancestor in *. rewrite !Nat.iter_succ. cbn [parent parts absolute].
  now rewrite IH1, IH2.
Qed.

Lemma ancestors_shorter (k : nat) (l : list string) :
  Nat.iter k (@removelast string) l <> [] ->
  (String.length (join_slash (Nat.iter k (@removelast string) l)) + k
   <= String.length (join_slash l))%nat.
Proof.
  induction k as [|k IH]; [cbn; lia|]. rewrite !Nat.iter_succ. intros Hne.
  destruct (Nat.iter k (@removelast string) l) as [|a [|b l']] eqn:E;
    [now contradict Hne | now contradict Hne |].
  pose proof (removelast_shorter a b l').
  assert (a :: b :: l' <> []) as H0 by discriminate. specialize (IH H0). lia.
Qed.

(** A proper ancestor of a relative path is not the path. *)
Lemma str_ancestor_ne (k : nat) (p : PurePath) :
  absolute p = false -> parts (ancestor (S k) p) <> [] ->
  str (ancestor (S k) p) <> str p.
Proof.
  intros Hrel Hne Heq.
  destruct (parts_ancestor (S k) p) as [Hparts Habs].
  assert (Hp : parts p <> []).
  { intros H. rewrite Hparts, H in Hne. apply Hne. clear.
    induction (S k) as [|j IH]; [reflexivity|]. rewrite Nat.iter_succ. now rewrite IH. }
  revert Heq. unfold str. rewrite Habs, Hrel.
  destruct (parts (ancestor (S k) p)) as [|a l] eqn:Ea; [now contradict Hne|].
  destruct (parts p) as [|b l'] eqn:Eb; [now contradict Hp|].
  change ("" +:+ ?s) with s. intros Heq.
  pose proof (ancestors_shorter (S k) (b :: l')) as Hlen.
  rewrite <- Hparts in Hlen. rewrite Heq in Hlen.
  specialize (Hlen ltac:(discriminate)). lia.
Qed.

End MkdirFacts.



(** * The sampling loops *)

Section DictFacts.
Import PyDict.

Lemma getitem_setitem_eq {V} (k : string) (v : V) (d : list (string * V)) :
  getitem k (setitem k v d) = Some v.
Proof.
  unfold getitem. induction d as [|[k' v'] d IH]; simpl.
  - now rewrite String.eqb_refl.
  - destruct (String.eqb k' k) eqn:E; simpl.
    + now rewrite String.eqb_refl.
    + now rewrite E.
Qed.

Lemma getitem_setitem_ne {V} (k k' : string) (v : V) (d : list (string * V)) :
  k <> k' -> getitem k' (setitem k v d) = getitem k' d.
Proof.
  intros Hne. unfold getitem. induction d as [|[k0 v0] d IH]; simpl.
  - apply String.eqb_neq in Hne. now rewrite Hne.
  - destruct (String.eqb k0 k) eqn:E; simpl.
    + apply String.eqb_eq in E. subst k0.
      apply String.eqb_neq in Hne. now rewrite Hne.
    + destruct (String.eqb k0 k'); [reflexivity | exact IH].
Qed.

End DictFacts.

Section SamplingRunFacts.
Import Posix SamplingRuns.

Variable find_tbr_hcpb : Json.value -> Json.value -> Run (list (string * Json.value)).
Variable json_dumps : Json.value -> string.

Lemma filename_under_outputs (u : string) : under_outputs (Sampling.filename u) = true.
Proof. reflexivity. Qed.

(** A pass over a coordinate with two entries or more: the helper's call,
    then the save of what it returned. *)
Lemma sample_once_run (sample uuid4 : string) (a b : Json.value)
    (coord : list Json.value) (w : filesystem) :
  sample_once find_tbr_hcpb json_dumps sample uuid4 (a :: b :: coord) w
  = match find_tbr_hcpb a b w with
    | (inl e, w0) => (inl e, w0)
    | (inr returned, w0) =>
        lift (Sampling.output_result json_dumps uuid4
                (Json.Dict (PyDict.setitem "sample" (Json.Str sample) returned))) w0
    end.
Proof. reflexivity. Qed.

(** One pass where the helper returns and keeps out of [outputs]. *)
Lemma sample_once_saves (sample uuid4 : string) (a b : Json.value)
    (coord : list Json.value) (w : filesystem) :
  keeps_out_of_outputs find_tbr_hcpb ->
  always_returns find_tbr_hcpb ->
  Sampling.uuid_text uuid4 = true ->
  Sampling.filename uuid4 ∉ dirs w ->
  files w !! "outputs" = None ->
  exists returned w0,
    find_tbr_hcpb a b w = (inr returned, w0)
    /\ sample_once find_tbr_hcpb json_dumps sample uuid4 (a :: b :: coord) w
       = (inr tt,
          {| files := <[ Sampling.filename uuid4 :=
                           json_dumps (Json.Dict (PyDict.setitem "sample" (Json.Str sample)
                                                    returned)) ]> (files w0);
             dirs := {[ "outputs" ]} ∪ dirs w0 |}).
Proof.
  intros Hkeeps Hreturns Hu Hnodir Hout.
  destruct (Hreturns a b w) as (returned & Hret).
  destruct (Hkeeps a b w "outputs" eq_refl) as [Hf _].
  destruct (Hkeeps a b w (Sampling.filename uuid4) (filename_under_outputs uuid4))
    as [_ Hd].
  rewrite sample_once_run.
  destruct (find_tbr_hcpb a b w) as [r w0]. cbn [fst snd] in *. subst r.
  exists returned, w0. split; [reflexivity|].
  unfold lift. rewrite output_result_saves; [reflexivity | exact Hu | | ].
  - intros Hin. apply Hnodir. now apply Hd.
  - now rewrite Hf.
Qed.

End SamplingRunFacts.

(** X5.  A sampling loop whose helper keeps out of [outputs] and returns at
    every call, and whose passes draw pairwise distinct identifiers, returns
    and leaves one file per pass.  The file of a pass holds the dictionary
    that a call of [find_tbr_hcpb] on the two coordinates of the pass
    returned, with the key ["sample"] set to the name of the loop,
    whatever the helper had put there, and every other key as the helper
    returned it.  No other file in [outputs] has changed. *)
Theorem sampling_loop_saves_one_tagged_file_per_pass
    (find_tbr_hcpb : Json.value -> Json.value ->
                     SamplingRuns.Run (list (string * Json.value)))
    (json_dumps : Json.value -> string) (sample : string)
    (passes : list (string * list Json.value)) (w : Posix.filesystem) :
  SamplingRuns.keeps_out_of_outputs find_tbr_hcpb ->
  SamplingRuns.always_returns find_tbr_hcpb ->
  Forall (fun p => Sampling.uuid_text p.1 = true /\ SamplingRuns.two_or_more p.2 = true)
         passes ->
  List.NoDup (map fst passes) ->
  (forall p, In p passes -> Sampling.filename p.1 ∉ Posix.dirs w) ->
  Posix.files w !! "outputs" = None ->
  exists w' : Posix.filesystem,
    SamplingRuns.sampling_loop find_tbr_hcpb json_dumps sample passes w = (inr tt, w')
    /\ (forall p, In p passes ->
          exists a b called returned result,
            p.2 !! 0%nat = Some a /\ p.2 !! 1%nat = Some b
            /\ (find_tbr_hcpb a b called).1 = inr returned
            /\ Posix.files w' !! Sampling.filename p.1
               = Some (json_dumps (Json.Dict result))
            /\ PyDict.getitem "sample" result = Some (Json.Str sample)
            /\ (forall k, k <> "sample" ->
                  PyDict.getitem k result = PyDict.getitem k returned))
    /\ (forall q, SamplingRuns.under_outputs q = true ->
          (forall p, In p passes -> Sampling.filename p.1 <> q) ->
          Posix.files w' !! q = Posix.files w !! q)
    /\ Posix.files w' !! "outputs" = None
    /\ (forall q, SamplingRuns.under_outputs q = true -> q <> "outputs" ->
          q ∈ Posix.dirs w' -> q ∈ Posix.dirs w).
Proof.
  intros Hkeeps Hreturns Hpasses. revert w.
  induction Hpasses as [|[u coord] passes [Hu Htwo] _ IH]; intros w Hnd Hnodir Hout.
  - exists w. split; [reflexivity|]. split; [intros p []|].
    split; [reflexivity|]. split; [exact Hout | auto].
  - cbn [fst snd map] in *. apply NoDup_cons_iff in Hnd as [Hnotin Hnd].
    destruct coord as [|a [|b coord]]; [discriminate..|].
    destruct (sample_once_saves find_tbr_hcpb json_dumps sample u a b coord w
                Hkeeps Hreturns Hu (Hnodir _ (or_introl eq_refl)) Hout)
      as (returned & w0 & Hcall & Hpass).
    assert (Hw0 : forall q, SamplingRuns.under_outputs q = true ->
                    Posix.files w0 !! q = Posix.files w !! q
                    /\ (q ∈ Posix.dirs w0 <-> q ∈ Posix.dirs w)).
    { intros q Hq. pose proof (Hkeeps a b w q Hq) as H. now rewrite Hcall in H. }
    set (result := PyDict.setitem "sample" (Json.Str sample) returned) in *.
    set (w1 := {| Posix.files := <[ Sampling.filename u := json_dumps (Json.Dict result) ]>
                                   (Posix.files w0);
                  Posix.dirs := {[ "outputs" ]} ∪ Posix.dirs w0 |}) in *.
    destruct (IH w1 Hnd) as (w' & Hrun & Hfiles & Hother & Hout' & Hdirs').
    { intros p Hp. subst w1. cbn [Posix.dirs].
      pose proof (filename_not_outputs p.1).
      pose proof (Hnodir p (or_intror Hp)) as Hn.
      rewrite <- (proj2 (Hw0 _ (filename_under_outputs p.1))) in Hn. set_solver. }
    { subst w1. cbn [Posix.files]. rewrite lookup_insert_ne by apply filename_not_outputs.
      now rewrite (proj1 (Hw0 "outputs" eq_refl)). }
    exists w'. split; [|split; [|split; [|split]]].
    + cbn [SamplingRuns.sampling_loop]. unfold mbind at 1.
      unfold SamplingRuns.Run_bind at 1. rewrite Hpass. exact Hrun.
    + intros p [<- | Hp]; [|now apply Hfiles]. cbn [fst snd].
      exists a, b, w, returned, result. split; [reflexivity|]. split; [reflexivity|].
      split; [now rewrite Hcall|]. split; [|split].
      * rewrite Hother.
        -- subst w1. cbn [Posix.files]. apply lookup_insert_eq.
        -- apply filename_under_outputs.
        -- intros p Hp Heq%filename_inj. apply Hnotin. rewrite <- Heq. now apply in_map.
      * apply getitem_setitem_eq.
      * intros k Hk. apply getitem_setitem_ne. congruence.
    + intros q Hq Hne. rewrite Hother; [|exact Hq|intros p Hp; apply Hne; now right].
      subst w1. cbn [Posix.files].
      rewrite lookup_insert_ne by (apply (Hne (u, a :: b :: coord)); now left).
      apply (Hw0 q Hq).
    + exact Hout'.
    + intros q Hq Hne Hin. apply Hdirs' in Hin; [|exact Hq|exact Hne].
      subst w1. cbn [Posix.dirs] in Hin. apply (Hw0 q Hq). set_solver.
Qed.

Lemma sampling_loop_saves_one_tagged_file_per_pass_witness :
  let find_tbr_hcpb := fun (a b : Json.value) (w : Posix.filesystem) =>
    (inr [("enrichment", b); ("tbr", a)],
     {| Posix.files := <[ "statepoint.10.h5" := "tallies" ]> (Posix.files w);
        Posix.dirs := Posix.dirs w |}) : (SamplingRuns.exception + _) * _ in
  let passes := [("0f", [Json.Float 25; Json.Float 50]); ("1e", [Json.Int 0; Json.Int 100])] in
  let w := {| Posix.files := ∅; Posix.dirs := ∅ |} in
  exists w' : Posix.filesystem,
    SamplingRuns.sampling_loop find_tbr_hcpb (fun _ => "{}") "grid" passes w = (inr tt, w')
    /\ Posix.files w' !! "outputs/0f.json" = Some "{}"
    /\ Posix.files w' !! "outputs/1e.json" = Some "{}"
    /\ Posix.files w' !! "outputs/other.json" = None.
Proof.
  cbv zeta.
  destruct (sampling_loop_saves_one_tagged_file_per_pass
              (fun (a b : Json.value) (w : Posix.filesystem) =>
                 (inr [("enrichment", b); ("tbr", a)],
                  {| Posix.files := <[ "statepoint.10.h5" := "tallies" ]> (Posix.files w);
                     Posix.dirs := Posix.dirs w |}))
              (fun _ => "{}") "grid"
              [("0f", [Json.Float 25; Json.Float 50]); ("1e", [Json.Int 0; Json.Int 100])]
              {| Posix.files := ∅; Posix.dirs := ∅ |})
    as (w' & Hrun & Hfiles & Hother & _).
  - intros a b w p Hp. cbn [fst snd Posix.files Posix.dirs]. split; [|reflexivity].
    apply lookup_insert_ne. intros Heq. subst p. discriminate Hp.
  - intros a b w. eexists. reflexivity.
  - repeat constructor.
  - cbn [map fst]. constructor; [cbn; intros [H|[]]; discriminate H|].
    constructor; [intros [] | constructor].
  - intros p _. apply not_elem_of_empty.
  - reflexivity.
  - exists w'. split; [exact Hrun|]. split; [|split].
    + destruct (Hfiles ("0f", [Json.Float 25; Json.Float 50]) (or_introl eq_refl))
        as (a & b & called & returned & result & _ & _ & _ & H & _). exact H.
    + destruct (Hfiles ("1e", [Json.Int 0; Json.Int 100]) (or_intror (or_introl eq_refl)))
        as (a & b & called & returned & result & _ & _ & _ & H & _). exact H.
    + rewrite (Hother "outputs/other.json" eq_refl); [reflexivity|].
      intros p [<- | [<- | []]]; discriminate.
Defined.





(** * The optimisation notebook's samples and sweeps *)

Section OptimisationCellFacts.
Import OptimisationCells.

Lemma last_item_app {A} (l : list A) (a : A) : last_item (l ++ [a]) = Some a.
Proof. unfold last_item. rewrite map_app. apply last_last. Qed.

Lemma nth_error_flat_map_blocks {A B} (f : A -> list B) (n : nat) (l : list A)
    (i j : nat) (a : A) :
  (forall x, length (f x) = n) ->
  nth_error l i = Some a -> (j < n)%nat ->
  nth_error (flat_map f l) (i * n + j) = nth_error (f a) j.
Proof.
  intros Hlen. revert i. induction l as [|x l IH]; intros i Hi Hj.
  - destruct i; discriminate Hi.
  - destruct i as [|i]; cbn [flat_map].
    + injection Hi as ->. cbn [Nat.mul Nat.add].
      apply nth_error_app1. now rewrite Hlen.
    + cbn [nth_error] in Hi.
      rewrite nth_error_app2 by (rewrite Hlen; lia).
      rewrite Hlen. replace (S i * n + j - n)%nat with (i * n + j)%nat by lia.
      now apply IH.
Qed.

End OptimisationCellFacts.

(** X8.  What the 1D plot cell prints as "Maximum TBR of" is the negated
    value of the last sample the optimiser took, next to that sample's point;
    it need not be the largest TBR among the samples.  With no sample at all
    the cell raises [IndexError]. *)
Theorem printed_maximum_is_the_last_sample :
  (forall (data : list (string * float)) (x : string) (v : float),
     OptimisationCells.print_maximum_tbr_of (data ++ [(x, v)])
     = Some [ PyNum.Text "Maximum TBR of "; PyNum.Number (- v)%float;
              PyNum.Text "found with a breeder percent in breeder plus multiplier of ";
              PyNum.Text x ])
  /\ OptimisationCells.print_maximum_tbr_of [] = None
  /\ (exists (data : list (string * float)) (shown larger : float)
             (rest : list PyNum.printed),
        OptimisationCells.print_maximum_tbr_of data
        = Some (PyNum.Text "Maximum TBR of " :: PyNum.Number shown :: rest)
        /\ In larger (OptimisationCells.tbr_vals data)
        /\ PrimFloat.ltb shown larger = true).
Proof.
  split; [|split].
  - intros data x v. unfold OptimisationCells.print_maximum_tbr_of,
      OptimisationCells.tbr_vals, OptimisationCells.x_vals.
    rewrite !map_app. cbn [map fst snd].
    rewrite !last_item_app. reflexivity.
  - reflexivity.
  - exists [("25.0", (-1.25)%float); ("50.0", (-0.5)%float)], 0.5%float, 1.25%float.
    eexists. split; [reflexivity|]. split; [left; reflexivity | reflexivity].
Qed.

(** X9.  The 2D sweep stores one entry per pair of grid values, row by row:
    entry [i * len(enrichment_grid) + j] holds the [i]-th breeder percentage,
    the [j]-th enrichment, and the negated objective at that pair; there are
    [len(breeder_grid) * len(enrichment_grid)] entries. *)
Theorem true_values_2D_are_stored_row_by_row (objective : list float -> float)
    (breeder_grid enrichment_grid : list float) :
  length (OptimisationCells.get_true_values_2D objective breeder_grid enrichment_grid)
  = (length breeder_grid * length enrichment_grid)%nat
  /\ (forall (i j : nat) (b e : float),
        nth_error breeder_grid i = Some b ->
        nth_error enrichment_grid j = Some e ->
        nth_error (OptimisationCells.get_true_values_2D objective breeder_grid
                     enrichment_grid)
                  (i * length enrichment_grid + j)
        = Some {| OptimisationCells.breeder_percent_in_breeder_plus_multiplier := b;
                  OptimisationCells.blanket_breeder_li6_enrichment := e;
                  OptimisationCells.tbr := (- objective [b; e])%float |}).
Proof.
  unfold OptimisationCells.get_true_values_2D. split.
  - induction breeder_grid as [|b l IH]; [reflexivity|].
    cbn [flat_map length]. rewrite length_app, length_map, IH. reflexivity.
  - intros i j b e Hb He.
    rewrite (nth_error_flat_map_blocks _ (length enrichment_grid) breeder_grid i j b).
    + rewrite nth_error_map, He. reflexivity.
    + intros x. apply length_map.
    + exact Hb.
    + apply nth_error_Some. now rewrite He.
Qed.

Lemma true_values_2D_are_stored_row_by_row_witness :
  nth_error (OptimisationCells.get_true_values_2D (fun x => fold_left PrimFloat.add x 0%float)
               [0; 50; 100]%float [0; 100]%float) (1 * 2 + 1)
  = Some {| OptimisationCells.breeder_percent_in_breeder_plus_multiplier := 50%float;
            OptimisationCells.blanket_breeder_li6_enrichment := 100%float;
            OptimisationCells.tbr :=
              (- fold_left PrimFloat.add [50; 100] 0)%float |}.
Proof.
  apply (proj2 (true_values_2D_are_stored_row_by_row
                  (fun x => fold_left PrimFloat.add x 0%float)
                  [0; 50; 100]%float [0; 100]%float) 1%nat 1%nat).
  - reflexivity.
  - reflexivity.
Defined.

(** * The sign of the DPA *)

Section SignFacts.
Import Binary64.

(** Rounding keeps the sign it is given. *)
Lemma binary_round_aux_sign (s : bool) (m e : Z) (l : location) :
  has_sign s (binary_round_aux prec emax s m e l).
Proof.
  unfold binary_round_aux.
  destruct (shr_fexp prec emax m e l) as [mrs e'].
  destruct (shr_fexp prec emax _ e' loc_Exact) as [mrs' e''].
  destruct (shr_m mrs'); cbn; [reflexivity | | exact I].
  destruct (e'' <=? emax - prec)%Z; reflexivity.
Qed.

Lemma not_negative_has_sign (x : float) :
  not_negative x = true <-> has_sign false (Prim2SF x).
Proof.
  unfold not_negative, has_sign.
  destruct (Prim2SF x) as [s|s| |s m e]; try destruct s; cbn; intuition congruence.
Qed.

Lemma SFmul_sign (x y : spec_float) :
  has_sign false x -> has_sign false y -> has_sign false (SFmul prec emax x y).
Proof.
  destruct x as [sx|sx| |sx mx ex], y as [sy|sy| |sy my ey]; cbn;
    try (intros -> ->; reflexivity); try (intros; exact I).
  intros -> ->. apply binary_round_aux_sign.
Qed.

Lemma SFdiv_sign (x y : spec_float) :
  has_sign false x -> has_sign false y -> has_sign false (SFdiv prec emax x y).
Proof.
  destruct x as [sx|sx| |sx mx ex], y as [sy|sy| |sy my ey]; cbn;
    try (intros -> ->; reflexivity); try (intros; exact I).
  intros -> ->.
  destruct (SFdiv_core_binary prec emax (Z.pos mx) ex (Z.pos my) ey) as [[mz ez] lz].
  apply binary_round_aux_sign.
Qed.

Lemma mul_not_negative (x y : float) :
  not_negative x = true -> not_negative y = true -> not_negative (x * y) = true.
Proof.
  rewrite !not_negative_has_sign, mul_spec. apply SFmul_sign.
Qed.

Lemma div_not_negative (x y : float) :
  not_negative x = true -> not_negative y = true -> not_negative (x / y) = true.
Proof.
  rewrite !not_negative_has_sign, div_spec. apply SFdiv_sign.
Qed.

End SignFacts.

(** X10.  For a tally sum and a cell volume that are not negative, the DPA is
    not negative either: the post-processing only multiplies and divides by
    positive constants, so its result is a positive number, [+0.0], [+inf] or
    NaN, and never a negative number or [-0.0]. *)
Theorem DPA_is_not_negative (Series_sum : list float -> float) (df_mean : list float)
    (cell_volume : float) :
  Binary64.not_negative (Series_sum df_mean) = true ->
  Binary64.not_negative cell_volume = true ->
  Binary64.not_negative (FindDpa.DPA df_mean Series_sum cell_volume) = true.
Proof.
  intros Hs Hv.
  unfold FindDpa.DPA, FindDpa.displacements_for_all_atoms,
    FindDpa.displacements_per_source_neutron_with_recombination,
    FindDpa.displacements_per_source_neutron, FindDpa.damage_energy_in_ev,
    FindDpa.number_of_iron_atoms.
  apply div_not_negative.
  - apply mul_not_negative; [vm_compute; reflexivity|].
    apply mul_not_negative; [|vm_compute; reflexivity].
    apply div_not_negative; [exact Hs | vm_compute; reflexivity].
  - apply div_not_negative; [|vm_compute; reflexivity].
    apply mul_not_negative; [exact Hv | vm_compute; reflexivity].
Qed.

Lemma DPA_is_not_negative_witness :
  Binary64.not_negative
    (FindDpa.DPA [15000; 230000; 5000; 700]%float FindDpa.sequential_sum 950775794.85%float)
  = true.
Proof.
  apply DPA_is_not_negative; vm_compute; reflexivity.
Defined.

(** X11.  The post-processing cells of the DPA notebook raise no
    [ZeroDivisionError], whatever the tally sum and even for a cell volume of
    zero: the number of iron atoms is then [0.0], and since the dividend is a
    numpy [float64] the last cell binds [DPA] to an infinity (when the
    displacements are not zero) or to NaN (when they are).  Between two
    Python [float]s the same division would have raised. *)
Theorem find_dpa_with_zero_volume_does_not_raise
    (Series_sum : list float -> float) (df_mean : list float) :
  let inputs : gmap string Arith.number :=
    {[ "damage_energy_in_ev" := Arith.Float64 (Series_sum df_mean);
       "volume_of_firstwall_cell" := Arith.PyFloat 0 ]} in
  let displacements := FindDpa.displacements_for_all_atoms df_mean Series_sum in
  exists DPA : float,
    Arith.run inputs Notebooks.nb_find_dpa !! "number_of_iron_atoms"
    = Some (Arith.PyFloat 0)
    /\ Arith.run inputs Notebooks.nb_find_dpa !! "DPA" = Some (Arith.Float64 DPA)
    /\ Prim2SF DPA
       = match Prim2SF displacements with
         | S754_zero _ | S754_nan => S754_nan
         | S754_infinity s | S754_finite s _ _ => S754_infinity s
         end
    /\ Arith.apply Py.Div (Arith.PyFloat displacements) (Arith.PyFloat 0) = None.
Proof.
  cbv zeta.
  destruct (find_dpa_cells_compute_DPA Series_sum df_mean 0)
    as (_ & _ & _ & Hatoms & Hdpa). cbv zeta in Hatoms, Hdpa.
  assert (H0 : FindDpa.number_of_iron_atoms 0 = 0%float) by (vm_compute; reflexivity).
  exists (FindDpa.DPA df_mean Series_sum 0). split; [|split; [exact Hdpa|split]].
  - rewrite Hatoms, H0. reflexivity.
  - unfold FindDpa.DPA. rewrite H0, div_spec.
    assert (Hz : Prim2SF 0 = S754_zero false) by (vm_compute; reflexivity).
    rewrite Hz.
    destruct (Prim2SF (FindDpa.displacements_for_all_atoms df_mean Series_sum))
      as [s|s| |s m e]; cbn; try reflexivity; now rewrite xorb_false_r.
  - reflexivity.
Qed.

(** * The geometry cells *)

Section CsgFacts.
Import QArith Lqa.

Lemma Qle_bool_reflect (a b : Q) : reflect (a <= b)%Q (Qle_bool a b).
Proof. apply iff_reflect. symmetry. apply Qle_bool_iff. Qed.

(** The cells and the boundary of a notebook's geometry, once computed,
    are those of the geometry. *)
Lemma geometry_found (nb : Py.notebook) (u : list (string * Csg.region))
    (b : list Csg.surface) :
  (fun g => (Csg.universe g, Csg.boundary g)) <$> Csg.geometry_of nb = Some (u, b) ->
  exists g, Csg.geometry_of nb = Some g /\ Csg.universe g = u /\ Csg.boundary g = b.
Proof.
  destruct (Csg.geometry_of nb) as [g|]; [|discriminate].
  cbn. intros [= Hu Hb]. now exists g.
Qed.

End CsgFacts.

(** Case analysis on the side of each surface a point is on; the sides that
    contradict each other are discarded by linear arithmetic over the values
    of the surfaces' equations. *)
Ltac sides :=
  repeat (match goal with
          | |- context [QArith_base.Qle_bool ?a ?b] => destruct (Qle_bool_reflect a b)
          end; try (exfalso; Lqa.lra));
  try reflexivity.

(** X12.  In the six notebooks that build their geometry from concentric
    spheres (and, in the 2D mesh notebook, a plane), the cells of the
    universe partition the inside of the vacuum boundary: every point inside
    it lies in exactly one cell, and no point outside it lies in any.  The
    point source of each of these notebooks is inside the boundary. *)
Theorem cells_partition_the_inside_of_the_boundary (nb : Py.notebook) :
  In nb [ Notebooks.nb_tritium_breeding_ratio; Notebooks.nb_find_dpa;
          Notebooks.nb_example_2d_mesh_tallies; Notebooks.nb_photon_energy_spectra;
          Notebooks.nb_neutron_energy_spectra;
          Notebooks.nb_transmutation_isotope_build_up ] ->
  exists g : Csg.geometry,
    Csg.geometry_of nb = Some g
    /\ Csg.universe g <> []
    /\ (forall p : Csg.point,
          length (Csg.cells_at g p) = if Csg.inside_boundary g p then 1%nat else 0%nat)
    /\ (exists s, Csg.source_point nb = Some s /\ Csg.inside_boundary g s = true).
Proof.
  intros H. cbn [In] in H.
  repeat (destruct H as [<- | H]); [..|contradiction];
    (match goal with
     | |- exists g, Csg.geometry_of ?nb = Some g /\ _ =>
         edestruct (geometry_found nb) as (g & Hg & Hu & Hb); [vm_compute; reflexivity|]
     end;
     exists g; split; [exact Hg|]; split; [rewrite Hu; discriminate|]; split;
     [ intros [[x y] z]; unfold Csg.cells_at, Csg.inside_boundary; rewrite Hu, Hb;
       cbn [List.filter map forallb Csg.contains Csg.evaluate fst snd];
       sides
     | eexists; split; [vm_compute; reflexivity|];
       unfold Csg.inside_boundary; rewrite Hb; vm_compute; reflexivity ]).
Qed.

Lemma cells_partition_the_inside_of_the_boundary_witness :
  exists g : Csg.geometry,
    Csg.geometry_of Notebooks.nb_example_2d_mesh_tallies = Some g
    /\ Csg.universe g <> []
    /\ (forall p : Csg.point,
          length (Csg.cells_at g p) = if Csg.inside_boundary g p then 1%nat else 0%nat)
    /\ (exists s, Csg.source_point Notebooks.nb_example_2d_mesh_tallies = Some s
                  /\ Csg.inside_boundary g s = true).
Proof.
  apply cells_partition_the_inside_of_the_boundary.
  right; right; left; reflexivity.
Defined.

(** X13.  In the 3D mesh notebook the cells of the universe overlap.  The
    first wall is the whole shell between the spheres of radius 500 and 510,
    and the central column (the two cylinders of radius 100 and 110) runs
    through it: a point of the shell inside the cylinder of radius 110 lies in
    two cells, for instance (0, 0, 505) in [central_sol_cell] and in
    [first_wall_cell].  Every other point inside the vacuum boundary lies in
    exactly one cell, and no point outside it in any.  The point source, at
    (150, 150, 0), lies in [inner_vessel_cell] only. *)
Theorem mesh_3d_first_wall_overlaps_the_central_column :
  exists g : Csg.geometry,
    Csg.geometry_of Notebooks.nb_example_3d_mesh_tallies = Some g
    /\ Csg.cells_at g (Csg.integer_point 0 0 505) = ["central_sol_cell"; "first_wall_cell"]
    /\ Csg.cells_at g (Csg.integer_point 105 0 495)
       = ["central_shield_cell"; "first_wall_cell"]
    /\ (forall p : Csg.point,
          length (Csg.cells_at g p)
          = if Csg.inside_boundary g p then
              if Csg.contains Csg.shell_in_column p then 2%nat else 1%nat
            else 0%nat)
    /\ Csg.source_point Notebooks.nb_example_3d_mesh_tallies
       = Some (Csg.integer_point 150 150 0)
    /\ Csg.cells_at g (Csg.integer_point 150 150 0) = ["inner_vessel_cell"].
Proof.
  edestruct (geometry_found Notebooks.nb_example_3d_mesh_tallies)
    as (g & Hg & Hu & Hb); [vm_compute; reflexivity|].
  exists g. split; [exact Hg|].
  split; [unfold Csg.cells_at; rewrite Hu; vm_compute; reflexivity|].
  split; [unfold Csg.cells_at; rewrite Hu; vm_compute; reflexivity|].
  split; [|split; [vm_compute; reflexivity
                  | unfold Csg.cells_at; rewrite Hu; vm_compute; reflexivity]].
  intros [[x y] z]. unfold Csg.cells_at, Csg.inside_boundary, Csg.shell_in_column.
  rewrite Hu, Hb.
  cbn [List.filter map forallb Csg.contains Csg.evaluate fst snd].
  sides.
Qed.

(** * The tally meshes and the geometry *)

(** As [sides], with the squares of the coordinates taken into account. *)
Ltac sides_of_box :=
  repeat (match goal with
          | |- context [QArith_base.Qle_bool ?a ?b] => destruct (Qle_bool_reflect a b)
          end; try (exfalso; Lqa.nra));
  cbn [negb andb]; try reflexivity; try discriminate.

(** X14.  The mesh of the 2D mesh notebook encloses the whole model: every
    point inside the vacuum boundary, the sphere of radius 90, lies strictly
    inside the box from (-200, -200, -200) to (200, 200, 200) that the mesh
    filter is given.  The mesh has 100 by 1 by 100 cells of 4 by 400 by 4. *)
Theorem mesh_2d_encloses_the_model :
  exists (g : Csg.geometry) (m : Mesh.mesh),
    Csg.geometry_of Notebooks.nb_example_2d_mesh_tallies = Some g
    /\ Mesh.tally_mesh Notebooks.nb_example_2d_mesh_tallies = Some m
    /\ Mesh.dimension m = Some [100; 1; 100]%Z
    /\ Mesh.cell_size m = Some (map QArith_base.inject_Z [4; 400; 4]%Z)
    /\ (forall p : Csg.point,
          Csg.inside_boundary g p = true -> Mesh.strictly_inside m p = true).
Proof.
  edestruct (geometry_found Notebooks.nb_example_2d_mesh_tallies)
    as (g & Hg & Hu & Hb); [vm_compute; reflexivity|].
  destruct (Mesh.tally_mesh Notebooks.nb_example_2d_mesh_tallies) as [m|] eqn:Hm;
    [|vm_compute in Hm; discriminate Hm].
  assert (Hm' : Some m = Mesh.tally_mesh Notebooks.nb_example_2d_mesh_tallies)
    by now rewrite Hm.
  vm_compute in Hm'. injection Hm' as Hm'.
  exists g, m. split; [exact Hg|]. split; [reflexivity|].
  split; [rewrite Hm'; reflexivity|]. split; [rewrite Hm'; vm_compute; reflexivity|].
  intros [[x y] z]. unfold Csg.inside_boundary. rewrite Hb, Hm'.
  cbn [forallb Csg.contains Csg.evaluate Mesh.strictly_inside Mesh.lower_left
       Mesh.upper_right].
  sides_of_box.
Qed.

(** X15.  The mesh of the 3D mesh notebook covers one half of the model.  Its
    box runs from (-750, 0, -750) to (750, 750, 750): of the points inside
    the vacuum boundary, the sphere of radius 610, those with [y > 0] lie
    strictly inside the box and those with [y < 0] lie outside it.  The point
    source, at (150, 150, 0), is inside the box.  The mesh has 100 by 50 by
    100 cells, cubes of side 15. *)
Theorem mesh_3d_covers_the_half_with_positive_y :
  exists (g : Csg.geometry) (m : Mesh.mesh),
    Csg.geometry_of Notebooks.nb_example_3d_mesh_tallies = Some g
    /\ Mesh.tally_mesh Notebooks.nb_example_3d_mesh_tallies = Some m
    /\ Mesh.dimension m = Some [100; 50; 100]%Z
    /\ Mesh.cell_size m = Some (map QArith_base.inject_Z [15; 15; 15]%Z)
    /\ (forall x y z : QArith_base.Q,
          Csg.inside_boundary g (x, y, z) = true ->
          (QArith_base.Qlt (QArith_base.inject_Z 0) y ->
           Mesh.strictly_inside m (x, y, z) = true)
          /\ (QArith_base.Qlt y (QArith_base.inject_Z 0) ->
              Mesh.within m (x, y, z) = false))
    /\ Mesh.strictly_inside m (Csg.integer_point 150 150 0) = true.
Proof.
  edestruct (geometry_found Notebooks.nb_example_3d_mesh_tallies)
    as (g & Hg & Hu & Hb); [vm_compute; reflexivity|].
  destruct (Mesh.tally_mesh Notebooks.nb_example_3d_mesh_tallies) as [m|] eqn:Hm;
    [|vm_compute in Hm; discriminate Hm].
  assert (Hm' : Some m = Mesh.tally_mesh Notebooks.nb_example_3d_mesh_tallies)
    by now rewrite Hm.
  vm_compute in Hm'. injection Hm' as Hm'.
  exists g, m. split; [exact Hg|]. split; [reflexivity|].
  split; [rewrite Hm'; reflexivity|]. split; [rewrite Hm'; vm_compute; reflexivity|].
  split; [|rewrite Hm'; vm_compute; reflexivity].
  intros x y z. unfold Csg.inside_boundary. rewrite Hb, Hm'.
  cbn [forallb Csg.contains Csg.evaluate Mesh.strictly_inside Mesh.within
       Mesh.lower_left Mesh.upper_right].
  change (QArith_base.inject_Z 0) with (QArith_base.Qmake 0 1).
  intros Hin. split; intros Hy; revert Hin; sides_of_box.
Qed.

(** * What reaches what *)

(** X16.  The depletion notebook constructs its [Operator] twice, and the
    second construction, [Operator(model, chain_filename)], replaces the
    first: it is the operator the integrator is given.  The settings of the
    first construction, [normalization_mode="source-rate"],
    [dilute_initial=0] and [reduce_chain=True], are passed to an operator
    that is never integrated. *)
Theorem integrator_runs_the_second_operator :
  Dataflow.operator_constructions Notebooks.nb_transmutation_isotope_build_up
  = [ ([], [ ("model", Py.E_Name "model"); ("chain_file", Py.E_Name "chain_filename");
             ("normalization_mode", Py.E_Str "source-rate");
             ("dilute_initial", Py.E_Int 0); ("reduce_chain", Py.E_Bool true) ]);
      ([Py.E_Name "model"; Py.E_Name "chain_filename"], []) ]
  /\ Dataflow.integrated_operator Notebooks.nb_transmutation_isotope_build_up
     = Some ([Py.E_Name "model"; Py.E_Name "chain_filename"], [])
  /\ (forall k,
        (Dataflow.integrated_operator Notebooks.nb_transmutation_isotope_build_up
           ≫= fun c => Py.keyword k c.2) = None).
Proof.
  split; [vm_compute; reflexivity|].
  assert (H : Dataflow.integrated_operator Notebooks.nb_transmutation_isotope_build_up
              = Some ([Py.E_Name "model"; Py.E_Name "chain_filename"], []))
    by (vm_compute; reflexivity).
  split; [exact H|]. intros k. rewrite H. reflexivity.
Qed.

(** X17.  In the 3D figure of the optimisation notebook the [scene] display
    names the key ['zaxis'] twice.  The dictionary it evaluates to has two
    items: ['yaxis'] and ['zaxis'], the latter titled 'TBR'.  The title
    'breeder percent in breeder plus multiplier' reaches no axis, and the
    x axis is given no title. *)
Theorem scene_display_keeps_the_last_zaxis :
  Dataflow.keyword_of_calls "update_layout" "scene"
    Notebooks.nb_parameter_study_optimisation
  = [ Py.E_Dict
        [ (Py.E_Str "yaxis",
           Py.E_Dict [(Py.E_Str "title", Py.E_Str "Li6 enrichment percent")]);
          (Py.E_Str "zaxis",
           Py.E_Dict [(Py.E_Str "title",
                       Py.E_Str "breeder percent in breeder plus multiplier")]);
          (Py.E_Str "zaxis", Py.E_Dict [(Py.E_Str "title", Py.E_Str "TBR")]) ] ]
  /\ (forall scene,
        In scene (Dataflow.keyword_of_calls "update_layout" "scene"
                    Notebooks.nb_parameter_study_optimisation) ->
        Dataflow.dict_of scene
        = Some [ ("yaxis",
                  Py.E_Dict [(Py.E_Str "title", Py.E_Str "Li6 enrichment percent")]);
                 ("zaxis", Py.E_Dict [(Py.E_Str "title", Py.E_Str "TBR")]) ]
        /\ (Dataflow.dict_of scene ≫= PyDict.getitem "xaxis") = None).
Proof.
  assert (H : Dataflow.keyword_of_calls "update_layout" "scene"
                Notebooks.nb_parameter_study_optimisation = _)
    by (vm_compute; reflexivity).
  split; [exact H|].
  intros scene Hin. rewrite H in Hin. destruct Hin as [<- | []].
  split; reflexivity.
Qed.

Lemma scene_display_keeps_the_last_zaxis_witness :
  (Dataflow.dict_of
     (Py.E_Dict
        [ (Py.E_Str "yaxis",
           Py.E_Dict [(Py.E_Str "title", Py.E_Str "Li6 enrichment percent")]);
          (Py.E_Str "zaxis",
           Py.E_Dict [(Py.E_Str "title",
                       Py.E_Str "breeder percent in breeder plus multiplier")]);
          (Py.E_Str "zaxis", Py.E_Dict [(Py.E_Str "title", Py.E_Str "TBR")]) ])
     ≫= PyDict.getitem "xaxis") = None.
Proof.
  apply (proj2 scene_display_keeps_the_last_zaxis).
  rewrite (proj1 scene_display_keeps_the_last_zaxis). left. reflexivity.
Defined.

(** X18.  The plotting loop of the sampling notebook pairs the four sampling
    methods with the first four of the five entries of [row_col_coords]:
    [zip] stops at the shorter list.  Every position it hands to [add_trace]
    lies in the 2 by 2 grid that [make_subplots] was given; the fifth entry,
    [[3, 1]], which lies outside the grid, is never used. *)
Theorem interpolated_subplots_stay_in_the_grid :
  exists rows cols positions,
    Dataflow.interpolated_subplots Notebooks.nb_sampling_parameter_space
    = Some (rows, cols, positions)
    /\ positions = [ ("random", (1, 1)); ("grid", (1, 2));
                     ("halton", (2, 1)); ("adaptive", (2, 2)) ]%Z
    /\ (forall sample row col, In (sample, (row, col)) positions ->
          (1 <= row <= rows /\ 1 <= col <= cols)%Z)
    /\ (Py.assigned "row_col_coords" (Py.statements Notebooks.nb_sampling_parameter_space)
          ≫= Dataflow.integer_lists_of)
       = Some [[1; 1]; [1; 2]; [2; 1]; [2; 2]; [3; 1]]%Z
    /\ (rows < 3)%Z.
Proof.
  eexists _, _, _. split; [vm_compute; reflexivity|].
  split; [reflexivity|]. split; [|split; [vm_compute; reflexivity | reflexivity]].
  intros sample row col Hin. cbn [In] in Hin.
  repeat (destruct Hin as [[= <- <- <-] | Hin]; [lia|]). contradiction.
Qed.

(** X19.  Every file the optimisation notebook reads back, with
    [pd.read_json] or with [open(_, 'r')], is one that an earlier cell of the
    notebook wrote with [output_result] under the same name: the two 1D files
    and the 2D sweep. *)
Theorem optimisation_reads_what_it_wrote :
  Dataflow.files_written Notebooks.nb_parameter_study_optimisation
  = [ (19%nat, "outputs/1d_tbr_values.json");
      (24%nat, "outputs/1d_optimised_values.json");
      (39%nat, "outputs/2d_tbr_values.json") ]
  /\ Dataflow.files_read Notebooks.nb_parameter_study_optimisation
     = [ (25%nat, "outputs/1d_tbr_values.json");
         (28%nat, "outputs/1d_optimised_values.json");
         (46%nat, "outputs/2d_tbr_values.json") ]
  /\ (forall i path,
        In (i, path) (Dataflow.files_read Notebooks.nb_parameter_study_optimisation) ->
        exists j, (j < i)%nat
          /\ In (j, path)
               (Dataflow.files_written Notebooks.nb_parameter_study_optimisation))
  /\ Forall (fun w => OptimisationFiles.plain_relative w.2 = true)
       (Dataflow.files_written Notebooks.nb_parameter_study_optimisation).
Proof.
  assert (Hw : Dataflow.files_written Notebooks.nb_parameter_study_optimisation = _)
    by (vm_compute; reflexivity).
  assert (Hr : Dataflow.files_read Notebooks.nb_parameter_study_optimisation = _)
    by (vm_compute; reflexivity).
  split; [exact Hw|]. split; [exact Hr|]. rewrite Hw, Hr. split.
  - intros i path Hin. cbn [In] in Hin.
    destruct Hin as [[= <- <-] | [[= <- <-] | [[= <- <-] | []]]].
    + exists 19%nat. split; [lia | left; reflexivity].
    + exists 24%nat. split; [lia | right; left; reflexivity].
    + exists 39%nat. split; [lia | right; right; left; reflexivity].
  - repeat constructor.
Qed.

